(** * zpoom: participant simulator and process controller

    A shallow embedding of [simulator.py] and [monitor_streamlit.py] and the
    properties their design document states about them.

    Conventions of the embedding
    - Python [int] is [Z]; durations in seconds (Python [float]) are exact
      rationals [Q], so rounding, infinities and NaN are outside the model;
    - a Python [str] is a [string] whose characters are read as code points
      below 256;
    - everything the interpreter asks of its environment (the two clocks, the
      random generator, the file system, the process table, a pending
      interrupt) is a field of an explicit world that the code threads. *)

From Stdlib Require Import ZArith QArith Qminmax Znumtheory Lia.
From Stdlib Require Import Ascii DecimalString DecimalPos DecimalZ.
From stdpp Require Import gmap strings list.

Local Open Scope Z_scope.

(** ** Python built-ins used by the two scripts *)

Module Py.

(** [range(start, stop, step)] for a positive [step]: the arithmetic
    progression [start, start+step, ...] below [stop]. *)
Definition range_len (start stop step : Z) : nat :=
  Z.to_nat ((stop - start + step - 1) / step).

Definition range3 (start stop step : Z) : list Z :=
  (λ k : nat, start + Z.of_nat k * step) <$> seq 0 (range_len start stop step).

(** [range(n)] as used by [for i in range(count)]. *)
Definition range (n : Z) : list Z := range3 0 n 1.

(** [max(0, x)]: the built-in keeps its first argument unless a later one is
    strictly greater. *)
Definition max0 (x : Q) : Q := if Qlt_le_dec 0 x then x else 0%Q.

(** [random.randint(a, b)] lies in [a..b]; [raw] is the entropy drawn. *)
Definition randint (a b raw : Z) : Z := a + raw mod (b - a + 1).

(** [random.choice(seq)] picks [seq[k]] for some index inside the sequence. *)
Definition choice (pool : list string) (raw : Z) : string :=
  nth (Z.to_nat (raw mod Z.of_nat (length pool))) pool ""%string.

(** [str(i)] for an integer: its decimal digits, after a minus sign when
    it is negative. *)
Definition str_of_int (i : Z) : string := NilZero.string_of_int (Z.to_int i).

End Py.

(** ** Exceptions and the interpreter monad

    A computation over a state [S] returns, raises a Python exception, or
    never gets that far within the observed behaviour of its environment
    ([Hang]: a loop waiting for a clock that is not seen to reach its
    deadline). *)

Inductive exn :=
| KeyError (key : string)
| OSError (msg : string)
| OverflowError (msg : string)
| ValueError (msg : string)
| KeyboardInterrupt.

(** [except Exception] catches every class but the [BaseException]-only
    ones; of those above that leaves out [KeyboardInterrupt]. *)
Definition is_Exception (e : exn) : bool :=
  match e with KeyboardInterrupt => false | _ => true end.

(** [str(e)] as interpolated into a diagnostic. *)
Definition exn_str (e : exn) : string :=
  match e with
  | KeyError key => "'" +:+ key +:+ "'"
  | OSError msg => msg
  | OverflowError msg => msg
  | ValueError msg => msg
  | KeyboardInterrupt => ""
  end.

Inductive outcome (A : Type) :=
| Ret (a : A)
| Raise (e : exn)
| Hang.
Arguments Ret {A} a.
Arguments Raise {A} e.
Arguments Hang {A}.

Definition M (S A : Type) : Type := S → outcome A * S.

Definition ret {S A} (a : A) : M S A := λ s, (Ret a, s).

Definition bind {S A B} (m : M S A) (k : A → M S B) : M S B :=
  λ s, match m s with
       | (Ret a, s') => k a s'
       | (Raise e, s') => (Raise e, s')
       | (Hang, s') => (Hang, s')
       end.

Definition raise {S A} (e : exn) : M S A := λ s, (Raise e, s).
Definition gets {S A} (f : S → A) : M S A := λ s, (Ret (f s), s).
Definition modify {S} (f : S → S) : M S unit := λ s, (Ret tt, f s).

#[global] Instance M_ret {S} : MRet (M S) := λ A, ret.
#[global] Instance M_bind {S} : MBind (M S) := λ A B k m, bind m k.

(** [try: body / except Exception as e: handler e]. *)
Definition try_except_Exception {S A} (body : M S A) (handler : exn → M S A) : M S A :=
  λ s, match body s with
       | (Raise e, s') => if is_Exception e then handler e s' else (Raise e, s')
       | r => r
       end.

(** [try: body / except KeyboardInterrupt: handler / finally: cleanup].
    The cleanup runs on every exit of the two blocks above it that is an exit
    at all; an exception still pending after it is raised again. *)
Definition try_except_KeyboardInterrupt_finally {S}
    (body handler cleanup : M S unit) : M S unit :=
  λ s,
    let guarded :=
      match body s with
      | (Raise KeyboardInterrupt, s') => handler s'
      | r => r
      end in
    match guarded with
    | (Ret tt, s') => cleanup s'
    | (Raise e, s') =>
        match cleanup s' with
        | (Ret tt, s'') => (Raise e, s'')
        | r => r
        end
    | (Hang, s') => (Hang, s')
    end.

(** A stream of environment answers, read from its head. *)
Definition advance {A} (f : nat → A) : nat → A := λ n, f (S n).

(** ** simulator.py *)

Module Simulator.

(** *** Values, dictionaries, timestamps *)

(** The values this program keeps in its dictionaries. *)
Inductive scalar :=
| SNone
| SInt (z : Z)
| SStr (s : string).

(** A [dict] with string keys, in insertion order. *)
Abbreviation dict := (list (string * scalar)).

Fixpoint dict_get (d : dict) (key : string) : option scalar :=
  match d with
  | [] => None
  | (k, v) :: rest => if String.eqb k key then Some v else dict_get rest key
  end.

(** [d[key] = v]: an existing key keeps its place, a new one goes last. *)
Fixpoint dict_set (d : dict) (key : string) (v : scalar) : dict :=
  match d with
  | [] => [(key, v)]
  | (k, v0) :: rest =>
      if String.eqb k key then (k, v) :: rest else (k, v0) :: dict_set rest key v
  end.

(** [d.get(key)]: [None] for a missing key. *)
Definition dict_get_method (d : dict) (key : string) : scalar :=
  default SNone (dict_get d key).

Record datetime := Datetime {
  year : Z; month : Z; day : Z;
  hour : Z; minute : Z; second : Z; microsecond : Z }.

(** Decimal digits of [n], zero-padded on the left to [width]. *)
Definition zfill (width : nat) (n : Z) : string :=
  let digits := Py.str_of_int n in
  String.concat "" (replicate (width - String.length digits) "0"%string) +:+ digits.

(** [datetime.isoformat()] of a naive datetime: the fraction is printed
    unless the microseconds are zero. *)
Definition isoformat (t : datetime) : string :=
  zfill 4 (year t) +:+ "-" +:+ zfill 2 (month t) +:+ "-" +:+ zfill 2 (day t)
  +:+ "T" +:+ zfill 2 (hour t) +:+ ":" +:+ zfill 2 (minute t)
  +:+ ":" +:+ zfill 2 (second t)
  +:+ (if microsecond t =? 0 then "" else "." +:+ zfill 6 (microsecond t)).

(** *** json.dumps of a flat record *)

Definition dquote : ascii := "034"%char.
Definition newline : ascii := "010"%char.

Definition hex_digit (n : N) : ascii :=
  if (n <? 10)%N then ascii_of_N (48 + n) else ascii_of_N (87 + n).

(** One character under [ensure_ascii=True]: the short escapes, then
    [\u00xx] for whatever else lies outside the printable ASCII range. *)
Definition json_escape_char (c : ascii) : string :=
  let n := N_of_ascii c in
  if (n =? 34)%N then "\" +:+ String dquote ""
  else if (n =? 92)%N then "\\"
  else if (n =? 10)%N then "\n"
  else if (n =? 13)%N then "\r"
  else if (n =? 9)%N then "\t"
  else if (n =? 8)%N then "\b"
  else if (n =? 12)%N then "\f"
  else if ((n <? 32) || (126 <? n))%N
       then "\u00" +:+ String (hex_digit (n / 16)) (String (hex_digit (n mod 16)) "")
  else String c "".

Fixpoint json_escape (s : string) : string :=
  match s with
  | EmptyString => ""
  | String c rest => json_escape_char c +:+ json_escape rest
  end.

Definition json_string (s : string) : string :=
  String dquote (json_escape s) +:+ String dquote "".

Definition json_scalar (v : scalar) : string :=
  match v with
  | SNone => "null"
  | SInt z => Py.str_of_int z
  | SStr s => json_string s
  end.

Definition json_item (kv : string * scalar) : string :=
  json_string kv.1 +:+ ": " +:+ json_scalar kv.2.

(** [json.dumps(d)] with the default separators. *)
Definition json_dumps (d : dict) : string :=
  "{" +:+ String.concat ", " (json_item <$> d) +:+ "}".

(** *** The world of one worker process

    What the interpreter reads from outside: its pid, the UTC clock behind
    [datetime.utcnow()], the successive readings of [time.time()], the
    random generator, whether the log can be opened for append, and the
    operating system's answer to a sleep of a given length
    ([sleep_refusal d = Some e]: the call fails with [e]). What it
    writes: its own heap of dictionaries, the entries of an ordinary local
    dict when that is what it is handed as status table, the dictionary held
    by the [Manager] server process, the file system, and what it prints and
    sleeps. [tested] and [past] are history variables: the candidates the
    busy loop has examined, and the stores after each assignment. *)

Inductive event :=
| EvSleep (seconds : Q)
| EvPrint (line : string).

Record stores := Stores {
  st_heap : list dict;
  st_plain : gmap string nat;
  st_manager : gmap string dict }.

Record world := World {
  pid : Z;
  utc : nat → datetime;
  ticks : list Q;
  rand : nat → Z;
  io_error : option string;
  sleep_refusal : Q → option exn;
  heap : list dict;
  plain : gmap string nat;
  manager : gmap string dict;
  fs : gmap string string;
  trace : list event;
  tested : list (Z * bool);
  past : list stores }.

Definition set_utc f w :=
  World (pid w) f (ticks w) (rand w) (io_error w) (sleep_refusal w) (heap w) (plain w)
        (manager w) (fs w) (trace w) (tested w) (past w).
Definition set_ticks ts w :=
  World (pid w) (utc w) ts (rand w) (io_error w) (sleep_refusal w) (heap w) (plain w)
        (manager w) (fs w) (trace w) (tested w) (past w).
Definition set_rand f w :=
  World (pid w) (utc w) (ticks w) f (io_error w) (sleep_refusal w) (heap w) (plain w)
        (manager w) (fs w) (trace w) (tested w) (past w).
Definition set_io_error e w :=
  World (pid w) (utc w) (ticks w) (rand w) e (sleep_refusal w) (heap w) (plain w)
        (manager w) (fs w) (trace w) (tested w) (past w).
Definition set_heap h w :=
  World (pid w) (utc w) (ticks w) (rand w) (io_error w) (sleep_refusal w) h (plain w)
        (manager w) (fs w) (trace w) (tested w) (past w).
Definition set_plain p w :=
  World (pid w) (utc w) (ticks w) (rand w) (io_error w) (sleep_refusal w) (heap w) p
        (manager w) (fs w) (trace w) (tested w) (past w).
Definition set_manager m w :=
  World (pid w) (utc w) (ticks w) (rand w) (io_error w) (sleep_refusal w) (heap w) (plain w)
        m (fs w) (trace w) (tested w) (past w).
Definition set_fs f w :=
  World (pid w) (utc w) (ticks w) (rand w) (io_error w) (sleep_refusal w) (heap w) (plain w)
        (manager w) f (trace w) (tested w) (past w).
Definition set_trace t w :=
  World (pid w) (utc w) (ticks w) (rand w) (io_error w) (sleep_refusal w) (heap w) (plain w)
        (manager w) (fs w) t (tested w) (past w).
Definition set_tested t w :=
  World (pid w) (utc w) (ticks w) (rand w) (io_error w) (sleep_refusal w) (heap w) (plain w)
        (manager w) (fs w) (trace w) t (past w).
Definition set_past p w :=
  World (pid w) (utc w) (ticks w) (rand w) (io_error w) (sleep_refusal w) (heap w) (plain w)
        (manager w) (fs w) (trace w) (tested w) p.

Definition snapshot (w : world) : world :=
  set_past (past w ++ [Stores (heap w) (plain w) (manager w)]) w.

(** *** Primitives *)

(** [current_process().pid] *)
Definition current_pid : M world Z := gets pid.

(** [datetime.utcnow()] *)
Definition utcnow : M world datetime :=
  λ w, (Ret (utc w 0%nat), set_utc (advance (utc w)) w).

(** [time.sleep(seconds)]. CPython first turns the duration into a whole
    number of nanoseconds for a signed 64-bit integer: the product with
    10^9, rounded to a double, must lie between -2^63 and 2^63 as doubles,
    which fails from 2^63 + 1024 on in absolute value ([OverflowError]);
    then a negative duration is refused ([ValueError]); what passes is
    handed to the operating system, which may refuse it in turn (on Linux a
    deadline beyond the kernel's range is an [OSError]). *)
Definition nanoseconds (seconds : Q) : Q := (seconds * inject_Z (10 ^ 9))%Q.

Definition nanoseconds_limit : Q := inject_Z (2 ^ 63 + 1024).

Definition sleep (seconds : Q) : M world unit :=
  λ w,
    if Qlt_le_dec nanoseconds_limit (nanoseconds seconds) then
      (Raise (OverflowError "timestamp too large to convert to C _PyTime_t"), w)
    else if Qlt_le_dec (nanoseconds seconds) (- nanoseconds_limit) then
      (Raise (OverflowError "timestamp too large to convert to C _PyTime_t"), w)
    else if Qlt_le_dec seconds 0 then
      (Raise (ValueError "sleep length must be non-negative"), w)
    else match sleep_refusal w seconds with
         | Some e => (Raise e, w)
         | None => (Ret tt, set_trace (trace w ++ [EvSleep seconds]) w)
         end.

(** [print(line)] *)
Definition print (line : string) : M world unit :=
  modify (λ w, set_trace (trace w ++ [EvPrint line]) w).

(** Entropy for one call into [random]. *)
Definition random_raw : M world Z :=
  λ w, (Ret (rand w 0%nat), set_rand (advance (rand w)) w).

(** A dict display [{...}]: a new object on the heap; its reference. *)
Definition new_dict (d : dict) : M world nat :=
  λ w, (Ret (length (heap w)), set_heap (heap w ++ [d]) w).

Definition deref (r : nat) (w : world) : dict := default [] (heap w !! r).

(** [obj[key] = v] on a dict of this process. *)
Definition dict_setitem (r : nat) (key : string) (v : scalar) : M world unit :=
  modify (λ w, snapshot (set_heap (<[r := dict_set (deref r w) key v]> (heap w)) w)).

(** [obj.get(key)] on a dict of this process. *)
Definition dict_get_of (r : nat) (key : string) : M world scalar :=
  gets (λ w, dict_get_method (deref r w) key).

(** The object a worker receives as [status_dict]: an ordinary dict of this
    process, or the proxy of a dict that lives in the [Manager] server.

    An ordinary dict stores and returns references, so [status_dict[name]]
    is the very object that was stored. A [DictProxy] forwards each call to
    the server and ships arguments and results by value (pickled):
    [__setitem__] stores a copy of the dict it is given, and [__getitem__]
    hands back a fresh copy of the stored one. *)
Inductive status_table :=
| PlainDict
| ManagerProxy.

(** [status_dict[name] = obj] *)
Definition setitem (t : status_table) (name : string) (r : nat) : M world unit :=
  match t with
  | PlainDict => modify (λ w, snapshot (set_plain (<[name := r]> (plain w)) w))
  | ManagerProxy =>
      modify (λ w, snapshot (set_manager (<[name := deref r w]> (manager w)) w))
  end.

(** [status_dict[name]] *)
Definition getitem (t : status_table) (name : string) : M world nat :=
  match t with
  | PlainDict =>
      λ w, match plain w !! name with
           | Some r => (Ret r, w)
           | None => (Raise (KeyError name), w)
           end
  | ManagerProxy =>
      λ w, match manager w !! name with
           | Some d => new_dict d w
           | None => (Raise (KeyError name), w)
           end
  end.

(** [status_dict[name][key] = v]: the subscription [status_dict[name]],
    then the item assignment on the object it returned. *)
Definition assign (t : status_table) (name key : string) (v : scalar)
    : M world unit :=
  e ← getitem t name; dict_setitem e key v.

(** What the table holds for [name], as any reader of it sees. *)
Definition entry (t : status_table) (name : string) (s : stores) : option dict :=
  match t with
  | PlainDict => r ← st_plain s !! name; st_heap s !! r
  | ManagerProxy => st_manager s !! name
  end.

(** [with open(path, "a") as f: f.write(text)] *)
Definition append_text (path text : string) : M world unit :=
  λ w, match io_error w with
       | Some msg => (Raise (OSError msg), w)
       | None => (Ret tt, set_fs (<[path := default "" (fs w !! path) +:+ text]> (fs w)) w)
       end.

(** *** cpu_work_for *)

(** The inner [for i in range(3, r+1, 2)] with its [break]: the value of
    [is_prime] when the loop is left. *)
Fixpoint trial_division (n : Z) (divisors : list Z) : bool :=
  match divisors with
  | [] => true
  | i :: rest => if n mod i =? 0 then false else trial_division n rest
  end.

Definition candidate (raw : Z) : Z := Z.lor (Py.randint (10 ^ 5) (10 ^ 6) raw) 1.

(** One turn of the [while] body; [count += 1] is left to the loop. *)
Definition prime_check : M world unit :=
  raw ← random_raw;
  let n := candidate raw in
  let r := Z.sqrt n in
  let is_prime := trial_division n (Py.range3 3 (r + 1) 2) in
  modify (λ w, set_tested (tested w ++ [(n, is_prime)]) w).

(** [while time.time() < end: ...; count += 1], then [return count]. Each
    test of the condition takes the next clock reading. *)
Fixpoint work_loop (end_ : Q) (readings : list Q) (count : Z) (w : world)
    : outcome Z * world :=
  match readings with
  | [] => (Hang, set_ticks [] w)
  | now :: later =>
      if Qlt_le_dec now end_
      then match prime_check (set_ticks later w) with
           | (Ret tt, w') => work_loop end_ later (count + 1) w'
           | (Raise e, w') => (Raise e, w')
           | (Hang, w') => (Hang, w')
           end
      else (Ret count, set_ticks later w)
  end.

Definition cpu_work_for (seconds : Q) : M world Z :=
  λ w, match ticks w with
       | [] => (Hang, w)
       | now :: later => work_loop (now + seconds)%Q later 0 (set_ticks later w)
       end.

(** *** worker *)

Definition stamp (t : datetime) : scalar := SStr (isoformat t +:+ "Z").

(** [if log_path:] *)
Definition truthy (log_path : option string) : option string :=
  match log_path with
  | Some "" => None
  | other => other
  end.

(** [max(0, stay_seconds - work_seconds)] *)
Definition remaining (stay_seconds : Z) (work_seconds : Q) : Q :=
  Py.max0 (inject_Z stay_seconds - work_seconds).

Definition worker (name meeting_code passcode : string) (stay_seconds : Z)
    (work_seconds : Q) (status_dict : status_table) (log_path : option string)
    (stagger : Q) : M world unit :=
  pid ← current_pid;
  now ← utcnow;
  let started_at := stamp now in
  d ← new_dict [("state", SStr "connecting"); ("pid", SInt pid);
                ("started_at", started_at)];
  setitem status_dict name d;;
  (if Qlt_le_dec 0 stagger then sleep stagger else mret tt);;

  assign status_dict name "state" (SStr "connected");;
  now ← utcnow;
  assign status_dict name "connected_at" (stamp now);;

  assign status_dict name "state" (SStr "working");;
  now ← utcnow;
  assign status_dict name "work_started_at" (stamp now);;
  jobs_done ← cpu_work_for work_seconds;
  assign status_dict name "work_done" (SInt jobs_done);;
  now ← utcnow;
  assign status_dict name "work_finished_at" (stamp now);;

  let remaining := remaining stay_seconds work_seconds in
  assign status_dict name "state" (SStr "idle");;
  sleep remaining;;

  assign status_dict name "state" (SStr "left");;
  now ← utcnow;
  assign status_dict name "left_at" (stamp now);;

  match truthy log_path with
  | Some path =>
      e ← getitem status_dict name;
      left_at ← dict_get_of e "left_at";
      let record := [("name", SStr name);
                     ("meeting_code", SStr meeting_code);
                     ("started_at", started_at);
                     ("left_at", left_at);
                     ("work_done", SInt jobs_done)] in
      try_except_Exception
        (append_text path (json_dumps record +:+ String newline ""))
        (λ e, print ("Could not write log: " +:+ exn_str e))
  | None => mret tt
  end.

(** *** generate_names *)

Definition first : list string :=
  ["Aarav"; "Vivaan"; "Aditya"; "Arjun"; "Reyansh"; "Krishna"; "Kabir";
   "Ishaan"; "Vihaan"; "Rohan"].
Definition last : list string :=
  ["Sharma"; "Verma"; "Khan"; "Patel"; "Singh"; "Gupta"; "Reddy"; "Nair";
   "Mehta"; "Joshi"].

(** The body of the [for i in range(count)] loop, the generator state
    passed along: two draws per name, first name before last name. *)
Fixpoint names_loop (indices : list Z) (names : list string) (rand : nat → Z)
    : list string * (nat → Z) :=
  match indices with
  | [] => (names, rand)
  | i :: rest =>
      let f := Py.choice first (rand 0%nat) in
      let l := Py.choice last (rand 1%nat) in
      names_loop rest
        (names ++ [f +:+ " " +:+ l +:+ " #" +:+ Py.str_of_int (i + 1)])
        (advance (advance rand))
  end.

Definition generate_names (count : Z) (rand : nat → Z) : list string * (nat → Z) :=
  names_loop (Py.range count) [] rand.

(** *** run_simulation in the supervising process

    The supervisor sees its workers only through [start], [is_alive],
    [terminate] and [join], and through the items of the manager's dict.
    Its world: the generator and the UTC clock, the list [processes], what
    it has done so far, and an interrupt that may be pending. [interrupt =
    Some k] stands for a Ctrl-C that turns into [KeyboardInterrupt] at the
    supervisor's [k]-th call from now (0 is the next one); [None] for a run
    nobody interrupts. *)

(** [args] of [Process(target=worker, args=...)]; the status table handed
    over is always the manager's proxy. *)
Record spawn := Spawn {
  sp_name : string;
  sp_meeting_code : string;
  sp_passcode : string;
  sp_stay_seconds : Z;
  sp_work_seconds : Q;
  sp_log_path : option string;
  sp_stagger : Q }.

Inductive action :=
| Print (line : string)
| Start (index : nat) (args : spawn)
| IsAlive (index : nat)
| Items
| Sleep (seconds : Q)
| Terminate (index : nat)
| Join (index : nat).

Record supervisor := Supervisor {
  s_utc : nat → datetime;
  s_rand : nat → Z;
  interrupt : option nat;
  processes : list spawn;
  acts : list action }.

Definition set_s_utc f s :=
  Supervisor f (s_rand s) (interrupt s) (processes s) (acts s).
Definition set_s_rand f s :=
  Supervisor (s_utc s) f (interrupt s) (processes s) (acts s).
Definition set_interrupt i s :=
  Supervisor (s_utc s) (s_rand s) i (processes s) (acts s).
Definition set_processes ps s :=
  Supervisor (s_utc s) (s_rand s) (interrupt s) ps (acts s).
Definition set_acts acts s :=
  Supervisor (s_utc s) (s_rand s) (interrupt s) (processes s) acts.

(** A call the supervisor makes: the pending interrupt is raised in its
    place when its turn has come, otherwise the call is made. *)
Definition call (a : action) : M supervisor unit :=
  λ s, match interrupt s with
       | Some O => (Raise KeyboardInterrupt, set_interrupt None s)
       | Some (S k) => (Ret tt, set_acts (acts s ++ [a]) (set_interrupt (Some k) s))
       | None => (Ret tt, set_acts (acts s ++ [a]) s)
       end.

Definition s_utcnow : M supervisor datetime :=
  λ s, (Ret (s_utc s 0%nat), set_s_utc (advance (s_utc s)) s).

(** What one turn of the monitoring loop finds: the answers of
    [is_alive] during the [any(...)] scan and during the [sum(...)] scan,
    and the items of the status table. *)
Record round := Round {
  alive_any : nat → bool;
  alive_sum : nat → bool;
  items : list (string * dict) }.

Definition is_alive (alive : nat → bool) (i : nat) : M supervisor bool :=
  call (IsAlive i);; mret (alive i).

(** [any(p.is_alive() for p in processes)]: stops at the first live one. *)
Fixpoint any_alive (alive : nat → bool) (ps : list nat) : M supervisor bool :=
  match ps with
  | [] => mret false
  | i :: rest => b ← is_alive alive i; if (b : bool) then mret true else any_alive alive rest
  end.

(** [sum(1 for p in processes if p.is_alive())] *)
Fixpoint count_alive (alive : nat → bool) (ps : list nat) : M supervisor Z :=
  match ps with
  | [] => mret 0
  | i :: rest =>
      b ← is_alive alive i;
      n ← count_alive alive rest;
      mret ((if (b : bool) then 1 else 0) + n)
  end.

(** [str(v)] of a stored value inside an f-string. *)
Definition scalar_str (v : scalar) : string :=
  match v with
  | SNone => "None"
  | SInt z => Py.str_of_int z
  | SStr s => s
  end.

(** [for k, v in sample: print(f"  {k}: {v['state']}")] *)
Fixpoint print_sample (sample : list (string * dict)) : M supervisor unit :=
  match sample with
  | [] => mret tt
  | (k, v) :: rest =>
      match dict_get v "state" with
      | Some st => call (Print ("  " +:+ k +:+ ": " +:+ scalar_str st));; print_sample rest
      | None => raise (KeyError "state")
      end
  end.

Definition indices (s : supervisor) : list nat := seq 0 (length (processes s)).

(** The monitoring loop; it consumes one [round] per turn. *)
Fixpoint monitor (rounds : list round) : M supervisor unit :=
  match rounds with
  | [] => λ s, (Hang, s)
  | r :: later =>
      ps ← gets indices;
      running ← any_alive (alive_any r) ps;
      if (running : bool) then
        alive ← count_alive (alive_sum r) ps;
        now ← s_utcnow;
        call (Print ("[" +:+ isoformat now +:+ "Z] Alive workers: "
                     +:+ Py.str_of_int alive));;
        call Items;;
        print_sample (take 5 (items r));;
        call (Sleep 5);;
        monitor later
      else mret tt
  end.

(** [for p in processes: p.terminate()] and [for p in processes: p.join()] *)
Fixpoint for_each (act : nat → action) (ps : list nat) : M supervisor unit :=
  match ps with
  | [] => mret tt
  | i :: rest => call (act i);; for_each act rest
  end.

(** [p = Process(...); p.start(); processes.append(p)] *)
Definition start (args : spawn) : M supervisor unit :=
  i ← gets (λ s, length (processes s));
  call (Start i args);;
  modify (λ s, set_processes (processes s ++ [args]) s).

(** [for i, name in enumerate(names): ...] from index [i] on. *)
Fixpoint start_all (i : Z) (names : list string) (meeting_code passcode : string)
    (stay_seconds : Z) (work_seconds stagger : Q) (logfile : option string)
    : M supervisor unit :=
  match names with
  | [] => mret tt
  | name :: rest =>
      start (Spawn name meeting_code passcode stay_seconds work_seconds logfile
                   (inject_Z i * stagger));;
      start_all (i + 1) rest meeting_code passcode stay_seconds work_seconds
                stagger logfile
  end.

(** [generate_names] on the supervisor's generator. *)
Definition s_generate_names (count : Z) : M supervisor (list string) :=
  λ s, (Ret (generate_names count (s_rand s)).1,
        set_s_rand (generate_names count (s_rand s)).2 s).

Definition complete_line (now : datetime) (logfile : option string) : string :=
  "[" +:+ isoformat now +:+ "Z] Simulation complete. Logs -> "
  +:+ default "stdout" (truthy logfile).

Definition run_simulation (number_of_users : Z) (meeting_code passcode : string)
    (stay_seconds : Z) (work_seconds stagger : Q) (logfile : option string)
    (rounds : list round) : M supervisor unit :=
  modify (set_processes []);;
  names ← s_generate_names number_of_users;
  now ← s_utcnow;
  call (Print ("[" +:+ isoformat now +:+ "Z] Starting simulation: "
               +:+ Py.str_of_int number_of_users +:+ " participants"));;
  start_all 0 names meeting_code passcode stay_seconds work_seconds stagger logfile;;
  try_except_KeyboardInterrupt_finally
    (monitor rounds)
    (call (Print "KeyboardInterrupt received: terminating children");;
     ps ← gets indices; for_each Terminate ps)
    (ps ← gets indices; for_each Join ps);;
  now ← s_utcnow;
  call (Print (complete_line now logfile)).

End Simulator.

(** ** monitor_streamlit.py *)

Module Controller.

(** The sidebar inputs a run is started with. *)
Record config := Config {
  users : Z;
  meeting : string;
  stay : Z;
  work : Q;
  stagger : Q;
  log_path : string }.

Inductive shown :=
| Warning (text : string)
| Success (text : string).

(** The controller's world: [st.session_state.proc_pid], the signals it
    has sent, the simulators it has launched, what it has shown, and the
    operating system's side: the verdict on each successive [os.kill]
    ([Some msg]: it raises [OSError]), whether the log can be prepared and
    opened, and the pid the next child would get. *)
Record controller := Controller {
  proc_pid : option Z;
  sent : list (Z * Z);
  launched : list config;
  screen : list shown;
  kill_verdict : nat → option string;
  open_error : option string;
  next_pid : Z }.

Definition set_proc_pid p c :=
  Controller p (sent c) (launched c) (screen c) (kill_verdict c) (open_error c)
             (next_pid c).
Definition set_screen sc c :=
  Controller (proc_pid c) (sent c) (launched c) sc (kill_verdict c) (open_error c)
             (next_pid c).

Definition SIGTERM : Z := 15.

(** [os.kill(pid, sig)] *)
Definition os_kill (pid sig : Z) : M controller unit :=
  λ c, let c' := Controller (proc_pid c) (sent c ++ [(pid, sig)]) (launched c)
                            (screen c) (advance (kill_verdict c)) (open_error c)
                            (next_pid c) in
       match kill_verdict c 0%nat with
       | Some msg => (Raise (OSError msg), c')
       | None => (Ret tt, c')
       end.

(** [not pid] for a pid that is [None] or an integer. *)
Definition falsy (pid : option Z) : bool :=
  match pid with
  | None => true
  | Some p => p =? 0
  end.

Definition is_OSError (e : exn) : bool :=
  match e with OSError _ => true | _ => false end.

Definition is_pid_running (pid : option Z) : M controller bool :=
  if falsy pid then mret false
  else λ c, match os_kill (default 0 pid) 0 c with
            | (Ret tt, c') => (Ret true, c')
            | (Raise e, c') => if is_OSError e then (Ret false, c') else (Raise e, c')
            | (Hang, c') => (Hang, c')
            end.

Definition show (m : shown) : M controller unit :=
  modify (λ c, set_screen (screen c ++ [m]) c).

(** [str(st.session_state.proc_pid)] inside the f-strings. *)
Definition pid_str (pid : option Z) : string :=
  match pid with
  | None => "None"
  | Some p => Py.str_of_int p
  end.

(** [Path(log_path).parent.mkdir(...); f = open(log_path, "a");
    proc = subprocess.Popen(cmd, stdout=f, stderr=subprocess.STDOUT)] *)
Definition popen (cfg : config) : M controller Z :=
  λ c, match open_error c with
       | Some msg => (Raise (OSError msg), c)
       | None =>
           (Ret (next_pid c),
            Controller (proc_pid c) (sent c) (launched c ++ [cfg]) (screen c)
                       (kill_verdict c) (open_error c) (next_pid c + 1))
       end.

(** The body of [if st.button("Start Simulation"):] *)
Definition start_simulation (cfg : config) : M controller unit :=
  tracked ← gets proc_pid;
  running ← is_pid_running tracked;
  if (running : bool) then
    tracked ← gets proc_pid;
    show (Warning ("Simulation already running (pid=" +:+ pid_str tracked +:+ ")"))
  else
    pid ← popen cfg;
    modify (set_proc_pid (Some pid));;
    show (Success ("Started simulation (pid=" +:+ Py.str_of_int pid +:+ ")")).

(** The body of [if st.button("Stop Simulation"):] *)
Definition stop_simulation : M controller unit :=
  pid ← gets proc_pid;
  running ← is_pid_running pid;
  if (running : bool) then
    os_kill (default 0 pid) SIGTERM;;
    modify (set_proc_pid None);;
    show (Success "Stopped simulation")
  else
    show (Warning "No running simulation detected").

End Controller.

(** ** monitor_streamlit.py: the status line and the log tail

    The part of the script below the two buttons, and the script as a
    whole. *)

Module Page.
Import Controller.

Definition cr : ascii := "013"%char.

(** What reading a text file does to its line ends ([open(path, "r")],
    universal newlines): a carriage return followed by a line feed, and a
    carriage return alone, are both read as one line feed. *)
Fixpoint universal_newlines (s : string) : string :=
  match s with
  | EmptyString => EmptyString
  | String c rest =>
      if Ascii.eqb c cr then
        match rest with
        | String c' rest' =>
            if Ascii.eqb c' Simulator.newline
            then String Simulator.newline (universal_newlines rest')
            else String Simulator.newline (universal_newlines rest)
        | EmptyString => String Simulator.newline EmptyString
        end
      else String c (universal_newlines rest)
  end.

(** [f.readlines()]: the text cut after each line feed; a last line without
    one is kept as it is. *)
Fixpoint readlines (text : string) : list string :=
  match text with
  | EmptyString => []
  | String c rest =>
      if Ascii.eqb c Simulator.newline then String c EmptyString :: readlines rest
      else match readlines rest with
           | [] => [String c EmptyString]
           | line :: lines => String c line :: lines
           end
  end.

(** [lines[-n:]] for a positive [n]. *)
Definition last_items {A} (n : nat) (l : list A) : list A := drop (length l - n) l.

Inductive widget :=
| Markdown (body : string)
| Subheader (text : string)
| Info (text : string)
| Error (text : string)
| TextArea (label value : string) (height : Z).

(** What a run of the script works on: the controller's world, the files
    the script can see, as they are found when the log is looked at, whether
    opening or reading the log fails, whether examining a path it cannot see
    fails for another reason than the path's absence ([stat_error]: a
    directory on the way that may not be searched, say), and what is
    rendered below the buttons. *)
Record page := Page {
  ctl : controller;
  files : gmap string string;
  read_error : option string;
  stat_error : option string;
  panel : list widget }.

(** A step of the controller, taken inside the page. *)
Definition lift {A} (m : M controller A) : M page A :=
  λ p, ((m (ctl p)).1,
        Page (m (ctl p)).2 (files p) (read_error p) (stat_error p) (panel p)).

Definition render (x : widget) : M page unit :=
  modify (λ p, Page (ctl p) (files p) (read_error p) (stat_error p) (panel p ++ [x])).

(** [Path(path).exists()]: [stat] on the path; an error that says the path
    is not there gives [False], any other [OSError] is raised again. *)
Definition path_exists (path : string) : M page bool :=
  λ p, match files p !! path with
       | Some _ => (Ret true, p)
       | None =>
           match stat_error p with
           | Some msg => (Raise (OSError msg), p)
           | None => (Ret false, p)
           end
       end.

(** [if is_pid_running(st.session_state.proc_pid): st.info(...) else:
    st.info(...)] *)
Definition status : M page unit :=
  tracked ← lift (gets proc_pid);
  running ← lift (is_pid_running tracked);
  if (running : bool) then
    tracked ← lift (gets proc_pid);
    render (Info ("Simulation running (pid=" +:+ pid_str tracked +:+ ")"))
  else render (Info "No simulation running").

(** [with open(log_path, "r") as f: lines = f.readlines()] *)
Definition read_lines (path : string) : M page (list string) :=
  λ p, match read_error p with
       | Some msg => (Raise (OSError msg), p)
       | None => (Ret (readlines (universal_newlines (default "" (files p !! path)))), p)
       end.

(** [if Path(log_path).exists(): try: ... except Exception as e: ...
    else: st.info(...)] *)
Definition log_tail (path : string) : M page unit :=
  found ← path_exists path;
  if (found : bool) then
    try_except_Exception
      (lines ← read_lines path;
       let lines := last_items 400 lines in
       render (TextArea "Last log lines" (String.concat "" lines) 400))
      (λ e, render (Error ("Could not read log: " +:+ exn_str e)))
  else render (Info "Log file not found yet. Start a simulation to create it.").

(** One run of the script, from the buttons down; [start] and [stop] say
    which button was clicked. *)
Definition script (cfg : config) (start stop : bool) : M page unit :=
  (if start then lift (start_simulation cfg) else mret tt);;
  (if stop then lift stop_simulation else mret tt);;
  render (Markdown "---");;
  status;;
  render (Subheader "Log tail");;
  log_tail (log_path cfg).

End Page.

(** ** simulator.py run as a script

    The body of [if __name__ == "__main__":] from [args = parser.parse_args()]
    on; the parsed arguments are taken as given. *)

Module Launcher.
Import Simulator.

Definition slash : ascii := "/"%char.

Fixpoint has_slash (p : string) : bool :=
  match p with
  | EmptyString => false
  | String c rest => Ascii.eqb c slash || has_slash rest
  end.

(** [p[:p.rfind("/") + 1]]: the text up to the last slash, the slash
    included; empty when there is none. *)
Fixpoint upto_last_slash (p : string) : string :=
  match p with
  | EmptyString => EmptyString
  | String c rest => if has_slash p then String c (upto_last_slash rest) else EmptyString
  end.

(** [head == "/" * len(head)] *)
Fixpoint all_slashes (s : string) : bool :=
  match s with
  | EmptyString => true
  | String c rest => Ascii.eqb c slash && all_slashes rest
  end.

(** [head.rstrip("/")] *)
Fixpoint rstrip_slashes (s : string) : string :=
  match s with
  | EmptyString => EmptyString
  | String c rest =>
      match rstrip_slashes rest with
      | EmptyString => if Ascii.eqb c slash then EmptyString else String c EmptyString
      | kept => String c kept
      end
  end.

Definition nonempty (s : string) : bool :=
  match s with EmptyString => false | _ => true end.

(** [os.path.dirname(p)] on a POSIX system. *)
Definition dirname (p : string) : string :=
  let head := upto_last_slash p in
  if nonempty head && negb (all_slashes head) then rstrip_slashes head else head.

(** The parsed command line. *)
Record args := Args {
  users : Z;
  meeting : string;
  passcode : string;
  stay : Z;
  work : Q;
  stagger : Q;
  log : string }.

(** The script's world: which paths exist when it asks, whether creating
    directories fails, the [os.makedirs] calls made, and the world of the
    supervisor it then becomes. *)
Record host := Host {
  path_exists : string → bool;
  mkdir_error : option string;
  made : list string;
  sup : supervisor }.

(** [os.makedirs(d, exist_ok=True)] *)
Definition makedirs (d : string) : M host unit :=
  λ h, let h' := Host (path_exists h) (mkdir_error h) (made h ++ [d]) (sup h) in
       match mkdir_error h with
       | Some msg => (Raise (OSError msg), h')
       | None => (Ret tt, h')
       end.

(** [if args.log: d = os.path.dirname(args.log); if d and not
    os.path.exists(d): os.makedirs(d, exist_ok=True)] *)
Definition ensure_log_dir (log : string) : M host unit :=
  if nonempty log then
    let d := dirname log in
    if nonempty d then
      found ← gets (λ h, path_exists h d);
      if (found : bool) then mret tt else makedirs d
    else mret tt
  else mret tt.

Definition supervise {A} (m : M supervisor A) : M host A :=
  λ h, ((m (sup h)).1, Host (path_exists h) (mkdir_error h) (made h) (m (sup h)).2).

Definition main (a : args) (rounds : list round) : M host unit :=
  ensure_log_dir (log a);;
  supervise (run_simulation (users a) (meeting a) (passcode a) (stay a) (work a)
                            (stagger a) (Some (log a)) rounds).

End Launcher.

(** * Properties *)

(** ** Vocabulary of the statements *)

Section Vocabulary.
Import Simulator.

(** The design document's formula for the idle time, read over the
    rationals. *)
Definition idle_formula (stay work : Q) : Q := Qmax 0 (stay - work).

(** The candidate drawn from [raw] and the verdict of the inner loop. *)
Definition probe (raw : Z) : Z * bool :=
  (candidate raw,
   trial_division (candidate raw) (Py.range3 3 (Z.sqrt (candidate raw) + 1) 2)).

(** What the busy loop establishes about a candidate [n] and the value
    [is_prime] has when the inner loop is left. *)
Definition examined (t : Z * bool) : Prop :=
  Z.odd t.1 = true
  ∧ 10 ^ 5 <= t.1 <= 10 ^ 6 + 1
  ∧ (t.2 = true ↔ ∀ d, 3 <= d <= Z.sqrt t.1 → Z.odd d = true → t.1 mod d ≠ 0)
  ∧ (t.2 = true ↔ Z.prime t.1).

(** The text after the last ["#"] of a string, if it has one. *)
Fixpoint after_last_hash (s : string) : option string :=
  match s with
  | EmptyString => None
  | String c rest =>
      match after_last_hash rest with
      | Some t => Some t
      | None => if Ascii.eqb c "#" then Some rest else None
      end
  end.

(** The name built for index [i] from the two sampled parts. *)
Definition display_name (f l : string) (i : Z) : string :=
  f +:+ " " +:+ l +:+ " #" +:+ Py.str_of_int (i + 1).

(** The entry a worker first stores for itself. *)
Definition connecting_entry (w : world) : dict :=
  [("state", SStr "connecting"); ("pid", SInt (pid w));
   ("started_at", stamp (utc w 0%nat))].

(** The record a worker logs and the text it appends for it. *)
Definition log_record (name meeting_code : string) (started_at left_at : scalar)
    (jobs_done : Z) : dict :=
  [("name", SStr name); ("meeting_code", SStr meeting_code);
   ("started_at", started_at); ("left_at", left_at);
   ("work_done", SInt jobs_done)].

Definition log_line (record : dict) : string :=
  json_dumps record +:+ String newline "".

(** What [left_at] reads back from the status table once the worker has
    left: nothing through the manager's proxy, the fifth reading of the UTC
    clock from an ordinary dict. *)
Definition left_at_read (t : status_table) (w : world) : scalar :=
  match t with
  | ManagerProxy => SNone
  | PlainDict => stamp (utc w 4%nat)
  end.

(** The sleeps of a complete lifecycle: the stagger if there is one, then
    the idle time. *)
Definition sleeps (stay_seconds : Z) (work_seconds stagger : Q) : list event :=
  (if Qlt_le_dec 0 stagger then [EvSleep stagger] else [])
  ++ [EvSleep (remaining stay_seconds work_seconds)].

(** The file system after the log step, and the diagnostic of that step. *)
Definition logged (log_path io : option string) (line : string)
    (files : gmap string string) : gmap string string :=
  match truthy log_path, io with
  | Some path, None => <[path := default "" (files !! path) +:+ line]> files
  | _, _ => files
  end.

Definition diagnostic (log_path io : option string) : list event :=
  match truthy log_path, io with
  | Some _, Some msg => [EvPrint ("Could not write log: " +:+ msg)]
  | _, _ => []
  end.

(** The state a reader of the table finds for [name]. *)
Definition state_of (t : status_table) (name : string) (s : stores) : option scalar :=
  d ← entry t name s; dict_get d "state".

#[global] Instance scalar_eq_dec : EqDecision scalar.
Proof. solve_decision. Defined.

(** A sequence of readings without its immediate repetitions. *)
Fixpoint squash (l : list scalar) : list scalar :=
  match l with
  | [] => []
  | x :: rest =>
      match rest with
      | y :: _ => if decide (x = y) then squash rest else x :: squash rest
      | [] => [x]
      end
  end.

(** The states the table has held for [name] over a stretch of its history. *)
Definition recorded_states (t : status_table) (name : string) (snaps : list stores)
    : list scalar :=
  squash (omap (state_of t name) snaps).

Definition lifecycle : list scalar :=
  [SStr "connecting"; SStr "connected"; SStr "working"; SStr "idle"; SStr "left"].

(** Whether the character [c] occurs in [s]. *)
Fixpoint occurs (c : ascii) (s : string) : bool :=
  match s with
  | EmptyString => false
  | String x rest => Ascii.eqb c x || occurs c rest
  end.

(** [returns m w Q]: from [w] the computation [m] returns, with a result
    and in a world that satisfy [Q]. *)
Definition returns {A} (m : M world A) (w : world) (Q : A → world → Prop) : Prop :=
  ∃ a w', m w = (Ret a, w') ∧ Q a w'.

(** [hangs m w]: from [w] the computation [m] neither returns nor raises
    within the clock readings its world holds. *)
Definition hangs {A} (m : M world A) (w : world) : Prop :=
  ∃ w', m w = (Hang, w').

(** The clock shows the busy loop its deadline: after the reading that
    fixes the deadline, [seconds] later, one of the following readings is at
    or past it. *)
Definition deadline_seen (seconds : Q) (readings : list Q) : Prop :=
  match readings with
  | [] => False
  | now :: later => Exists (λ t, (now + seconds <= t)%Q) later
  end.

(** [time.sleep] takes the duration [d]: its nanoseconds are within the
    range of the conversion and the operating system does not refuse it. *)
Definition sleep_accepted (w : world) (d : Q) : Prop :=
  (nanoseconds d <= nanoseconds_limit)%Q ∧ sleep_refusal w d = None.

(** The sleeps of a worker are taken: the stagger, when there is one, and
    the idle time. *)
Definition sleeps_accepted (stay_seconds : Z) (work_seconds stagger : Q)
    (w : world) : Prop :=
  ((0 < stagger)%Q → sleep_accepted w stagger)
  ∧ sleep_accepted w (remaining stay_seconds work_seconds).

(** The states the table shows after each of the worker's ten assignments,
    for either kind of table. *)
Definition shown (t : status_table) : list scalar :=
  match t with
  | PlainDict =>
      [SStr "connecting"; SStr "connected"; SStr "connected"; SStr "working";
       SStr "working"; SStr "working"; SStr "working"; SStr "idle";
       SStr "left"; SStr "left"]
  | ManagerProxy => replicate 10 (SStr "connecting")
  end.

(** What [run_simulation] passes to the workers it starts for [names], the
    first of them having index [i]. *)
Fixpoint launch_args (meeting_code passcode : string) (stay_seconds : Z)
    (work_seconds stagger : Q) (logfile : option string) (i : Z)
    (names : list string) : list spawn :=
  match names with
  | [] => []
  | name :: rest =>
      Spawn name meeting_code passcode stay_seconds work_seconds logfile
            (inject_Z i * stagger)
      :: launch_args meeting_code passcode stay_seconds work_seconds stagger
                     logfile (i + 1) rest
  end.

(** The opening line of a run that finds the UTC clock at [now]. *)
Definition start_line (now : datetime) (number_of_users : Z) : string :=
  "[" +:+ isoformat now +:+ "Z] Starting simulation: "
  +:+ Py.str_of_int number_of_users +:+ " participants".

(** [run_simulation] up to its [try]: the names, the opening line, the
    workers started. *)
Definition spawn_phase (number_of_users : Z) (meeting_code passcode : string)
    (stay_seconds : Z) (work_seconds stagger : Q) (logfile : option string)
    : M supervisor unit :=
  modify (set_processes []);;
  names ← s_generate_names number_of_users;
  now ← s_utcnow;
  call (Print (start_line now number_of_users));;
  start_all 0 names meeting_code passcode stay_seconds work_seconds stagger logfile.

(** An interrupt answered in full: every worker the run has started has
    been sent [terminate] and has been joined. *)
Definition every_started_worker_reaped (s : supervisor) : Prop :=
  ∀ i args, Start i args ∈ acts s → Terminate i ∈ acts s ∧ Join i ∈ acts s.

(** [tame m]: whatever the outcome of [m], the list [processes] is as
    before, what was done stays done, an exception that is
    [KeyboardInterrupt] has used up the pending interrupt, and no interrupt
    appears where none was pending. *)
Definition tame {A} (m : M supervisor A) : Prop :=
  ∀ s, processes (m s).2 = processes s
       ∧ (∃ more, acts (m s).2 = acts s ++ more)
       ∧ ((m s).1 = Raise KeyboardInterrupt → interrupt (m s).2 = None)
       ∧ (interrupt s = None → interrupt (m s).2 = None).

(** [spared pending calls]: the supervisor's next [calls] calls are made;
    the pending interrupt, if there is one, falls later. *)
Definition spared (pending : option nat) (calls : nat) : Prop :=
  match pending with
  | None => True
  | Some k => (calls <= k)%nat
  end.

(** A supervisor to run examples in: the UTC clock advances by a second per
    reading, nothing has been done yet, and an interrupt may be pending. *)
Definition sample_supervisor (pending : option nat) : supervisor :=
  Supervisor (λ n, Datetime 2024 3 7 9 5 (Z.of_nat n) 0)
             (λ n, 7 * Z.of_nat n + 13) pending [] [].

(** A turn of the monitoring loop that finds every worker alive, or none. *)
Definition sample_round (alive : bool) : round :=
  Round (λ _, alive) (λ _, alive)
        [("Arjun Sharma #1"%string, [("state"%string, SStr "connecting")])].

(** A world to run examples in: the UTC clock advances by a second per
    reading, [time.time()] is read at 100, 100.5, 101, 102 and 103 seconds,
    the log can be written, no sleep is refused, and every store is
    empty. *)
Definition sample_world : world :=
  World 4242 (λ n, Datetime 2024 3 7 9 5 (Z.of_nat n) 1234)
        [100; 100.5; 101; 102; 103]%Q (λ n, 7 * Z.of_nat n + 13)
        None (λ _, None) [] ∅ ∅ ∅ [] [] [].

(** *** Further vocabulary *)

(** The clock readings that come before the first one at or past [end_]. *)
Fixpoint before (end_ : Q) (readings : list Q) : list Q :=
  match readings with
  | [] => []
  | t :: rest => if Qlt_le_dec t end_ then t :: before end_ rest else []
  end.

(** The candidates tested on the first [n] draws of a generator. *)
Definition probes (rand : nat → Z) (n : nat) : list (Z * bool) :=
  (λ k, probe (rand k)) <$> seq 0 n.

(** The name at 0-based position [k] when the generator answers [rand]:
    its parts are picked on draws [2k] and [2k+1]. *)
Definition name_at (rand : nat → Z) (k : nat) : string :=
  display_name (Py.choice first (rand (2 * k)%nat))
               (Py.choice last (rand (2 * k + 1)%nat)) (Z.of_nat k).

(** The entry of a participant that has left, as the assignments of
    [worker] build it on a dict that keeps them: eight fields in the order
    of their first assignment, the timestamps being successive readings of
    the UTC clock. *)
Definition left_entry (w : world) (jobs_done : Z) : dict :=
  [("state", SStr "left"); ("pid", SInt (pid w));
   ("started_at", stamp (utc w 0%nat)); ("connected_at", stamp (utc w 1%nat));
   ("work_started_at", stamp (utc w 2%nat)); ("work_done", SInt jobs_done);
   ("work_finished_at", stamp (utc w 3%nat)); ("left_at", stamp (utc w 4%nat))].

(** The processes the [any(...)] scan asks, in order: up to the first one
    that answers alive. *)
Fixpoint polled (alive : nat → bool) (ps : list nat) : list nat :=
  match ps with
  | [] => []
  | i :: rest => i :: (if alive i then [] else polled alive rest)
  end.

(** The line the monitoring loop prints for an item of the status table. *)
Definition sample_line (item : string * dict) : string :=
  "  " +:+ item.1 +:+ ": " +:+ scalar_str (dict_get_method item.2 "state").

(** What a turn of the monitoring loop does when it finds a worker alive,
    for the processes [ps] and a UTC clock read at [now]. *)
Definition round_acts (r : round) (ps : list nat) (now : datetime) : list action :=
  (IsAlive <$> polled (alive_any r) ps)
  ++ (IsAlive <$> ps)
  ++ [Print ("[" +:+ isoformat now +:+ "Z] Alive workers: "
             +:+ Py.str_of_int (Z.of_nat (length (filter (λ i, alive_sum r i = true) ps))))]
  ++ [Items]
  ++ (Print <$> (sample_line <$> take 5 (items r)))
  ++ [Sleep 5].

(** Any call but [terminate]. *)
Definition spares_workers (a : action) : Prop :=
  match a with
  | Terminate _ => False
  | _ => True
  end.

(** [calm allowed m]: run with no interrupt pending, [m] meets none, does
    not raise [KeyboardInterrupt], and makes only calls that are
    [allowed]. *)
Definition calm (allowed : action → Prop) {A} (m : M supervisor A) : Prop :=
  ∀ s, interrupt s = None →
       interrupt (m s).2 = None
       ∧ (m s).1 ≠ Raise KeyboardInterrupt
       ∧ ∃ more, acts (m s).2 = acts s ++ more ∧ Forall allowed more.

(** A line with its line feed: a text that holds none, then one. *)
Definition whole_line (l : string) : Prop :=
  ∃ body, l = body +:+ String newline "" ∧ occurs newline body = false.

(** Whether every character of [s] is a printable ASCII character. *)
Fixpoint printable (s : string) : bool :=
  match s with
  | EmptyString => true
  | String c rest =>
      ((32 <=? N_of_ascii c)%N && (N_of_ascii c <=? 126)%N) && printable rest
  end.

End Vocabulary.

(** ** The idle time *)

Section IdleTime.
Import Simulator.

Lemma max0_is_Qmax x : Py.max0 x = Qmax 0 x.
Proof.
  unfold Py.max0, Qmax, GenericMinMax.gmax.
  destruct (Qlt_le_dec 0 x) as [Hlt | Hle].
  - rewrite (proj1 (Qlt_alt 0 x) Hlt). reflexivity.
  - destruct (0 ?= x)%Q eqn:Hc; try reflexivity.
    apply Qlt_alt in Hc. exfalso. exact (Qlt_not_le _ _ Hc Hle).
Qed.

Lemma max0_nonneg x : (0 <= Py.max0 x)%Q.
Proof.
  unfold Py.max0. destruct (Qlt_le_dec 0 x) as [Hlt | Hle].
  - apply Qlt_le_weak, Hlt.
  - apply Qle_refl.
Qed.

(** C2. For every stay and work duration the idle time the worker computes
    is max(0, stay - work), which is never negative; it is 45 for stay 60
    and work 15, and 0 for stay 10 and work 20. *)
Theorem remaining_is_clamped_difference (stay_seconds : Z) (work_seconds : Q) :
  remaining stay_seconds work_seconds = idle_formula (inject_Z stay_seconds) work_seconds
  ∧ (0 <= remaining stay_seconds work_seconds)%Q
  ∧ (remaining 60 15 == 45)%Q
  ∧ (remaining 10 20 == 0)%Q.
Proof.
  split; [apply max0_is_Qmax |].
  split; [apply max0_nonneg |].
  split; reflexivity.
Qed.

End IdleTime.

(** ** The busy loop *)

Section BusyLoop.
Import Simulator.

Lemma lor_1 x : Z.lor x 1 = if Z.odd x then x else x + 1.
Proof.
  destruct (Z.odd x) eqn:Hodd.
  - apply Z.bits_inj'. intros i Hi. rewrite Z.lor_spec.
    destruct (Z.eq_dec i 0) as [-> | Hne].
    + rewrite Z.bit0_odd, Hodd. reflexivity.
    + rewrite (Z.bits_above_log2 1 i) by (simpl; lia). apply orb_false_r.
  - rewrite <- Z.add_nocarry_lor; [reflexivity |].
    apply Z.bits_inj'. intros i Hi. rewrite Z.land_spec, Z.bits_0.
    destruct (Z.eq_dec i 0) as [-> | Hne].
    + rewrite Z.bit0_odd, Hodd. reflexivity.
    + rewrite (Z.bits_above_log2 1 i) by (simpl; lia). apply andb_false_r.
Qed.

Lemma randint_in_range a b raw : a <= b → a <= Py.randint a b raw <= b.
Proof.
  intros Hab. unfold Py.randint.
  pose proof (Z.mod_pos_bound raw (b - a + 1)). lia.
Qed.

Lemma candidate_odd_in_range raw :
  Z.odd (candidate raw) = true ∧ 10 ^ 5 <= candidate raw <= 10 ^ 6 + 1.
Proof.
  unfold candidate.
  pose proof (randint_in_range (10 ^ 5) (10 ^ 6) raw ltac:(lia)) as Hr.
  rewrite lor_1. destruct (Z.odd (Py.randint _ _ raw)) eqn:Hodd.
  - split; [exact Hodd | lia].
  - split; [| lia]. rewrite Z.odd_add, Hodd. reflexivity.
Qed.

Lemma trial_division_true n ds :
  trial_division n ds = true ↔ ∀ d, d ∈ ds → n mod d ≠ 0.
Proof.
  induction ds as [| i rest IH]; simpl.
  - split; [intros _ d Hd; inversion Hd | reflexivity].
  - destruct (Z.eqb_spec (n mod i) 0) as [Hz | Hnz].
    + split; [discriminate |]. intros H. exfalso. apply (H i); [left | exact Hz].
    + rewrite IH. split.
      * intros H d Hd. apply elem_of_cons in Hd as [-> | Hd]; auto.
      * intros H d Hd. apply H. right. exact Hd.
Qed.

Lemma elem_of_odd_range r d :
  d ∈ Py.range3 3 (r + 1) 2 ↔ 3 <= d <= r ∧ Z.odd d = true.
Proof.
  unfold Py.range3, Py.range_len. rewrite list_elem_of_fmap. split.
  - intros (k & -> & Hk). apply elem_of_seq in Hk.
    assert (Hlt : Z.of_nat k < (r + 1 - 3 + 2 - 1) / 2) by lia.
    split.
    + Z.div_mod_to_equations. lia.
    + replace (3 + Z.of_nat k * 2) with (1 + 2 * (Z.of_nat k + 1)) by lia.
      rewrite Z.odd_add_mul_2. reflexivity.
  - intros [Hd Hodd]. exists (Z.to_nat ((d - 3) / 2)). split.
    + rewrite Z2Nat.id by (Z.div_mod_to_equations; lia).
      apply Z.odd_spec in Hodd as [m ->].
      Z.div_mod_to_equations. lia.
    + apply elem_of_seq. split; [lia |]. simpl.
      apply Z2Nat.inj_lt; Z.div_mod_to_equations; lia.
Qed.

Lemma odd_factor a b : Z.odd (a * b) = true → Z.odd a = true.
Proof. rewrite Z.odd_mul. apply andb_true_iff. Qed.

Lemma small_odd_divisor n d :
  3 <= n → Z.odd n = true → 1 < d < n → (d | n) →
  ∃ e, (3 <= e <= Z.sqrt n ∧ Z.odd e = true) ∧ n mod e = 0.
Proof.
  intros Hn Hodd Hd [q Hq].
  pose proof (Z.sqrt_spec n ltac:(lia)) as Hs. cbv zeta in Hs.
  pose proof (Z.sqrt_nonneg n).
  assert (Hq1 : 1 < q) by nia.
  assert (Hdo : Z.odd d = true)
    by (apply (odd_factor d q); rewrite Z.mul_comm; congruence).
  assert (Hqo : Z.odd q = true) by (apply (odd_factor q d); congruence).
  assert (Hsmall : d <= Z.sqrt n ∨ q <= Z.sqrt n).
  { destruct (Z_le_gt_dec d (Z.sqrt n)) as [? | Hd']; [left; assumption | right].
    destruct (Z_le_gt_dec q (Z.sqrt n)) as [? | Hq']; [assumption | exfalso].
    assert (Z.succ (Z.sqrt n) * Z.succ (Z.sqrt n) <= q * d)
      by (apply Z.mul_le_mono_nonneg; lia).
    lia. }
  destruct Hsmall as [Hle | Hle].
  - exists d. repeat split; try assumption.
    + destruct (Z.eq_dec d 2) as [-> | ?]; [discriminate | lia].
    + rewrite Hq. apply Z.mod_mul. lia.
  - exists q. repeat split; try assumption.
    + destruct (Z.eq_dec q 2) as [-> | ?]; [discriminate | lia].
    + rewrite Hq, Z.mul_comm. apply Z.mod_mul. lia.
Qed.

Lemma trial_division_decides_primality n :
  3 <= n → Z.odd n = true →
  (trial_division n (Py.range3 3 (Z.sqrt n + 1) 2) = true ↔ Z.prime n).
Proof.
  intros Hn Hodd. rewrite trial_division_true. split.
  - intros Hnone. split; [lia |]. intros d Hd Hdiv.
    destruct (small_odd_divisor n d Hn Hodd Hd Hdiv) as (e & He & Hz).
    apply (Hnone e); [apply elem_of_odd_range, He | exact Hz].
  - intros [_ Hp] d Hd Hz. apply elem_of_odd_range in Hd as [Hd _].
    pose proof (Z.sqrt_lt_lin n ltac:(lia)).
    apply (Hp d); [lia |]. apply Z.mod_divide; [lia | exact Hz].
Qed.

Lemma prime_check_run w :
  prime_check w
  = (Ret tt, set_tested (tested w ++ [probe (rand w 0%nat)])
               (set_rand (advance (rand w)) w)).
Proof. reflexivity. Qed.

Lemma probe_examined raw : examined (probe raw).
Proof.
  destruct (candidate_odd_in_range raw) as [Hodd Hrange].
  unfold examined, probe; simpl.
  split; [exact Hodd |]. split; [exact Hrange |]. split.
  - rewrite trial_division_true. split.
    + intros Hnone d Hd Hdo. apply Hnone, elem_of_odd_range. auto.
    + intros Hnone d Hd. apply elem_of_odd_range in Hd as [Hd Hdo]. auto.
  - apply trial_division_decides_primality; [lia | exact Hodd].
Qed.

(** The loop touches the clock readings, the generator and the list of
    tested candidates, and what it does to them depends on nothing else. *)
Lemma work_loop_run end_ later : ∀ count r,
  Exists (λ t, (end_ <= t)%Q) later →
  ∃ new ts g,
    Forall examined new
    ∧ (length new < length later)%nat
    ∧ ∀ w, rand w = r →
        work_loop end_ later count w
        = (Ret (count + Z.of_nat (length new)),
           set_tested (tested w ++ new) (set_rand g (set_ticks ts w))).
Proof.
  induction later as [| now later IH]; intros count r Hreach.
  - inversion Hreach.
  - destruct (Qlt_le_dec now end_) as [Hlt | Hle] eqn:Hdec.
    + assert (Hlater : Exists (λ t, (end_ <= t)%Q) later).
      { apply Exists_cons in Hreach as [Hnow | ?]; [| assumption].
        exfalso. exact (Qlt_not_le _ _ Hlt Hnow). }
      destruct (IH (count + 1) (advance r) Hlater) as (new & ts & g & Hnew & Hlen & Hrun).
      exists (probe (r 0%nat) :: new), ts, g.
      split; [constructor; [apply probe_examined | exact Hnew] |].
      split; [simpl; lia |].
      intros w <-. cbn [work_loop]. rewrite Hdec, prime_check_run, Hrun by reflexivity.
      destruct w. cbn. rewrite <- app_assoc. do 2 f_equal. lia.
    + exists [], later, r. split; [constructor |]. split; [simpl; lia |].
      intros w <-. cbn [work_loop]. rewrite Hdec.
      destruct w. cbn. rewrite app_nil_r. do 2 f_equal. lia.
Qed.

Lemma work_loop_hangs end_ later : ∀ count w,
  ¬ Exists (λ t, (end_ <= t)%Q) later →
  ∃ w', work_loop end_ later count w = (Hang, w').
Proof.
  induction later as [| now later IH]; intros count w Hnever.
  - eexists. reflexivity.
  - cbn [work_loop]. destruct (Qlt_le_dec now end_) as [Hlt | Hle].
    + rewrite prime_check_run. apply IH.
      intros Hlater. apply Hnever, Exists_cons_tl, Hlater.
    + exfalso. apply Hnever, Exists_cons_hd, Hle.
Qed.

Lemma deadline_seen_dec seconds readings :
  {deadline_seen seconds readings} + {¬ deadline_seen seconds readings}.
Proof.
  destruct readings as [| now later]; [right; intros [] |].
  apply Exists_dec. intros t.
  destruct (Qlt_le_dec t (now + seconds)) as [Hlt | Hle].
  - right. intros Hle. exact (Qlt_not_le _ _ Hlt Hle).
  - left. exact Hle.
Defined.

Lemma cpu_work_for_run seconds readings r :
  deadline_seen seconds readings →
  ∃ new ts g,
    Forall examined new
    ∧ ∀ w, ticks w = readings → rand w = r →
        cpu_work_for seconds w
        = (Ret (Z.of_nat (length new)),
           set_tested (tested w ++ new) (set_rand g (set_ticks ts w))).
Proof.
  destruct readings as [| now later]; intros Hreach; [destruct Hreach |].
  destruct (work_loop_run _ later 0 r Hreach) as (new & ts & g & Hnew & _ & Hrun).
  exists new, ts, g. split; [exact Hnew |].
  intros w Hticks Hrand. unfold cpu_work_for. rewrite Hticks, Hrun by exact Hrand.
  destruct w. reflexivity.
Qed.

Lemma cpu_work_for_hangs seconds w :
  ¬ deadline_seen seconds (ticks w) → hangs (cpu_work_for seconds) w.
Proof.
  unfold hangs, cpu_work_for. destruct (ticks w) as [| now later]; intros Hnever.
  - eexists. reflexivity.
  - apply work_loop_hangs. exact Hnever.
Qed.

(** C3. Whenever the clock is seen to reach the deadline, [cpu_work_for]
    returns; every number it has tested is odd and lies in
    [10^5, 10^6 + 1]; [is_prime] is true exactly when no odd divisor from 3
    up to the integer square root divides the number, that is, exactly when
    the number is prime; each tested number, prime or not, adds one to the
    count, and the count returned is a non-negative integer. *)
Theorem cpu_work_for_counts_odd_candidates seconds w :
  deadline_seen seconds (ticks w) →
  ∃ count new w',
    cpu_work_for seconds w = (Ret count, w')
    ∧ tested w' = tested w ++ new
    ∧ Forall examined new
    ∧ count = Z.of_nat (length new)
    ∧ 0 <= count.
Proof.
  intros Hreach.
  destruct (cpu_work_for_run seconds (ticks w) (rand w) Hreach)
    as (new & ts & g & Hnew & Hrun).
  exists (Z.of_nat (length new)), new, (set_tested (tested w ++ new) (set_rand g (set_ticks ts w))).
  split; [apply Hrun; reflexivity |].
  split; [destruct w; reflexivity |]. split; [exact Hnew |].
  split; lia.
Qed.

Lemma sample_clock_reaches_deadline : deadline_seen 2 (ticks sample_world).
Proof.
  do 2 apply Exists_cons_tl. apply Exists_cons_hd. unfold Qle. simpl. lia.
Defined.

Lemma cpu_work_for_counts_odd_candidates_witness :
  deadline_seen 2 (ticks sample_world)
  ∧ ∃ count new w',
      cpu_work_for 2 sample_world = (Ret count, w')
      ∧ tested w' = tested sample_world ++ new
      ∧ Forall examined new
      ∧ count = Z.of_nat (length new)
      ∧ 0 <= count.
Proof.
  split; [exact sample_clock_reaches_deadline |].
  apply (cpu_work_for_counts_odd_candidates 2 sample_world).
  exact sample_clock_reaches_deadline.
Defined.

End BusyLoop.

(** ** Names *)

Section Names.
Import Simulator.

Lemma str_of_int_inj a b : Py.str_of_int a = Py.str_of_int b → a = b.
Proof.
  unfold Py.str_of_int. intros Heq.
  assert (Hparse : ∀ z, NilZero.int_of_string (NilZero.string_of_int (Z.to_int z))
                        = Some (Z.to_int z)).
  { intros z. apply NilZero.isi; destruct z; simpl; try discriminate;
      intros [= Hnil]; exact (Unsigned.to_uint_nonnil _ Hnil). }
  apply DecimalZ.to_int_inj.
  pose proof (Hparse a) as Ha. rewrite Heq, Hparse in Ha. congruence.
Qed.

Lemma digits_no_hash u : after_last_hash (NilEmpty.string_of_uint u) = None.
Proof. induction u; simpl; rewrite ?IHu; reflexivity. Qed.

Lemma str_of_int_no_hash z : after_last_hash (Py.str_of_int z) = None.
Proof.
  assert (Hu : ∀ u, after_last_hash (NilZero.string_of_uint u) = None)
    by (intros u; destruct u; try reflexivity; exact (digits_no_hash _)).
  unfold Py.str_of_int. destruct z as [| p | p]; simpl.
  - reflexivity.
  - apply Hu.
  - rewrite Hu. reflexivity.
Qed.

Lemma after_last_hash_app prefix tail :
  after_last_hash tail = None →
  after_last_hash (prefix +:+ "#" +:+ tail) = Some tail.
Proof.
  intros Htail. induction prefix as [| c prefix IH].
  - change (after_last_hash (String "#" tail) = Some tail).
    simpl. rewrite Htail. reflexivity.
  - change (after_last_hash (String c (prefix +:+ "#" +:+ tail)) = Some tail).
    simpl. rewrite IH. reflexivity.
Qed.

Lemma append_assoc (a b c : string) : (a +:+ b) +:+ c = a +:+ b +:+ c.
Proof.
  induction a as [| x a IH]; [reflexivity |].
  change (String x ((a +:+ b) +:+ c) = String x (a +:+ b +:+ c)).
  rewrite IH. reflexivity.
Qed.

Lemma display_name_suffix f l i :
  after_last_hash (display_name f l i) = Some (Py.str_of_int (i + 1)).
Proof.
  unfold display_name.
  replace (f +:+ " " +:+ l +:+ " #" +:+ Py.str_of_int (i + 1))
    with ((f +:+ " " +:+ l +:+ " ") +:+ "#" +:+ Py.str_of_int (i + 1)).
  - apply after_last_hash_app, str_of_int_no_hash.
  - rewrite !append_assoc. reflexivity.
Qed.

Lemma choice_in pool raw : pool ≠ [] → Py.choice pool raw ∈ pool.
Proof.
  intros Hne. unfold Py.choice. apply list_elem_of_In, nth_In.
  assert (0 < Z.of_nat (length pool)) by (destruct pool; [congruence | simpl; lia]).
  pose proof (Z.mod_pos_bound raw (Z.of_nat (length pool)) ltac:(lia)). lia.
Qed.

(** One name per index, each of the shape [display_name]. *)
Lemma names_loop_shape indices : ∀ names rand,
  ∃ new,
    (names_loop indices names rand).1 = names ++ new
    ∧ Forall2 (λ i name, ∃ f l, f ∈ first ∧ l ∈ last ∧ name = display_name f l i)
              indices new.
Proof.
  induction indices as [| i rest IH]; intros names rand; simpl.
  - exists []. rewrite app_nil_r. split; [reflexivity | constructor].
  - match goal with |- context [names_loop rest ?acc ?g] =>
      destruct (IH acc g) as (new & -> & Hnew)
    end.
    eexists (_ :: new). split.
    + rewrite <- app_assoc. reflexivity.
    + constructor; [| exact Hnew].
      eexists _, _. split; [| split; [| reflexivity]];
        apply choice_in; discriminate.
Qed.

Lemma range_indices n : Py.range n = Z.of_nat <$> seq 0 (Z.to_nat n).
Proof.
  unfold Py.range, Py.range3, Py.range_len.
  replace ((n - 0 + 1 - 1) / 1) with n by (rewrite Z.div_1_r; lia).
  apply list_fmap_ext. intros _ k _. lia.
Qed.

Lemma suffixes_distinct indices new :
  NoDup indices →
  Forall2 (λ i name, ∃ f l, f ∈ first ∧ l ∈ last ∧ name = display_name f l i)
          indices new →
  NoDup new.
Proof.
  intros Hnd Hshape.
  apply (NoDup_fmap_1 after_last_hash).
  assert (Htags : after_last_hash <$> new = (λ i, Some (Py.str_of_int (i + 1))) <$> indices).
  { clear Hnd.
    induction Hshape as [| i name indices new (f & l & _ & _ & ->) _ IH].
    - reflexivity.
    - rewrite !fmap_cons, display_name_suffix, IH. reflexivity. }
  rewrite Htags. apply NoDup_fmap_2; [| exact Hnd].
  intros a b [= Heq]. apply str_of_int_inj in Heq. lia.
Qed.

Lemma generate_names_length (N : Z) (rand : nat → Z) :
  length (generate_names N rand).1 = Z.to_nat N.
Proof.
  unfold generate_names.
  destruct (names_loop_shape (Py.range N) [] rand) as (new & -> & Hshape).
  rewrite app_nil_l, <- (Forall2_length _ _ _ Hshape), range_indices.
  rewrite length_fmap, length_seq. reflexivity.
Qed.

(** C4. For every count N >= 1, [generate_names] returns exactly N names,
    the name at 0-based position i is a sampled first name, a sampled last
    name and the suffix [#(i+1)], and the N names are pairwise distinct
    whatever parts were sampled. *)
Theorem generate_names_distinct (N : Z) (rand : nat → Z) :
  1 <= N →
  let names := (generate_names N rand).1 in
  Z.of_nat (length names) = N
  ∧ NoDup names
  ∧ ∀ i, 0 <= i < N →
      ∃ f l, f ∈ first ∧ l ∈ last
             ∧ names !! Z.to_nat i = Some (f +:+ " " +:+ l +:+ " #" +:+ Py.str_of_int (i + 1)).
Proof.
  intros HN names. subst names. unfold generate_names.
  destruct (names_loop_shape (Py.range N) [] rand) as (new & -> & Hshape).
  rewrite app_nil_l. rewrite range_indices in Hshape.
  pose proof (Forall2_length _ _ _ Hshape) as Hlen.
  rewrite length_fmap, length_seq in Hlen.
  split; [lia |]. split.
  - apply (suffixes_distinct _ _ (NoDup_fmap_2 _ _ (NoDup_seq 0 _)) Hshape).
  - intros i Hi.
    assert (Hidx : (Z.of_nat <$> seq 0 (Z.to_nat N)) !! Z.to_nat i = Some i).
    { rewrite list_lookup_fmap, lookup_seq_lt by lia. simpl. f_equal. lia. }
    destruct (Forall2_lookup_l _ _ _ _ _ Hshape Hidx) as (name & Hname & f & l & Hf & Hl & ->).
    exists f, l. auto.
Qed.

Lemma generate_names_distinct_witness :
  1 <= 3
  ∧ let names := (generate_names 3 (λ n, 20 * Z.of_nat n)).1 in
    Z.of_nat (length names) = 3
    ∧ NoDup names
    ∧ ∀ i, 0 <= i < 3 →
        ∃ f l, f ∈ first ∧ l ∈ last
               ∧ names !! Z.to_nat i = Some (f +:+ " " +:+ l +:+ " #" +:+ Py.str_of_int (i + 1)).
Proof.
  split; [lia |]. apply (generate_names_distinct 3 (λ n, 20 * Z.of_nat n)). lia.
Defined.

(** The sampled parts do collide in that run; the suffix alone tells the
    names apart. *)
Example names_with_colliding_parts :
  (generate_names 3 (λ n, 20 * Z.of_nat n)).1
  = ["Aarav Sharma #1"; "Aarav Sharma #2"; "Aarav Sharma #3"]%string.
Proof. vm_compute. reflexivity. Qed.

End Names.

(** ** One worker *)

Section Worker.
Import Simulator.

Lemma bind_Ret {S A B} (m : M S A) (k : A → M S B) s a s' :
  m s = (Ret a, s') → (m ≫= k) s = k a s'.
Proof. intros H. unfold mbind, M_bind, bind. rewrite H. reflexivity. Qed.

Lemma lookup_snoc {A} (l : list A) x : (l ++ [x]) !! length l = Some x.
Proof. apply list_lookup_middle. reflexivity. Qed.

Lemma insert_snoc {A} (l : list A) x y : <[length l := y]> (l ++ [x]) = l ++ [y].
Proof. rewrite insert_app_r_alt, Nat.sub_diag by lia. reflexivity. Qed.

(** Storing through the proxy copies the dict into the manager. *)
Lemma setitem_proxy name r d w :
  heap w !! r = Some d →
  setitem ManagerProxy name r w
  = (Ret tt, set_past (past w ++ [Stores (heap w) (plain w) (<[name := d]> (manager w))])
               (set_manager (<[name := d]> (manager w)) w)).
Proof. intros H. unfold setitem, modify, snapshot, deref. cbn. rewrite H. reflexivity. Qed.

(** Storing into an ordinary dict keeps the reference. *)
Lemma setitem_plain name r w :
  setitem PlainDict name r w
  = (Ret tt, set_past (past w ++ [Stores (heap w) (<[name := r]> (plain w)) (manager w)])
               (set_plain (<[name := r]> (plain w)) w)).
Proof. reflexivity. Qed.

(** Through the proxy an item assignment lands in a fresh copy on the
    worker's own heap; the manager's dict is as it was. *)
Lemma assign_proxy name key v d w :
  manager w !! name = Some d →
  assign ManagerProxy name key v w
  = (Ret tt, set_past (past w ++ [Stores (heap w ++ [dict_set d key v]) (plain w) (manager w)])
               (set_heap (heap w ++ [dict_set d key v]) w)).
Proof.
  intros H. unfold assign. erewrite bind_Ret; [| unfold getitem; rewrite H; reflexivity].
  unfold dict_setitem, modify, snapshot, deref. cbn.
  rewrite lookup_snoc, insert_snoc. reflexivity.
Qed.

(** On an ordinary dict it updates the stored object itself. *)
Lemma assign_plain name key v h d w :
  heap w = h ++ [d] →
  plain w !! name = Some (length h) →
  assign PlainDict name key v w
  = (Ret tt, set_past (past w ++ [Stores (h ++ [dict_set d key v]) (plain w) (manager w)])
               (set_heap (h ++ [dict_set d key v]) w)).
Proof.
  intros Hh Hp. unfold assign. erewrite bind_Ret; [| unfold getitem; rewrite Hp; reflexivity].
  unfold dict_setitem, modify, snapshot, deref. cbn.
  rewrite Hh, lookup_snoc, insert_snoc. reflexivity.
Qed.

Lemma getitem_proxy name d w :
  manager w !! name = Some d →
  getitem ManagerProxy name w = (Ret (length (heap w)), set_heap (heap w ++ [d]) w).
Proof. intros H. unfold getitem. rewrite H. reflexivity. Qed.

Lemma getitem_plain name r w :
  plain w !! name = Some r → getitem PlainDict name w = (Ret r, w).
Proof. intros H. unfold getitem. rewrite H. reflexivity. Qed.

Lemma dict_get_of_snoc h d key w :
  heap w = h ++ [d] →
  dict_get_of (length h) key w = (Ret (dict_get_method d key), w).
Proof.
  intros H. unfold dict_get_of, gets, deref. rewrite H, lookup_snoc. reflexivity.
Qed.

Lemma dict_get_set d key v key' :
  dict_get (dict_set d key v) key'
  = if String.eqb key key' then Some v else dict_get d key'.
Proof.
  induction d as [| [k v0] rest IH]; simpl.
  - destruct (String.eqb key key'); reflexivity.
  - destruct (String.eqb_spec k key) as [-> | Hk]; simpl.
    + destruct (String.eqb key key'); reflexivity.
    + rewrite IH. destruct (String.eqb_spec k key') as [-> | Hk'].
      * destruct (String.eqb_spec key key') as [-> | _]; [congruence | reflexivity].
      * reflexivity.
Qed.

Lemma omap_snoc {A B} (f : A → option B) l x y :
  f x = Some y → omap f (l ++ [x]) = omap f l ++ [y].
Proof. intros H. rewrite omap_app. simpl. rewrite H. reflexivity. Qed.

Ltac norm :=
  cbv beta iota
      delta [pid utc ticks rand io_error sleep_refusal heap plain manager fs trace
             tested past
             set_utc set_ticks set_rand set_io_error set_heap set_plain
             set_manager set_fs set_trace set_tested set_past snapshot
             dict_get_method default from_option].

Lemma returns_bind {A B} (m : M world A) (k : A → M world B) w a w1 Q :
  m w = (Ret a, w1) → returns (k a) w1 Q → returns (m ≫= k) w Q.
Proof.
  intros Hm (b & w' & Hk & HQ). exists b, w'. split; [| exact HQ].
  rewrite (bind_Ret m k w a w1 Hm). exact Hk.
Qed.

Lemma returns_now {A} (m : M world A) w a w' (Q : A → world → Prop) :
  m w = (Ret a, w') → Q a w' → returns m w Q.
Proof. intros Hm HQ. exists a, w'. auto. Qed.

(** A sleep that is taken leaves its event and nothing else. *)
Lemma sleep_run d w :
  (0 <= d)%Q →
  (nanoseconds d <= nanoseconds_limit)%Q →
  sleep_refusal w d = None →
  sleep d w = (Ret tt, set_trace (trace w ++ [EvSleep d]) w).
Proof.
  intros Hd Hns Hos. unfold sleep.
  destruct (Qlt_le_dec nanoseconds_limit (nanoseconds d)) as [Hover | _];
    [destruct (Qlt_not_le _ _ Hover Hns) |].
  destruct (Qlt_le_dec (nanoseconds d) (- nanoseconds_limit)) as [Hunder | _].
  { exfalso. apply (Qlt_not_le _ _ Hunder).
    apply Qle_trans with 0%Q; [discriminate |].
    unfold nanoseconds. apply Qmult_le_0_compat; [exact Hd | discriminate]. }
  destruct (Qlt_le_dec d 0) as [Hneg | _]; [destruct (Qlt_not_le _ _ Hneg Hd) |].
  rewrite Hos. reflexivity.
Qed.

Lemma remaining_nonneg stay_seconds work_seconds :
  (0 <= remaining stay_seconds work_seconds)%Q.
Proof. apply max0_nonneg. Qed.

(** After an assignment through the proxy: forget the copy left on the heap
    and keep, of the new snapshot, the state it shows. *)
Ltac forget_copy name :=
  lazymatch goal with
  | Hs : omap (state_of ManagerProxy name) ?snaps = _
    |- returns _ (World _ _ _ _ _ _ ?H _ _ _ _ _ ((?pa ++ ?snaps) ++ [?s])) _ =>
      let Hs' := fresh "Hs" in
      pose proof (omap_snoc (state_of ManagerProxy name) snaps s (SStr "connecting")
                    ltac:(unfold state_of, entry; cbn [st_manager];
                          rewrite lookup_insert_eq; reflexivity)) as Hs';
      rewrite Hs in Hs'; clear Hs;
      rewrite <- (app_assoc pa snaps [s]);
      let snaps' := fresh "snaps" in
      set (snaps' := snaps ++ [s]) in *; clearbody snaps'; clear snaps;
      let H' := fresh "H" in
      set (H' := H) in *; clearbody H'
  end.

Ltac step_proxy name Hcpu :=
  lazymatch goal with
  | |- returns (?m ≫= _) _ _ =>
      lazymatch m with
      | assign ManagerProxy _ _ _ =>
          eapply returns_bind;
          [apply assign_proxy; norm; apply lookup_insert_eq |];
          norm; forget_copy name
      | getitem ManagerProxy _ =>
          eapply returns_bind;
          [apply getitem_proxy; norm; apply lookup_insert_eq |]; norm
      | dict_get_of _ _ =>
          eapply returns_bind; [apply dict_get_of_snoc; norm; reflexivity |]; norm
      | cpu_work_for _ =>
          eapply returns_bind; [apply Hcpu; reflexivity |]; norm
      | sleep _ =>
          eapply returns_bind;
          [apply sleep_run; [eassumption | eassumption | norm; eassumption] |];
          norm
      | _ => eapply returns_bind; [reflexivity |]; norm
      end
  end.

Lemma worker_through_proxy name meeting_code passcode stay_seconds work_seconds
    log_path stagger w :
  deadline_seen work_seconds (ticks w) →
  sleeps_accepted stay_seconds work_seconds stagger w →
  ∃ new,
    Forall examined new
    ∧ returns
        (worker name meeting_code passcode stay_seconds work_seconds ManagerProxy
                log_path stagger) w
        (λ _ w', ∃ snaps,
           manager w' = <[name := connecting_entry w]> (manager w)
           ∧ past w' = past w ++ snaps
           ∧ omap (state_of ManagerProxy name) snaps = replicate 10 (SStr "connecting")
           ∧ trace w' = trace w ++ sleeps stay_seconds work_seconds stagger
                        ++ diagnostic log_path (io_error w)
           ∧ fs w' = logged log_path (io_error w)
                       (log_line (log_record name meeting_code (stamp (utc w 0%nat))
                                             (left_at_read ManagerProxy w)
                                             (Z.of_nat (length new))))
                       (fs w)
           ∧ tested w' = tested w ++ new).
Proof.
  intros Hreach [Hstagger [Hns Hos]].
  destruct (cpu_work_for_run work_seconds (ticks w) (rand w) Hreach)
    as (new & ts & g & Hnew & Hcpu).
  exists new. split; [exact Hnew |].
  pose proof (remaining_nonneg stay_seconds work_seconds) as Hidle.
  destruct w as [p u tk r io sr h pl m f tr te pa].
  unfold sleep_accepted in Hstagger. cbn in Hcpu, Hstagger, Hos.
  unfold sleeps, diagnostic, logged, worker, connecting_entry. norm.
  lazymatch goal with |- returns _ _ ?post => set (Q := post) end.
  do 3 step_proxy name Hcpu.
  eapply returns_bind; [apply setitem_proxy; norm; apply lookup_snoc |]. norm.
  lazymatch goal with
  | |- returns _ (World _ _ _ _ _ _ ?H _ _ _ _ _ (?pa ++ [?s])) _ =>
      assert (Hs : omap (state_of ManagerProxy name) [s] = [SStr "connecting"])
        by (unfold state_of, entry; simpl; rewrite lookup_insert_eq; reflexivity);
      let snaps := fresh "snaps" in
      set (snaps := [s]) in *; clearbody snaps;
      let H' := fresh "H" in
      set (H' := H) in *; clearbody H'
  end.
  destruct (Qlt_le_dec 0 stagger) as [Hpos | _];
    [destruct (Hstagger Hpos) as [Hns' Hos'];
     pose proof (Qlt_le_weak _ _ Hpos) as Hpos' |];
    repeat step_proxy name Hcpu;
    (destruct (truthy log_path) as [path |];
     [repeat step_proxy name Hcpu; destruct io as [msg |] |]);
    (eapply returns_now;
     [unfold try_except_Exception, append_text, print, modify; norm; reflexivity |]);
    subst Q; norm; eexists;
    (split; [reflexivity |]); (split; [reflexivity |]);
    (split; [lazymatch goal with Hs : omap _ _ = _ |- _ => exact Hs end |]);
    (split; [rewrite <- ?app_assoc; reflexivity |]); (split; reflexivity).
Qed.

(** After an assignment on an ordinary dict: keep, of the stored object,
    its state and its [left_at], and of the new snapshot the state it shows. *)
Ltac forget_update name :=
  lazymatch goal with
  | Hs : omap (state_of PlainDict name) ?snaps = _,
    Hst : dict_get ?d "state" = _,
    Hleft : dict_get ?d "left_at" = _
    |- returns _ (World _ _ _ _ _ _ (?h ++ [dict_set ?d ?key ?v]) _ _ _ _ _
                        ((?pa ++ ?snaps) ++ [?s])) _ =>
      let Hst' := fresh "Hst" in
      pose proof (dict_get_set d key v "state") as Hst';
      cbn [String.eqb Ascii.eqb Bool.eqb] in Hst'; rewrite ?Hst in Hst'; clear Hst;
      let Hleft' := fresh "Hleft" in
      pose proof (dict_get_set d key v "left_at") as Hleft';
      cbn [String.eqb Ascii.eqb Bool.eqb] in Hleft'; rewrite ?Hleft in Hleft';
      clear Hleft;
      let Hs' := fresh "Hs" in
      pose proof (omap_snoc (state_of PlainDict name) snaps s _
                    ltac:(unfold state_of, entry; cbn [st_plain st_heap];
                          rewrite lookup_insert_eq; simpl;
                          rewrite lookup_snoc; exact Hst')) as Hs';
      rewrite Hs in Hs'; clear Hs;
      rewrite <- (app_assoc pa snaps [s]);
      let snaps' := fresh "snaps" in
      set (snaps' := snaps ++ [s]) in *; clearbody snaps'; clear snaps;
      let d' := fresh "d" in
      set (d' := dict_set d key v) in *; clearbody d'; clear d
  end.

Ltac step_plain name Hcpu :=
  lazymatch goal with
  | |- returns (?m ≫= _) _ _ =>
      lazymatch m with
      | assign PlainDict _ _ _ =>
          eapply returns_bind;
          [apply assign_plain; norm; [reflexivity | apply lookup_insert_eq] |];
          norm; forget_update name
      | getitem PlainDict _ =>
          eapply returns_bind;
          [apply getitem_plain; norm; apply lookup_insert_eq |]; norm
      | dict_get_of _ _ =>
          eapply returns_bind; [apply dict_get_of_snoc; norm; reflexivity |]; norm
      | cpu_work_for _ =>
          eapply returns_bind; [apply Hcpu; reflexivity |]; norm
      | sleep _ =>
          eapply returns_bind;
          [apply sleep_run; [eassumption | eassumption | norm; eassumption] |];
          norm
      | _ => eapply returns_bind; [reflexivity |]; norm
      end
  end.

Lemma worker_on_plain_dict name meeting_code passcode stay_seconds work_seconds
    log_path stagger w :
  deadline_seen work_seconds (ticks w) →
  sleeps_accepted stay_seconds work_seconds stagger w →
  ∃ new,
    Forall examined new
    ∧ returns
        (worker name meeting_code passcode stay_seconds work_seconds PlainDict
                log_path stagger) w
        (λ _ w', ∃ snaps,
           plain w' = <[name := length (heap w)]> (plain w)
           ∧ past w' = past w ++ snaps
           ∧ omap (state_of PlainDict name) snaps
             = [SStr "connecting"; SStr "connected"; SStr "connected";
                SStr "working"; SStr "working"; SStr "working"; SStr "working";
                SStr "idle"; SStr "left"; SStr "left"]
           ∧ trace w' = trace w ++ sleeps stay_seconds work_seconds stagger
                        ++ diagnostic log_path (io_error w)
           ∧ fs w' = logged log_path (io_error w)
                       (log_line (log_record name meeting_code (stamp (utc w 0%nat))
                                             (left_at_read PlainDict w)
                                             (Z.of_nat (length new))))
                       (fs w)
           ∧ tested w' = tested w ++ new).
Proof.
  intros Hreach [Hstagger [Hns Hos]].
  destruct (cpu_work_for_run work_seconds (ticks w) (rand w) Hreach)
    as (new & ts & g & Hnew & Hcpu).
  exists new. split; [exact Hnew |].
  pose proof (remaining_nonneg stay_seconds work_seconds) as Hidle.
  destruct w as [p u tk r io sr h pl m f tr te pa].
  unfold sleep_accepted in Hstagger. cbn in Hcpu, Hstagger, Hos.
  unfold sleeps, diagnostic, logged, worker, left_at_read. norm.
  lazymatch goal with |- returns _ _ ?post => set (Q := post) end.
  do 3 step_plain name Hcpu.
  eapply returns_bind; [apply setitem_plain |]. norm.
  lazymatch goal with
  | |- returns _ (World _ _ _ _ _ _ (_ ++ [?d]) _ _ _ _ _ (?pa ++ [?s])) _ =>
      assert (Hst : dict_get d "state" = Some (SStr "connecting")) by reflexivity;
      assert (Hleft : dict_get d "left_at" = None) by reflexivity;
      assert (Hs : omap (state_of PlainDict name) [s] = [SStr "connecting"])
        by (unfold state_of, entry; simpl; rewrite lookup_insert_eq; simpl;
            rewrite lookup_snoc; reflexivity);
      let snaps := fresh "snaps" in
      set (snaps := [s]) in *; clearbody snaps;
      let d' := fresh "d" in
      set (d' := d) in *; clearbody d'
  end.
  destruct (Qlt_le_dec 0 stagger) as [Hpos | _];
    [destruct (Hstagger Hpos) as [Hns' Hos'];
     pose proof (Qlt_le_weak _ _ Hpos) as Hpos' |];
    repeat step_plain name Hcpu;
    (destruct (truthy log_path) as [path |];
     [repeat step_plain name Hcpu; destruct io as [msg |] |]);
    (eapply returns_now;
     [unfold try_except_Exception, append_text, print, modify; norm; reflexivity |]);
    subst Q; norm; eexists;
    (split; [reflexivity |]); (split; [reflexivity |]);
    (split; [lazymatch goal with Hs : omap _ _ = _ |- _ => exact Hs end |]);
    (split; [rewrite <- ?app_assoc; reflexivity |]);
    (split; [| reflexivity]);
    lazymatch goal with Hl : dict_get _ "left_at" = _ |- _ => rewrite ?Hl end;
    reflexivity.
Qed.

(** Either way the worker runs to its end, and only what the table shows in
    between depends on the kind of table. *)
Lemma worker_run t name meeting_code passcode stay_seconds work_seconds
    log_path stagger w :
  deadline_seen work_seconds (ticks w) →
  sleeps_accepted stay_seconds work_seconds stagger w →
  ∃ new,
    Forall examined new
    ∧ returns
        (worker name meeting_code passcode stay_seconds work_seconds t
                log_path stagger) w
        (λ _ w', ∃ snaps,
           past w' = past w ++ snaps
           ∧ omap (state_of t name) snaps = shown t
           ∧ trace w' = trace w ++ sleeps stay_seconds work_seconds stagger
                        ++ diagnostic log_path (io_error w)
           ∧ fs w' = logged log_path (io_error w)
                       (log_line (log_record name meeting_code (stamp (utc w 0%nat))
                                             (left_at_read t w)
                                             (Z.of_nat (length new))))
                       (fs w)
           ∧ tested w' = tested w ++ new).
Proof.
  intros Hreach Hsleeps. destruct t.
  - destruct (worker_on_plain_dict name meeting_code passcode stay_seconds
                work_seconds log_path stagger w Hreach Hsleeps)
      as (new & Hnew & a & w' & Hrun & snaps & _ & Hpast & Hshown & Htrace & Hfs & Hte).
    exists new. split; [exact Hnew |]. exists a, w'. split; [exact Hrun |].
    exists snaps. auto.
  - destruct (worker_through_proxy name meeting_code passcode stay_seconds
                work_seconds log_path stagger w Hreach Hsleeps)
      as (new & Hnew & a & w' & Hrun & snaps & _ & Hpast & Hshown & Htrace & Hfs & Hte).
    exists new. split; [exact Hnew |]. exists a, w'. split; [exact Hrun |].
    exists snaps. auto.
Qed.






(** In the sample world a worker that stays 10 seconds, works 2 and has no
    stagger has its one sleep, of 8 seconds, taken. *)
Lemma sample_sleeps_accepted : sleeps_accepted 10 2 0 sample_world.
Proof.
  split.
  - intros Hpos. discriminate Hpos.
  - split; [| reflexivity]. unfold Qle. vm_compute. discriminate.
Defined.

(** C1. Run against the proxy of the manager's dict, which is the table
    [run_simulation] hands to every worker, a worker records a single state
    for its participant: the table shows "connecting" after the first
    assignment and after every later one, to the end of the run, and never
    connected, working, idle or left. *)
Theorem worker_table_shows_only_connecting name meeting_code passcode stay_seconds
    work_seconds log_path stagger w :
  deadline_seen work_seconds (ticks w) →
  sleeps_accepted stay_seconds work_seconds stagger w →
  returns
    (worker name meeting_code passcode stay_seconds work_seconds ManagerProxy
            log_path stagger) w
    (λ _ w', ∃ snaps,
       past w' = past w ++ snaps
       ∧ recorded_states ManagerProxy name snaps = [SStr "connecting"]
       ∧ state_of ManagerProxy name (Stores (heap w') (plain w') (manager w'))
         = Some (SStr "connecting")
       ∧ recorded_states ManagerProxy name snaps ≠ lifecycle).
Proof.
  intros Hreach Hsleeps.
  destruct (worker_through_proxy name meeting_code passcode stay_seconds
              work_seconds log_path stagger w Hreach Hsleeps)
    as (new & _ & a & w' & Hrun & snaps & Hman & Hpast & Hshown & _).
  exists a, w'. split; [exact Hrun |]. exists snaps.
  assert (Hrec : recorded_states ManagerProxy name snaps = [SStr "connecting"])
    by (unfold recorded_states; rewrite Hshown; reflexivity).
  split; [exact Hpast |]. split; [exact Hrec |]. split.
  - unfold state_of, entry. cbn [st_manager]. rewrite Hman, lookup_insert_eq.
    reflexivity.
  - rewrite Hrec. discriminate.
Qed.

Lemma worker_table_shows_only_connecting_witness :
  deadline_seen 2 (ticks sample_world)
  ∧ sleeps_accepted 10 2 0 sample_world
  ∧ returns
      (worker "Aarav Sharma #1" "SIM-MEET-123" "" 10 2 ManagerProxy
              (Some "simulator.log"%string) 0) sample_world
      (λ _ w', ∃ snaps,
         past w' = past sample_world ++ snaps
         ∧ recorded_states ManagerProxy "Aarav Sharma #1" snaps = [SStr "connecting"]
         ∧ state_of ManagerProxy "Aarav Sharma #1"
             (Stores (heap w') (plain w') (manager w'))
           = Some (SStr "connecting")
         ∧ recorded_states ManagerProxy "Aarav Sharma #1" snaps ≠ lifecycle).
Proof.
  split; [exact sample_clock_reaches_deadline |].
  split; [exact sample_sleeps_accepted |].
  apply (worker_table_shows_only_connecting "Aarav Sharma #1" "SIM-MEET-123" "" 10 2
           (Some "simulator.log"%string) 0 sample_world).
  - exact sample_clock_reaches_deadline.
  - exact sample_sleeps_accepted.
Defined.

(** The same code run on an ordinary dict records the five states in order:
    the sequence is what the assignments are written to produce. *)
Lemma worker_plain_dict_records_lifecycle name meeting_code passcode stay_seconds
    work_seconds log_path stagger w :
  deadline_seen work_seconds (ticks w) →
  sleeps_accepted stay_seconds work_seconds stagger w →
  returns
    (worker name meeting_code passcode stay_seconds work_seconds PlainDict
            log_path stagger) w
    (λ _ w', ∃ snaps,
       past w' = past w ++ snaps
       ∧ recorded_states PlainDict name snaps = lifecycle).
Proof.
  intros Hreach Hsleeps.
  destruct (worker_on_plain_dict name meeting_code passcode stay_seconds
              work_seconds log_path stagger w Hreach Hsleeps)
    as (new & _ & a & w' & Hrun & snaps & _ & Hpast & Hshown & _).
  exists a, w'. split; [exact Hrun |]. exists snaps.
  split; [exact Hpast |]. unfold recorded_states. rewrite Hshown. reflexivity.
Qed.

Lemma occurs_app c a b : occurs c (a +:+ b) = occurs c a || occurs c b.
Proof.
  induction a as [| x a IH]; [reflexivity |].
  change (occurs c (String x (a +:+ b)) = occurs c (String x a) || occurs c b).
  simpl. rewrite IH, orb_assoc. reflexivity.
Qed.

Lemma json_escape_char_one_line c : occurs newline (json_escape_char c) = false.
Proof. destruct c as [[] [] [] [] [] [] [] []]; reflexivity. Qed.

Lemma json_escape_one_line s : occurs newline (json_escape s) = false.
Proof.
  induction s as [| c s IH]; [reflexivity |].
  simpl. rewrite occurs_app, json_escape_char_one_line, IH. reflexivity.
Qed.

Lemma json_string_one_line s : occurs newline (json_string s) = false.
Proof.
  unfold json_string.
  change (String dquote (json_escape s) +:+ String dquote "")
    with (String dquote (json_escape s +:+ String dquote "")).
  simpl. rewrite occurs_app, json_escape_one_line. reflexivity.
Qed.

Lemma digits_one_line u : occurs newline (NilEmpty.string_of_uint u) = false.
Proof. induction u; simpl; rewrite ?IHu; reflexivity. Qed.

Lemma str_of_int_one_line z : occurs newline (Py.str_of_int z) = false.
Proof.
  assert (Hu : ∀ u, occurs newline (NilZero.string_of_uint u) = false)
    by (intros u; destruct u; try reflexivity; exact (digits_one_line _)).
  unfold Py.str_of_int. destruct z as [| p | p]; simpl.
  - reflexivity.
  - apply Hu.
  - apply Hu.
Qed.

Lemma json_scalar_one_line v : occurs newline (json_scalar v) = false.
Proof.
  destruct v; simpl;
    [reflexivity | apply str_of_int_one_line | apply json_string_one_line].
Qed.

Lemma json_item_one_line kv : occurs newline (json_item kv) = false.
Proof.
  unfold json_item.
  rewrite !occurs_app, json_string_one_line, json_scalar_one_line. reflexivity.
Qed.

Lemma concat_one_line (items : list string) :
  Forall (λ s, occurs newline s = false) items →
  occurs newline (String.concat ", " items) = false.
Proof.
  induction 1 as [| s items Hs _ IH]; [reflexivity |].
  destruct items as [| s' items]; [exact Hs |].
  change (String.concat ", " (s :: s' :: items))
    with (s +:+ ", " +:+ String.concat ", " (s' :: items)).
  rewrite !occurs_app, Hs, IH. reflexivity.
Qed.

(** Whatever the strings in it, the text [json.dumps] produces for a record
    holds no line break. *)
Lemma json_dumps_one_line d : occurs newline (json_dumps d) = false.
Proof.
  unfold json_dumps. rewrite !occurs_app, concat_one_line; [reflexivity |].
  apply Forall_fmap, Forall_forall. intros kv _. apply json_item_one_line.
Qed.

(** C5. Whenever a worker appends to its log, what it appends is the
    [json.dumps] text of a record with exactly the fields name, meeting_code,
    started_at, left_at and work_done, followed by a line break, and that
    text holds no line break of its own; started_at is the UTC time read at
    the worker's start with a trailing "Z", and work_done is a non-negative
    integer. When no log is asked for or the append fails, the files are as
    they were. *)
Theorem worker_appends_one_json_line t name meeting_code passcode stay_seconds
    work_seconds log_path stagger w :
  deadline_seen work_seconds (ticks w) →
  sleeps_accepted stay_seconds work_seconds stagger w →
  ∃ jobs_done,
    0 <= jobs_done
    ∧ let record :=
        [("name", SStr name); ("meeting_code", SStr meeting_code);
         ("started_at", SStr (isoformat (utc w 0%nat) +:+ "Z"));
         ("left_at", left_at_read t w); ("work_done", SInt jobs_done)] in
      occurs newline (json_dumps record) = false
      ∧ returns
          (worker name meeting_code passcode stay_seconds work_seconds t
                  log_path stagger) w
          (λ _ w',
             match truthy log_path, io_error w with
             | Some path, None =>
                 fs w' = <[path := default "" (fs w !! path)
                                   +:+ json_dumps record +:+ String newline ""]> (fs w)
             | _, _ => fs w' = fs w
             end).
Proof.
  intros Hreach Hsleeps.
  destruct (worker_run t name meeting_code passcode stay_seconds work_seconds
              log_path stagger w Hreach Hsleeps)
    as (new & _ & a & w' & Hrun & snaps & _ & _ & _ & Hfs & _).
  exists (Z.of_nat (length new)). split; [lia |]. split.
  - apply json_dumps_one_line.
  - exists a, w'. split; [exact Hrun |].
    rewrite Hfs. unfold logged.
    destruct (truthy log_path), (io_error w); reflexivity.
Qed.

Lemma worker_appends_one_json_line_witness :
  deadline_seen 2 (ticks sample_world)
  ∧ sleeps_accepted 10 2 0 sample_world
  ∧ ∃ jobs_done,
      0 <= jobs_done
      ∧ let record :=
          [("name", SStr "Aarav Sharma #1"); ("meeting_code", SStr "SIM-MEET-123");
           ("started_at", SStr (isoformat (utc sample_world 0%nat) +:+ "Z"));
           ("left_at", left_at_read ManagerProxy sample_world);
           ("work_done", SInt jobs_done)] in
        occurs newline (json_dumps record) = false
        ∧ returns
            (worker "Aarav Sharma #1" "SIM-MEET-123" "" 10 2 ManagerProxy
                    (Some "simulator.log"%string) 0) sample_world
            (λ _ w',
               match truthy (Some "simulator.log"%string), io_error sample_world with
               | Some path, None =>
                   fs w' = <[path := default "" (fs sample_world !! path)
                                     +:+ json_dumps record +:+ String newline ""]>
                             (fs sample_world)
               | _, _ => fs w' = fs sample_world
               end).
Proof.
  split; [exact sample_clock_reaches_deadline |].
  split; [exact sample_sleeps_accepted |].
  apply (worker_appends_one_json_line ManagerProxy "Aarav Sharma #1" "SIM-MEET-123" ""
           10 2 (Some "simulator.log"%string) 0 sample_world).
  - exact sample_clock_reaches_deadline.
  - exact sample_sleeps_accepted.
Defined.

(** The line that run leaves in the log. *)
Example sample_log_line :
  (worker "Aarav Sharma #1" "SIM-MEET-123" "" 10 2 ManagerProxy
          (Some "simulator.log"%string) 0 sample_world).2.(fs) !! "simulator.log"%string
  = Some ("{" +:+ String dquote "name" +:+ String dquote ": "
          +:+ String dquote "Aarav Sharma #1" +:+ String dquote ", "
          +:+ String dquote "meeting_code" +:+ String dquote ": "
          +:+ String dquote "SIM-MEET-123" +:+ String dquote ", "
          +:+ String dquote "started_at" +:+ String dquote ": "
          +:+ String dquote "2024-03-07T09:05:00.001234Z" +:+ String dquote ", "
          +:+ String dquote "left_at" +:+ String dquote ": null, "
          +:+ String dquote "work_done" +:+ String dquote ": 2}"
          +:+ String newline "").
Proof. vm_compute. reflexivity. Qed.




(** With a clock that stops short of the deadline the worker is still in its
    busy loop at the last reading: the table has it working, and nothing is
    logged. *)
Example worker_without_deadline_hangs :
  (worker "Aarav Sharma #1" "SIM-MEET-123" "" 10 5 ManagerProxy
          (Some "simulator.log"%string) 0 sample_world).1 = Hang.
Proof. vm_compute. reflexivity. Qed.

End Worker.
(** ** The supervisor *)

Section Supervising.
Import Simulator.

Lemma run_simulation_phases number_of_users meeting_code passcode stay_seconds
    work_seconds stagger logfile rounds s :
  run_simulation number_of_users meeting_code passcode stay_seconds work_seconds
                 stagger logfile rounds s
  = (spawn_phase number_of_users meeting_code passcode stay_seconds work_seconds
                 stagger logfile;;
     try_except_KeyboardInterrupt_finally
       (monitor rounds)
       (call (Print "KeyboardInterrupt received: terminating children");;
        ps ← gets indices; for_each Terminate ps)
       (ps ← gets indices; for_each Join ps);;
     now ← s_utcnow;
     call (Print (complete_line now logfile))) s.
Proof.
  unfold run_simulation, spawn_phase, mbind, M_bind, bind.
  cbn [modify s_generate_names s_utcnow].
  destruct (call _ _) as [[[] | e |] s1]; [| reflexivity | reflexivity].
  destruct (start_all _ _ _ _ _ _ _ _ _) as [[[] | e |] s2]; reflexivity.
Qed.

(** *** Calls *)

Lemma call_quiet a s :
  interrupt s = None → call a s = (Ret tt, set_acts (acts s ++ [a]) s).
Proof. intros H. unfold call. rewrite H. reflexivity. Qed.

Lemma call_spared a s n :
  spared (interrupt s) (S n) →
  ∃ s', call a s = (Ret tt, s') ∧ spared (interrupt s') n.
Proof.
  unfold call, spared. destruct (interrupt s) as [[| k] |] eqn:Hi; intros H.
  - lia.
  - eexists. split; [reflexivity |]. simpl. lia.
  - eexists. split; [reflexivity |]. simpl. rewrite Hi. exact I.
Qed.

Lemma call_Ret a s s' :
  call a s = (Ret tt, s') →
  acts s' = acts s ++ [a] ∧ processes s' = processes s
  ∧ s_utc s' = s_utc s ∧ s_rand s' = s_rand s.
Proof.
  unfold call. destruct (interrupt s) as [[| k] |]; intros [= <-]; auto.
Qed.

Lemma bind_Ret_inv {S A B} (m : M S A) (k : A → M S B) s b s' :
  (m ≫= k) s = (Ret b, s') → ∃ a s1, m s = (Ret a, s1) ∧ k a s1 = (Ret b, s').
Proof.
  unfold mbind, M_bind, bind. destruct (m s) as [[a | e |] s1]; try discriminate.
  intros H. exists a, s1. auto.
Qed.

Lemma bind_Ret_sup {S A B} (m : M S A) (k : A → M S B) s a s' :
  m s = (Ret a, s') → (m ≫= k) s = k a s'.
Proof. intros H. unfold mbind, M_bind, bind. rewrite H. reflexivity. Qed.

(** *** What every part of the supervisor respects *)

Lemma tame_ret {A} (a : A) : tame (mret a).
Proof.
  intros s. simpl. split; [reflexivity |]. split; [exists []; symmetry; apply app_nil_r |].
  split; [discriminate | auto].
Qed.

Lemma tame_bind {A B} (m : M supervisor A) (k : A → M supervisor B) :
  tame m → (∀ a, tame (k a)) → tame (m ≫= k).
Proof.
  intros Hm Hk s. destruct (Hm s) as (Hp & [more Ha] & Hi & Hn).
  unfold mbind, M_bind, bind. destruct (m s) as [[a | e |] s1]; simpl in *.
  - destruct (Hk a s1) as (Hp' & [more' Ha'] & Hi' & Hn').
    split; [congruence |]. split.
    { exists (more ++ more'). rewrite Ha', Ha, app_assoc. reflexivity. }
    split; [exact Hi' |]. intros Hnone. apply Hn', Hn, Hnone.
  - split; [exact Hp |]. split; [exists more; exact Ha |].
    split; [intros [= ->]; apply Hi; reflexivity | exact Hn].
  - split; [exact Hp |]. split; [exists more; exact Ha |].
    split; [discriminate | exact Hn].
Qed.

Lemma tame_call a : tame (call a).
Proof.
  intros s. unfold call. destruct (interrupt s) as [[| k] |] eqn:Hi; simpl.
  - split; [reflexivity |]. split; [exists []; symmetry; apply app_nil_r | auto].
  - split; [reflexivity |]. split; [exists [a]; reflexivity |].
    split; discriminate.
  - split; [reflexivity |]. split; [exists [a]; reflexivity |].
    split; [discriminate | auto].
Qed.

Lemma tame_utcnow : tame s_utcnow.
Proof.
  intros s. simpl. split; [reflexivity |]. split; [exists []; symmetry; apply app_nil_r |].
  split; [discriminate | auto].
Qed.

Lemma tame_gets {A} (f : supervisor → A) : tame (gets f).
Proof.
  intros s. simpl. split; [reflexivity |]. split; [exists []; symmetry; apply app_nil_r |].
  split; [discriminate | auto].
Qed.

Lemma tame_is_alive alive i : tame (is_alive alive i).
Proof. apply tame_bind; [apply tame_call | intros; apply tame_ret]. Qed.

Lemma tame_any_alive alive ps : tame (any_alive alive ps).
Proof.
  induction ps as [| i rest IH]; [apply tame_ret |].
  apply tame_bind; [apply tame_is_alive |]. intros []; [apply tame_ret | exact IH].
Qed.

Lemma tame_count_alive alive ps : tame (count_alive alive ps).
Proof.
  induction ps as [| i rest IH]; [apply tame_ret |].
  apply tame_bind; [apply tame_is_alive |]. intros b.
  apply tame_bind; [exact IH | intros; apply tame_ret].
Qed.

Lemma tame_print_sample sample : tame (print_sample sample).
Proof.
  induction sample as [| [k v] rest IH]; [apply tame_ret |].
  simpl. destruct (dict_get v "state").
  - apply tame_bind; [apply tame_call | intros; exact IH].
  - intros s. simpl. split; [reflexivity |].
    split; [exists []; symmetry; apply app_nil_r |]. split; [discriminate | auto].
Qed.

Lemma tame_monitor rounds : tame (monitor rounds).
Proof.
  induction rounds as [| r later IH].
  - intros s. simpl. split; [reflexivity |].
    split; [exists []; symmetry; apply app_nil_r |]. split; [discriminate | auto].
  - simpl. apply tame_bind; [apply tame_gets |]. intros ps.
    apply tame_bind; [apply tame_any_alive |]. intros []; [| apply tame_ret].
    apply tame_bind; [apply tame_count_alive |]. intros n.
    apply tame_bind; [apply tame_utcnow |]. intros now.
    apply tame_bind; [apply tame_call |]. intros _.
    apply tame_bind; [apply tame_call |]. intros _.
    apply tame_bind; [apply tame_print_sample |]. intros _.
    apply tame_bind; [apply tame_call |]. intros _. exact IH.
Qed.

Lemma tame_for_each act ps : tame (for_each act ps).
Proof.
  induction ps as [| i rest IH]; [apply tame_ret |].
  apply tame_bind; [apply tame_call | intros; exact IH].
Qed.

Lemma tame_try body handler cleanup :
  tame body → tame handler → tame cleanup →
  tame (try_except_KeyboardInterrupt_finally body handler cleanup).
Proof.
  intros Hb Hh Hc s. unfold try_except_KeyboardInterrupt_finally.
  destruct (Hb s) as (Hp & [more Ha] & Hi & Hn).
  assert (Hg : ∃ o sg,
             match body s with
             | (Raise KeyboardInterrupt, s') => handler s'
             | r => r
             end = (o, sg)
             ∧ processes sg = processes s
             ∧ (∃ more, acts sg = acts s ++ more)
             ∧ (o = Raise KeyboardInterrupt → interrupt sg = None)
             ∧ (interrupt s = None → interrupt sg = None)).
  { destruct (body s) as [[[] | e |] s1]; simpl in *.
    - exists (Ret tt), s1. repeat split; eauto; discriminate.
    - destruct e; try (eexists _, s1; repeat split; eauto; discriminate).
      destruct (Hh s1) as (Hp' & [more' Ha'] & Hi' & Hn').
      destruct (handler s1) as [o sg]; simpl in *.
      exists o, sg. split; [reflexivity |]. split; [congruence |]. split.
      { exists (more ++ more'). rewrite Ha', Ha, app_assoc. reflexivity. }
      split; [exact Hi' | auto].
    - exists Hang, s1. repeat split; eauto; discriminate. }
  destruct Hg as (o & sg & -> & Hpg & [moreg Hag] & Hig & Hng).
  destruct (Hc sg) as (Hpc & [morec Hac] & Hic & Hnc).
  assert (Hacts : ∃ more, acts (cleanup sg).2 = acts s ++ more).
  { exists (moreg ++ morec). rewrite Hac, Hag, app_assoc. reflexivity. }
  destruct o as [[] | e |].
  - split; [congruence |]. split; [exact Hacts |]. split; [exact Hic | auto].
  - destruct (cleanup sg) as [[[] | e' |] sc]; simpl in *.
    + split; [congruence |]. split; [exact Hacts |].
      split; [intros [= ->]; auto | auto].
    + split; [congruence |]. split; [exact Hacts |]. split; [exact Hic | auto].
    + split; [congruence |]. split; [exact Hacts |].
      split; [discriminate | auto].
  - simpl. split; [exact Hpg |]. split; [exists moreg; exact Hag |].
    split; [discriminate | exact Hng].
Qed.

(** *** Loops over the processes *)

Lemma for_each_quiet act ps : ∀ s,
  interrupt s = None →
  for_each act ps s = (Ret tt, set_acts (acts s ++ (act <$> ps)) s).
Proof.
  induction ps as [| i rest IH]; intros s Hs; simpl.
  - rewrite app_nil_r. destruct s; reflexivity.
  - erewrite bind_Ret_sup by (apply call_quiet, Hs).
    rewrite IH by exact Hs. destruct s; simpl. rewrite <- app_assoc. reflexivity.
Qed.

Lemma for_each_Ret act ps : ∀ s s',
  for_each act ps s = (Ret tt, s') →
  acts s' = acts s ++ (act <$> ps) ∧ processes s' = processes s.
Proof.
  induction ps as [| i rest IH]; intros s s' Hrun; simpl in Hrun.
  - injection Hrun as <-. rewrite app_nil_r. auto.
  - apply bind_Ret_inv in Hrun as ([] & s1 & Hcall & Hrest).
    apply call_Ret in Hcall as (Ha & Hp & _). apply IH in Hrest as [Ha' Hp'].
    rewrite Ha', Ha, Hp', Hp, <- app_assoc. auto.
Qed.

(** The [Start] calls of a spawn loop that finds [base] processes already
    in the list. *)
Lemma start_all_Ret meeting_code passcode stay_seconds work_seconds stagger logfile
    names : ∀ i s s',
  start_all i names meeting_code passcode stay_seconds work_seconds stagger logfile s
  = (Ret tt, s') →
  processes s' = processes s
                 ++ launch_args meeting_code passcode stay_seconds work_seconds
                                stagger logfile i names
  ∧ acts s' = acts s
              ++ imap (λ k a, Start (length (processes s) + k) a)
                      (launch_args meeting_code passcode stay_seconds work_seconds
                                   stagger logfile i names).
Proof.
  induction names as [| name rest IH]; intros i s s' Hrun; simpl in Hrun.
  - injection Hrun as <-. simpl. rewrite !app_nil_r. auto.
  - apply bind_Ret_inv in Hrun as ([] & s1 & Hstart & Hrest).
    unfold start in Hstart.
    apply bind_Ret_inv in Hstart as (n & s0 & Hn & Hstart). injection Hn as <- <-.
    apply bind_Ret_inv in Hstart as ([] & s2 & Hcall & Hmod).
    apply call_Ret in Hcall as (Ha & Hp & _). injection Hmod as <-.
    apply IH in Hrest as [Hp' Ha']. simpl in Hp', Ha'.
    rewrite Hp', Ha', Ha, Hp, length_app. simpl.
    rewrite <- !app_assoc. simpl. split; [reflexivity |].
    rewrite Nat.add_0_r. do 2 f_equal. apply imap_ext. intros k a _. simpl.
    f_equal. lia.
Qed.

Lemma start_spared args s n :
  spared (interrupt s) (S n) →
  ∃ s', start args s = (Ret tt, s') ∧ spared (interrupt s') n.
Proof.
  intros Hs.
  destruct (call_spared (Start (length (processes s)) args) s n Hs)
    as (s1 & Hcall & Hs1).
  exists (set_processes (processes s1 ++ [args]) s1). split; [| exact Hs1].
  unfold start. erewrite bind_Ret_sup by reflexivity.
  erewrite bind_Ret_sup by exact Hcall. reflexivity.
Qed.

Lemma start_all_spared meeting_code passcode stay_seconds work_seconds stagger logfile
    names : ∀ i s,
  spared (interrupt s) (length names) →
  ∃ s', start_all i names meeting_code passcode stay_seconds work_seconds stagger
                  logfile s = (Ret tt, s').
Proof.
  induction names as [| name rest IH]; intros i s Hs; simpl.
  - exists s. reflexivity.
  - destruct (start_spared (Spawn name meeting_code passcode stay_seconds
                                  work_seconds logfile (inject_Z i * stagger))
                s (length rest) Hs) as (s1 & Hstart & Hs1).
    erewrite bind_Ret_sup by exact Hstart. apply IH, Hs1.
Qed.

Lemma launch_args_length meeting_code passcode stay_seconds work_seconds stagger
    logfile names : ∀ i,
  length (launch_args meeting_code passcode stay_seconds work_seconds stagger
                      logfile i names) = length names.
Proof. induction names as [| n rest IH]; intros i; simpl; [| rewrite IH]; reflexivity. Qed.

Lemma launch_args_lookup meeting_code passcode stay_seconds work_seconds stagger
    logfile names : ∀ i k a,
  launch_args meeting_code passcode stay_seconds work_seconds stagger logfile i names
  !! k = Some a →
  ∃ name,
    names !! k = Some name
    ∧ a = Spawn name meeting_code passcode stay_seconds work_seconds logfile
                (inject_Z (i + Z.of_nat k) * stagger).
Proof.
  induction names as [| n rest IH]; intros i k a Hk; [discriminate |].
  destruct k as [| k]; simpl in Hk.
  - injection Hk as <-. exists n. rewrite Z.add_0_r. auto.
  - destruct (IH (i + 1) k a Hk) as (name & Hname & ->).
    exists name. split; [exact Hname |]. do 3 f_equal. lia.
Qed.

(** *** The spawn phase *)

Lemma spawn_phase_Ret number_of_users meeting_code passcode stay_seconds
    work_seconds stagger logfile s s1 :
  spawn_phase number_of_users meeting_code passcode stay_seconds work_seconds
              stagger logfile s = (Ret tt, s1) →
  let launched :=
    launch_args meeting_code passcode stay_seconds work_seconds stagger logfile 0
                (generate_names number_of_users (s_rand s)).1 in
  processes s1 = launched
  ∧ acts s1 = acts s ++ [Print (start_line (s_utc s 0%nat) number_of_users)]
              ++ imap Start launched.
Proof.
  intros Hrun launched. unfold spawn_phase in Hrun.
  apply bind_Ret_inv in Hrun as ([] & s01 & [= <-] & Hrun).
  apply bind_Ret_inv in Hrun as (names & s02 & [= <- <-] & Hrun).
  apply bind_Ret_inv in Hrun as (now & s03 & [= <- <-] & Hrun).
  apply bind_Ret_inv in Hrun as ([] & s04 & Hcall & Hrun).
  apply call_Ret in Hcall as (Ha & Hp & _).
  apply start_all_Ret in Hrun as [Hp' Ha'].
  rewrite Hp in Hp', Ha'. simpl in Hp', Ha'.
  split; [exact Hp' |]. rewrite Ha', Ha. simpl. rewrite <- app_assoc. reflexivity.
Qed.

Lemma spawn_phase_spared number_of_users meeting_code passcode stay_seconds
    work_seconds stagger logfile s :
  spared (interrupt s) (S (Z.to_nat number_of_users)) →
  ∃ s1, spawn_phase number_of_users meeting_code passcode stay_seconds work_seconds
                    stagger logfile s = (Ret tt, s1).
Proof.
  intros Hs. unfold spawn_phase.
  do 3 (erewrite bind_Ret_sup by reflexivity).
  lazymatch goal with |- ∃ _, (call ?a ≫= _) ?s0 = _ =>
    destruct (call_spared a s0 (Z.to_nat number_of_users) Hs) as (s1 & Hcall & Hs1)
  end.
  erewrite bind_Ret_sup by exact Hcall.
  apply start_all_spared. rewrite generate_names_length. exact Hs1.
Qed.

(** What follows the spawn phase leaves the list of processes alone. *)
Lemma tame_rest rounds logfile :
  tame (try_except_KeyboardInterrupt_finally
          (monitor rounds)
          (call (Print "KeyboardInterrupt received: terminating children");;
           ps ← gets indices; for_each Terminate ps)
          (ps ← gets indices; for_each Join ps);;
        now ← s_utcnow;
        call (Print (complete_line now logfile))).
Proof.
  apply tame_bind.
  - apply tame_try.
    + apply tame_monitor.
    + apply tame_bind; [apply tame_call |]. intros _.
      apply tame_bind; [apply tame_gets | intros; apply tame_for_each].
    + apply tame_bind; [apply tame_gets | intros; apply tame_for_each].
  - intros _. apply tame_bind; [apply tame_utcnow | intros; apply tame_call].
Qed.

(** *** Launching *)

(** C8. In every run that no interrupt cuts short before its monitoring
    loop, the supervisor prints its opening line and then starts its N
    workers one after the other with nothing in between, no sleep in
    particular; the worker started at 0-based index i is given the start
    delay i * stagger, which is zero for the first; and the delay is served
    inside the worker, whose first act after recording itself is to sleep
    for it when it is positive. *)
Theorem workers_start_together_with_staggered_delays number_of_users meeting_code
    passcode stay_seconds work_seconds stagger logfile rounds s :
  spared (interrupt s) (S (Z.to_nat number_of_users)) →
  let names := (generate_names number_of_users (s_rand s)).1 in
  let launched :=
    launch_args meeting_code passcode stay_seconds work_seconds stagger logfile 0
                names in
  let s' := (run_simulation number_of_users meeting_code passcode stay_seconds
                            work_seconds stagger logfile rounds s).2 in
  processes s' = launched
  ∧ length launched = Z.to_nat number_of_users
  ∧ (∃ later, acts s' = acts s ++ [Print (start_line (s_utc s 0%nat) number_of_users)]
                        ++ imap Start launched ++ later)
  ∧ ∀ i a, launched !! i = Some a →
      names !! i = Some (sp_name a)
      ∧ sp_stagger a = (inject_Z (Z.of_nat i) * stagger)%Q
      ∧ (i = 0%nat →
         (sp_stagger a == 0)%Q
         ∧ (if Qlt_le_dec 0 (sp_stagger a) then [EvSleep (sp_stagger a)] else [])
           = [])
      ∧ ∀ w,
          deadline_seen (sp_work_seconds a) (ticks w) →
          sleeps_accepted (sp_stay_seconds a) (sp_work_seconds a) (sp_stagger a) w →
          returns
            (worker (sp_name a) (sp_meeting_code a) (sp_passcode a)
                    (sp_stay_seconds a) (sp_work_seconds a) ManagerProxy
                    (sp_log_path a) (sp_stagger a)) w
            (λ _ w', ∃ rest,
               trace w' = trace w
                          ++ (if Qlt_le_dec 0 (sp_stagger a)
                              then [EvSleep (sp_stagger a)] else [])
                          ++ rest).
Proof.
  intros Hs names launched s'.
  destruct (spawn_phase_spared number_of_users meeting_code passcode stay_seconds
              work_seconds stagger logfile s Hs) as (s1 & Hspawn).
  destruct (spawn_phase_Ret _ _ _ _ _ _ _ _ _ Hspawn) as [Hp Ha].
  assert (Hrest : processes s' = processes s1 ∧ ∃ more, acts s' = acts s1 ++ more).
  { subst s'. rewrite run_simulation_phases.
    erewrite bind_Ret_sup by exact Hspawn.
    destruct (tame_rest rounds logfile s1) as (Hp' & Ha' & _). auto. }
  destruct Hrest as [Hp' [more Ha']].
  split; [rewrite Hp'; exact Hp |].
  split; [unfold launched, names;
          rewrite launch_args_length; apply generate_names_length |].
  split; [exists more; rewrite Ha', Ha, <- !app_assoc; reflexivity |].
  intros i a Hi.
  destruct (launch_args_lookup _ _ _ _ _ _ _ _ _ _ Hi) as (name & Hname & ->).
  simpl. split; [exact Hname |]. split; [reflexivity |].
  split.
  { intros ->. simpl. split; [apply Qmult_0_l |].
    destruct (Qlt_le_dec 0 (0 * stagger)) as [Hpos | _]; [| reflexivity].
    rewrite Qmult_0_l in Hpos. destruct (Qlt_irrefl 0 Hpos). }
  intros w Hreach Hsleeps.
  destruct (worker_run ManagerProxy name meeting_code passcode stay_seconds
              work_seconds logfile (inject_Z (0 + Z.of_nat i) * stagger) w Hreach
              Hsleeps)
    as (new & _ & u & w' & Hrun & snaps & _ & _ & Htrace & _).
  exists u, w'. split; [exact Hrun |].
  eexists. rewrite Htrace. unfold sleeps. rewrite <- !app_assoc. reflexivity.
Qed.

Lemma workers_start_together_with_staggered_delays_witness :
  spared (interrupt (sample_supervisor None)) (S (Z.to_nat 2))
  ∧ let names := (generate_names 2 (s_rand (sample_supervisor None))).1 in
    let launched :=
      launch_args "SIM-MEET-123" "" 10 2 (1 # 2) (Some "simulator.log"%string) 0 names in
    let s' := (run_simulation 2 "SIM-MEET-123" "" 10 2 (1 # 2)
                              (Some "simulator.log"%string)
                              [sample_round true; sample_round false]
                              (sample_supervisor None)).2 in
    processes s' = launched
    ∧ length launched = Z.to_nat 2
    ∧ (∃ later, acts s' = acts (sample_supervisor None)
                          ++ [Print (start_line (s_utc (sample_supervisor None) 0%nat) 2)]
                          ++ imap Start launched ++ later)
    ∧ ∀ i a, launched !! i = Some a →
        names !! i = Some (sp_name a)
        ∧ sp_stagger a = (inject_Z (Z.of_nat i) * (1 # 2))%Q
        ∧ (i = 0%nat →
           (sp_stagger a == 0)%Q
           ∧ (if Qlt_le_dec 0 (sp_stagger a) then [EvSleep (sp_stagger a)] else [])
             = [])
        ∧ ∀ w,
            deadline_seen (sp_work_seconds a) (ticks w) →
            sleeps_accepted (sp_stay_seconds a) (sp_work_seconds a) (sp_stagger a)
                            w →
            returns
              (worker (sp_name a) (sp_meeting_code a) (sp_passcode a)
                      (sp_stay_seconds a) (sp_work_seconds a) ManagerProxy
                      (sp_log_path a) (sp_stagger a)) w
              (λ _ w', ∃ rest,
                 trace w' = trace w
                            ++ (if Qlt_le_dec 0 (sp_stagger a)
                                then [EvSleep (sp_stagger a)] else [])
                            ++ rest).
Proof.
  split; [exact I |].
  apply (workers_start_together_with_staggered_delays 2 "SIM-MEET-123" "" 10 2 (1 # 2)
           (Some "simulator.log"%string) [sample_round true; sample_round false]
           (sample_supervisor None)).
  exact I.
Defined.

(** The run of that example, call by call. *)
Example sample_run_uninterrupted :
  let r := run_simulation 2 "SIM-MEET-123" "" 10 2 (1 # 2) (Some "simulator.log"%string)
                          [sample_round true; sample_round false]
                          (sample_supervisor None) in
  r.1 = Ret tt
  ∧ acts r.2
    = [Print "[2024-03-07T09:05:00Z] Starting simulation: 2 participants";
       Start 0 (Spawn "Arjun Sharma #1" "SIM-MEET-123" "" 10 2
                      (Some "simulator.log"%string) (0 # 2));
       Start 1 (Spawn "Ishaan Singh #2" "SIM-MEET-123" "" 10 2
                      (Some "simulator.log"%string) (1 # 2));
       IsAlive 0; IsAlive 0; IsAlive 1;
       Print "[2024-03-07T09:05:01Z] Alive workers: 2"; Items;
       Print "  Arjun Sharma #1: connecting"; Sleep 5;
       IsAlive 0; IsAlive 1; Join 0; Join 1;
       Print "[2024-03-07T09:05:02Z] Simulation complete. Logs -> simulator.log"].
Proof. vm_compute. split; reflexivity. Qed.

(** *** Interrupts *)

(** C7. An interrupt that arrives while the supervisor is in its monitoring
    loop is caught: the supervisor announces it, sends [terminate] to every
    worker it has started, joins every one of them, and only then prints
    the run-complete line and returns. And whatever the run, interrupted or
    not, whenever it prints the run-complete line it has joined every worker
    just before. *)
Theorem interrupt_in_loop_terminates_then_joins number_of_users meeting_code
    passcode stay_seconds work_seconds stagger logfile rounds s s1 s2 :
  spawn_phase number_of_users meeting_code passcode stay_seconds work_seconds
              stagger logfile s = (Ret tt, s1) →
  monitor rounds s1 = (Raise KeyboardInterrupt, s2) →
  let launched (g : nat → Z) :=
    launch_args meeting_code passcode stay_seconds work_seconds stagger logfile 0
                (generate_names number_of_users g).1 in
  let everyone (g : nat → Z) := seq 0 (length (launched g)) in
  (∃ watched s',
     acts s2 = acts s ++ [Print (start_line (s_utc s 0%nat) number_of_users)]
               ++ imap Start (launched (s_rand s)) ++ watched
     ∧ run_simulation number_of_users meeting_code passcode stay_seconds
                      work_seconds stagger logfile rounds s = (Ret tt, s')
     ∧ acts s' = acts s2
                 ++ [Print "KeyboardInterrupt received: terminating children"]
                 ++ (Terminate <$> everyone (s_rand s))
                 ++ (Join <$> everyone (s_rand s))
                 ++ [Print (complete_line (s_utc s2 0%nat) logfile)])
  ∧ ∀ rounds0 s0,
      match run_simulation number_of_users meeting_code passcode stay_seconds
                           work_seconds stagger logfile rounds0 s0 with
      | (Ret tt, s') =>
          ∃ middle now,
            acts s' = acts s0
                      ++ [Print (start_line (s_utc s0 0%nat) number_of_users)]
                      ++ imap Start (launched (s_rand s0)) ++ middle
                      ++ (Join <$> everyone (s_rand s0))
                      ++ [Print (complete_line now logfile)]
      | _ => True
      end.
Proof.
  intros Hspawn Hmon launched everyone. split.
  - destruct (spawn_phase_Ret _ _ _ _ _ _ _ _ _ Hspawn) as [Hp Ha].
    destruct (tame_monitor rounds s1) as (Hp2 & [watched Ha2] & Hi2 & _).
    rewrite Hmon in Hp2, Ha2, Hi2. simpl in Hp2, Ha2, Hi2.
    specialize (Hi2 eq_refl).
    assert (Hidx : indices s2 = everyone (s_rand s))
      by (unfold indices, everyone, launched; rewrite Hp2, Hp; reflexivity).
    exists watched. eexists. split; [rewrite Ha2, Ha, <- !app_assoc; reflexivity |].
    rewrite run_simulation_phases.
    erewrite bind_Ret_sup by exact Hspawn.
    destruct s2 as [u2 g2 i2 ps2 a2]. cbn in Hi2, Hidx. subst i2.
    erewrite bind_Ret_sup.
    2:{ unfold try_except_KeyboardInterrupt_finally. rewrite Hmon.
        erewrite bind_Ret_sup by (apply call_quiet; reflexivity).
        erewrite bind_Ret_sup by reflexivity.
        rewrite for_each_quiet by reflexivity.
        erewrite bind_Ret_sup by reflexivity.
        rewrite for_each_quiet by reflexivity. reflexivity. }
    erewrite bind_Ret_sup by reflexivity.
    rewrite call_quiet by reflexivity.
    split; [reflexivity |].
    cbn. rewrite Hidx, <- !app_assoc. reflexivity.
  - intros rounds0 s0.
    destruct (run_simulation _ _ _ _ _ _ _ rounds0 s0) as [[[] | e |] s'] eqn:Hrun;
      [| exact I | exact I].
    rewrite run_simulation_phases in Hrun.
    apply bind_Ret_inv in Hrun as ([] & t1 & Hsp & Hrun).
    apply bind_Ret_inv in Hrun as ([] & t4 & Htry & Hrun).
    apply bind_Ret_inv in Hrun as (now & t5 & [= <- <-] & Hcall).
    apply call_Ret in Hcall as (Ha5 & _).
    destruct (spawn_phase_Ret _ _ _ _ _ _ _ _ _ Hsp) as [Hp1 Ha1].
    unfold try_except_KeyboardInterrupt_finally in Htry.
    set (guarded := match monitor rounds0 t1 with
                    | (Raise KeyboardInterrupt, s') => _
                    | r => r
                    end) in Htry.
    assert (Hg : processes guarded.2 = processes t1
                 ∧ ∃ middle, acts guarded.2 = acts t1 ++ middle).
    { subst guarded.
      destruct (tame_monitor rounds0 t1) as (Hpm & [m1 Ham] & _).
      destruct (monitor rounds0 t1) as [[[] | [] |] tm]; simpl in *; eauto.
      match goal with |- context [mbind ?k ?m tm] =>
        assert (Hh : tame (m ≫= k))
          by (apply tame_bind; [apply tame_call |]; intros _;
              apply tame_bind; [apply tame_gets | intros; apply tame_for_each])
      end.
      destruct (Hh tm) as (Hph & [m2 Hah] & _).
      split; [congruence |]. exists (m1 ++ m2).
      rewrite Hah, Ham, app_assoc. reflexivity. }
    destruct Hg as [Hpg [middle Hag]].
    destruct guarded as [[[] | e |] tg]; simpl in *; [| | discriminate].
    + apply bind_Ret_inv in Htry as (ps & tg' & [= <- <-] & Hjoin).
      apply for_each_Ret in Hjoin as [Ha4 _].
      exists middle, (s_utc t4 0%nat).
      simpl in Ha5. rewrite Ha5, Ha4, Hag, Ha1.
      unfold indices, everyone, launched. rewrite Hpg, Hp1, <- !app_assoc.
      reflexivity.
    + destruct ((gets indices ≫= λ ps, for_each Join ps) tg) as [[[] | e' |] tc];
        discriminate.
Qed.

Lemma interrupt_in_loop_terminates_then_joins_witness :
  let s := sample_supervisor (Some 5%nat) in
  let rounds := [sample_round true; sample_round false] in
  let s1 := (spawn_phase 2 "SIM-MEET-123" "" 10 2 (1 # 2)
                         (Some "simulator.log"%string) s).2 in
  let s2 := (monitor rounds s1).2 in
  spawn_phase 2 "SIM-MEET-123" "" 10 2 (1 # 2) (Some "simulator.log"%string) s
  = (Ret tt, s1)
  ∧ monitor rounds s1 = (Raise KeyboardInterrupt, s2)
  ∧ ∃ s',
      run_simulation 2 "SIM-MEET-123" "" 10 2 (1 # 2) (Some "simulator.log"%string)
                     rounds s = (Ret tt, s')
      ∧ acts s' = acts s2
                  ++ [Print "KeyboardInterrupt received: terminating children"]
                  ++ [Terminate 0; Terminate 1] ++ [Join 0; Join 1]
                  ++ [Print (complete_line (s_utc s2 0%nat)
                                           (Some "simulator.log"%string))].
Proof.
  intros s rounds s1 s2.
  assert (Hspawn : spawn_phase 2 "SIM-MEET-123" "" 10 2 (1 # 2)
                               (Some "simulator.log"%string) s = (Ret tt, s1))
    by reflexivity.
  assert (Hmon : monitor rounds s1 = (Raise KeyboardInterrupt, s2)) by reflexivity.
  split; [exact Hspawn |]. split; [exact Hmon |].
  destruct (interrupt_in_loop_terminates_then_joins 2 "SIM-MEET-123" "" 10 2 (1 # 2)
              (Some "simulator.log"%string) rounds s s1 s2 Hspawn Hmon)
    as [(watched & s' & _ & Hrun & Hacts) _].
  exists s'. split; [exact Hrun | exact Hacts].
Defined.

(** Outside the monitoring loop the property fails: an interrupt that
    arrives while the workers are being started is not caught. In this run of two workers it
    arrives when the second is about to be started; the first has been
    started and is neither terminated nor joined. *)
Lemma interrupt_while_starting_reaps_nobody :
  let r := run_simulation 2 "SIM-MEET-123" "" 10 2 (1 # 2) (Some "simulator.log"%string)
                          [sample_round true; sample_round false]
                          (sample_supervisor (Some 2%nat)) in
  r.1 = Raise KeyboardInterrupt ∧ ¬ every_started_worker_reaped r.2.
Proof.
  split; [reflexivity |]. intros Hreaped.
  destruct (Hreaped 0%nat
              (Spawn "Arjun Sharma #1" "SIM-MEET-123" "" 10 2
                     (Some "simulator.log"%string) (0 # 2))) as [Hterm _].
  - vm_compute. apply list_elem_of_In. right. left. reflexivity.
  - apply list_elem_of_In in Hterm. vm_compute in Hterm.
    destruct Hterm as [H | [H | []]]; discriminate H.
Qed.

End Supervising.

(** ** The controller *)

Section Controlling.
Import Controller.

Lemma os_kill_run pid sig c :
  os_kill pid sig c
  = (match kill_verdict c 0%nat with
     | Some msg => Raise (OSError msg)
     | None => Ret tt
     end,
     Controller (proc_pid c) (sent c ++ [(pid, sig)]) (launched c) (screen c)
                (advance (kill_verdict c)) (open_error c) (next_pid c)).
Proof. unfold os_kill. destruct (kill_verdict c 0%nat); reflexivity. Qed.

(** The probe returns; only the record of signals sent and the stream of
    verdicts can differ afterwards. *)
Lemma is_pid_running_run (pid : option Z) (c : controller) :
  ∃ b c',
    is_pid_running pid c = (Ret b, c')
    ∧ proc_pid c' = proc_pid c
    ∧ launched c' = launched c
    ∧ screen c' = screen c
    ∧ next_pid c' = next_pid c
    ∧ if falsy pid
      then b = false ∧ c' = c
      else b = (if kill_verdict c 0%nat is Some _ then false else true)
           ∧ sent c' = sent c ++ [(default 0 pid, 0)].
Proof.
  unfold is_pid_running. destruct (falsy pid).
  - exists false, c. repeat split; reflexivity.
  - rewrite os_kill_run. destruct (kill_verdict c 0%nat) as [msg |]; simpl.
    + eexists false, _. repeat split; reflexivity.
    + eexists true, _. repeat split; reflexivity.
Qed.

(** C10. [is_pid_running] always returns a boolean and never raises. For a
    pid that is [None] or 0 it returns [False] and sends no signal; for any
    other pid it sends signal 0 to it, once, and returns [True] when that
    succeeds and [False] when it raises [OSError]. *)
Theorem is_pid_running_never_raises (pid : option Z) (c : controller) :
  is_pid_running None c = (Ret false, c)
  ∧ is_pid_running (Some 0) c = (Ret false, c)
  ∧ ∃ b c',
      is_pid_running pid c = (Ret b, c')
      ∧ if falsy pid
        then b = false ∧ c' = c
        else b = (if kill_verdict c 0%nat is Some _ then false else true)
             ∧ sent c' = sent c ++ [(default 0 pid, 0)]
             ∧ proc_pid c' = proc_pid c
             ∧ launched c' = launched c
             ∧ screen c' = screen c.
Proof.
  split; [reflexivity |]. split; [reflexivity |].
  destruct (is_pid_running_run pid c)
    as (b & c' & Hrun & Hpid & Hlaunched & Hscreen & _ & Hrest).
  exists b, c'. split; [exact Hrun |].
  destruct (falsy pid); [exact Hrest |].
  destruct Hrest as [Hb Hsent]. auto.
Qed.

(** C9. When the start action finds the tracked pid alive, it shows the
    warning and does nothing else: no simulator is launched and the tracked
    pid is the one it was. *)
Theorem start_is_rejected_while_running (cfg : config) (c : controller) :
  (is_pid_running (proc_pid c) c).1 = Ret true →
  ∃ c',
    start_simulation cfg c = (Ret tt, c')
    ∧ proc_pid c' = proc_pid c
    ∧ launched c' = launched c
    ∧ next_pid c' = next_pid c
    ∧ screen c' = screen c
                  ++ [Warning ("Simulation already running (pid="
                               +:+ pid_str (proc_pid c) +:+ ")")].
Proof.
  intros Halive. unfold start_simulation.
  destruct (is_pid_running_run (proc_pid c) c)
    as (b & c' & Hrun & Hpid & Hlaunched & Hscreen & Hnext & _).
  rewrite Hrun in Halive. injection Halive as ->.
  unfold mbind, M_bind, bind. cbn [gets]. rewrite Hrun. cbn [gets show modify].
  eexists. split; [reflexivity |]. cbn.
  rewrite Hpid, Hlaunched, Hscreen, Hnext. auto.
Qed.

Lemma start_is_rejected_while_running_witness :
  let c := Controller (Some 77) [] [] [] (λ _, None) None 500 in
  let cfg := Config 20 "SIM-MEET-123" 120 20 (1 # 2) "simulator.log" in
  (is_pid_running (proc_pid c) c).1 = Ret true
  ∧ ∃ c',
      start_simulation cfg c = (Ret tt, c')
      ∧ proc_pid c' = Some 77
      ∧ launched c' = []
      ∧ next_pid c' = 500
      ∧ screen c' = [Warning "Simulation already running (pid=77)"].
Proof.
  intros c cfg. split; [reflexivity |].
  apply (start_is_rejected_while_running cfg c). reflexivity.
Defined.

(** When the probe fails the same action does launch a simulator and tracks
    its pid. *)
Example start_launches_when_not_running :
  let c := Controller (Some 77) [] [] [] (λ _, Some "[Errno 3] No such process"%string)
                      None 500 in
  let cfg := Config 20 "SIM-MEET-123" 120 20 (1 # 2) "simulator.log" in
  let r := start_simulation cfg c in
  r.1 = Ret tt ∧ proc_pid r.2 = Some 500 ∧ launched r.2 = [cfg]
  ∧ screen r.2 = [Success "Started simulation (pid=500)"].
Proof. vm_compute. repeat split; reflexivity. Qed.

End Controlling.

(** * Further properties of the two scripts *)

Section BusyLoopMore.
Import Simulator.

Lemma iter_advance {A} (f : nat → A) n k : Nat.iter n advance f k = f (n + k)%nat.
Proof.
  revert f k. induction n as [| n IH]; intros f k; [reflexivity |].
  rewrite Nat.iter_succ_r, IH. reflexivity.
Qed.

Lemma probes_S rand n : probes rand (S n) = probe (rand 0%nat) :: probes (advance rand) n.
Proof.
  unfold probes. cbn [seq fmap list_fmap]. f_equal.
  rewrite <- seq_shift, <- list_fmap_compose. reflexivity.
Qed.

Lemma work_loop_exact end_ later : ∀ count w,
  Exists (λ t, (end_ <= t)%Q) later →
  let n := length (before end_ later) in
  work_loop end_ later count w
  = (Ret (count + Z.of_nat n),
     set_tested (tested w ++ probes (rand w) n)
       (set_rand (Nat.iter n advance (rand w)) (set_ticks (drop (S n) later) w)))
  ∧ Forall (λ t, (t < end_)%Q) (take n later)
  ∧ ∃ t, later !! n = Some t ∧ (end_ <= t)%Q.
Proof.
  induction later as [| now later IH]; intros count w Hreach; [inversion Hreach |].
  cbn [work_loop before]. destruct (Qlt_le_dec now end_) as [Hlt | Hle].
  - assert (Hlater : Exists (λ t, (end_ <= t)%Q) later).
    { apply Exists_cons in Hreach as [Hnow | ?]; [| assumption].
      exfalso. exact (Qlt_not_le _ _ Hlt Hnow). }
    rewrite prime_check_run.
    match goal with |- context [work_loop _ _ _ ?w1] =>
      destruct (IH (count + 1) w1 Hlater) as (Hrun & Hearly & Hlate)
    end.
    cbn [length]. split; [| split].
    + rewrite Hrun, probes_S, Nat.iter_succ_r. destruct w. cbn.
      rewrite <- app_assoc. do 2 f_equal. lia.
    + cbn [take]. constructor; assumption.
    + exact Hlate.
  - cbn [length]. split; [| split].
    + destruct w. cbn. rewrite app_nil_r. do 2 f_equal. lia.
    + constructor.
    + exists now. split; [reflexivity | exact Hle].
Qed.

Lemma cpu_work_for_exact seconds now later r :
  Exists (λ t, (now + seconds <= t)%Q) later →
  ∀ w, ticks w = now :: later → rand w = r →
    cpu_work_for seconds w
    = (Ret (Z.of_nat (length (before (now + seconds) later))),
       set_tested (tested w ++ probes r (length (before (now + seconds) later)))
         (set_rand (Nat.iter (length (before (now + seconds) later)) advance r)
            (set_ticks (drop (S (length (before (now + seconds) later))) later) w))).
Proof.
  intros Hreach w Hticks <-.
  destruct (work_loop_exact _ later 0 (set_ticks later w) Hreach) as (Hrun & _).
  unfold cpu_work_for. rewrite Hticks, Hrun. destruct w. reflexivity.
Qed.

(** X1. The busy loop ends at the first clock reading at or past its deadline:
    the count it returns is the number of readings before that one, it has
    drawn one random number and tested one candidate for each of them, and
    it has touched nothing but the clock, the generator and its own
    tally. *)
Theorem cpu_work_for_stops_at_first_late_reading seconds w now later :
  ticks w = now :: later →
  Exists (λ t, (now + seconds <= t)%Q) later →
  let n := length (before (now + seconds) later) in
  cpu_work_for seconds w
  = (Ret (Z.of_nat n),
     set_tested (tested w ++ probes (rand w) n)
       (set_rand (Nat.iter n advance (rand w)) (set_ticks (drop (S n) later) w)))
  ∧ (∀ k, Nat.iter n advance (rand w) k = rand w (n + k)%nat)
  ∧ Forall (λ t, (t < now + seconds)%Q) (take n later)
  ∧ ∃ t, later !! n = Some t ∧ (now + seconds <= t)%Q.
Proof.
  intros Hticks Hreach n.
  destruct (work_loop_exact _ later 0 (set_ticks later w) Hreach)
    as (Hrun & Hearly & Hlate).
  split; [| split; [intros k; apply iter_advance | split; assumption]].
  unfold cpu_work_for. rewrite Hticks, Hrun. destruct w. reflexivity.
Qed.

Lemma cpu_work_for_stops_at_first_late_reading_witness :
  ticks sample_world = 100%Q :: [100.5; 101; 102; 103]%Q
  ∧ Exists (λ t, (100 + 2 <= t)%Q) [100.5; 101; 102; 103]%Q
  ∧ cpu_work_for 2 sample_world
    = (Ret 2,
       set_tested (probes (rand sample_world) 2)
         (set_rand (Nat.iter 2 advance (rand sample_world))
            (set_ticks [103%Q] sample_world))).
Proof.
  split; [reflexivity |]. split; [exact sample_clock_reaches_deadline |].
  exact (proj1 (cpu_work_for_stops_at_first_late_reading 2 sample_world 100%Q
                  [100.5; 101; 102; 103]%Q eq_refl sample_clock_reaches_deadline)).
Defined.

(** X2. Asked for no time at all, or for a negative time, under a clock that
    does not run backwards, the busy loop does nothing: it returns 0 after
    two clock readings, with no number drawn or tested. *)
Theorem cpu_work_for_no_time_no_work seconds w now t rest :
  ticks w = now :: t :: rest →
  (seconds <= 0)%Q →
  (now <= t)%Q →
  cpu_work_for seconds w = (Ret 0, set_ticks rest w).
Proof.
  intros Hticks Hzero Hmono.
  unfold cpu_work_for. rewrite Hticks. cbn [work_loop].
  destruct (Qlt_le_dec t (now + seconds)) as [Hlt | _].
  - exfalso. apply (Qlt_not_le _ _ Hlt).
    apply Qle_trans with now; [| exact Hmono].
    rewrite <- (Qplus_0_r now) at 2. apply Qplus_le_r. exact Hzero.
  - destruct w. reflexivity.
Qed.

Lemma cpu_work_for_no_time_no_work_witness :
  ticks sample_world = 100%Q :: 100.5%Q :: [101; 102; 103]%Q
  ∧ (0 <= 0)%Q
  ∧ (100 <= 100.5)%Q
  ∧ cpu_work_for 0 sample_world = (Ret 0, set_ticks [101; 102; 103]%Q sample_world).
Proof.
  assert (H0 : (0 <= 0)%Q) by (unfold Qle; simpl; lia).
  assert (H1 : (100 <= 100.5)%Q) by (unfold Qle; simpl; lia).
  split; [reflexivity |]. split; [exact H0 |]. split; [exact H1 |].
  exact (cpu_work_for_no_time_no_work 0 sample_world 100%Q 100.5%Q
           [101; 102; 103]%Q eq_refl H0 H1).
Defined.

(** X3. The busy loop returns exactly when the clock shows it its deadline, and
    it never raises: with every reading short of the deadline it is still
    looping when the readings end. *)
Theorem cpu_work_for_returns_iff_deadline_seen seconds w :
  ((∃ count w', cpu_work_for seconds w = (Ret count, w'))
   ↔ deadline_seen seconds (ticks w))
  ∧ (hangs (cpu_work_for seconds) w ↔ ¬ deadline_seen seconds (ticks w))
  ∧ ∀ e, (cpu_work_for seconds w).1 ≠ Raise e.
Proof.
  destruct (deadline_seen_dec seconds (ticks w)) as [Hseen | Hnever].
  - destruct (cpu_work_for_run seconds (ticks w) (rand w) Hseen)
      as (new & ts & g & _ & Hrun).
    specialize (Hrun w eq_refl eq_refl).
    split; [| split].
    + split; [intros _; exact Hseen | intros _; eauto].
    + split; [| intros Hn; destruct (Hn Hseen)].
      intros [w' Hhang]. rewrite Hrun in Hhang. discriminate.
    + intros e. rewrite Hrun. discriminate.
  - destruct (cpu_work_for_hangs seconds w Hnever) as [w' Hhang].
    split; [| split].
    + split; [| intros Hs; destruct (Hnever Hs)].
      intros (count & w'' & Hrun). rewrite Hrun in Hhang. discriminate.
    + split; [intros _; exact Hnever | intros _; exists w'; exact Hhang].
    + intros e. rewrite Hhang. discriminate.
Qed.

End BusyLoopMore.

Section NamesMore.
Import Simulator.

Lemma names_loop_by_draws n : ∀ a names rand,
  (names_loop (Z.of_nat <$> seq a n) names rand).1
  = names ++ ((λ k, display_name (Py.choice first (rand (2 * k)%nat))
                                 (Py.choice last (rand (2 * k + 1)%nat))
                                 (Z.of_nat (a + k))) <$> seq 0 n)
  ∧ ∀ j, (names_loop (Z.of_nat <$> seq a n) names rand).2 j = rand (2 * n + j)%nat.
Proof.
  induction n as [| n IH]; intros a names rand.
  - simpl. rewrite app_nil_r. auto.
  - cbn [seq fmap list_fmap names_loop].
    destruct (IH (S a) (names ++ [Py.choice first (rand 0%nat) +:+ " "
                                  +:+ Py.choice last (rand 1%nat) +:+ " #"
                                  +:+ Py.str_of_int (Z.of_nat a + 1)])
                 (advance (advance rand))) as [Hnames Hrand].
    split.
    + rewrite Hnames, <- app_assoc. f_equal.
      change (seq 1 n) with (seq (1 + 0) n). rewrite <- fmap_add_seq.
      rewrite <- list_fmap_compose. cbn [app fmap list_fmap]. f_equal.
      * unfold display_name. rewrite Nat.add_0_r. reflexivity.
      * apply list_fmap_ext. intros _ k _. unfold advance. cbn [compose].
        replace (2 * (1 + k))%nat with (S (S (2 * k))) by lia.
        replace (2 * (1 + k) + 1)%nat with (S (S (2 * k + 1))) by lia.
        replace (S a + k)%nat with (a + (1 + k))%nat by lia. reflexivity.
    + intros j. rewrite Hrand. unfold advance. f_equal. lia.
Qed.

(** X4. [generate_names] picks the parts of the name at position k on draws 2k
    and 2k+1 of the generator, first name before last name, and leaves the
    generator 2N draws further on. *)
Theorem generate_names_by_draws (N : Z) (rand : nat → Z) :
  (generate_names N rand).1 = name_at rand <$> seq 0 (Z.to_nat N)
  ∧ ∀ j, (generate_names N rand).2 j = rand (2 * Z.to_nat N + j)%nat.
Proof.
  unfold generate_names. rewrite range_indices.
  destruct (names_loop_by_draws (Z.to_nat N) 0 [] rand) as [Hnames Hrand].
  split; [| exact Hrand]. rewrite Hnames. reflexivity.
Qed.

(** A count of zero or less gives no names and leaves the generator
    untouched. *)
Lemma generate_names_nonpositive_count (N : Z) (rand : nat → Z) :
  N <= 0 → generate_names N rand = ([], rand).
Proof.
  intros HN. unfold generate_names. rewrite range_indices.
  replace (Z.to_nat N) with 0%nat by lia. reflexivity.
Qed.

End NamesMore.

Section WorkerMore.
Import Simulator.

Ltac norm :=
  cbv beta iota
      delta [pid utc ticks rand io_error sleep_refusal heap plain manager fs trace
             tested past
             set_utc set_ticks set_rand set_io_error set_heap set_plain
             set_manager set_fs set_trace set_tested set_past snapshot
             dict_get_method default from_option].

Ltac keep_entry :=
  lazymatch goal with
  | |- returns _ (World _ _ _ _ _ _ (?h ++ [dict_set ?d ?key ?v]) _ _ _ _ _ ?pa) _ =>
      let d' := eval cbn [dict_set String.eqb Ascii.eqb Bool.eqb andb] in
                 (dict_set d key v) in
      change (dict_set d key v) with d';
      let pa' := fresh "pa" in
      set (pa' := pa); clearbody pa'
  end.

Ltac step_whole Hcpu :=
  lazymatch goal with
  | |- returns (?m ≫= _) _ _ =>
      lazymatch m with
      | assign PlainDict _ _ _ =>
          eapply returns_bind;
          [apply assign_plain; norm; [reflexivity | apply lookup_insert_eq] |];
          norm; keep_entry
      | getitem PlainDict _ =>
          eapply returns_bind;
          [apply getitem_plain; norm; apply lookup_insert_eq |]; norm
      | dict_get_of _ _ =>
          eapply returns_bind; [apply dict_get_of_snoc; norm; reflexivity |]; norm
      | cpu_work_for _ =>
          eapply returns_bind; [apply Hcpu; reflexivity |]; norm
      | sleep _ =>
          eapply returns_bind;
          [apply sleep_run; [eassumption | eassumption | norm; eassumption] |];
          norm
      | _ => eapply returns_bind; [reflexivity |]; norm
      end
  end.

(** X5. On a dict that keeps the assignments, the worker leaves a complete
    entry for its participant: the state "left", its pid, the count of the
    busy loop (the number of clock readings the loop found before its
    deadline, one candidate tested for each) and five timestamps, which are
    the five readings it has taken of the UTC clock, in the order started,
    connected, work started, work finished, left. *)
Theorem worker_plain_dict_leaves_complete_entry name meeting_code passcode
    stay_seconds work_seconds log_path stagger w now later :
  ticks w = now :: later →
  Exists (λ t, (now + work_seconds <= t)%Q) later →
  sleeps_accepted stay_seconds work_seconds stagger w →
  let count := length (before (now + work_seconds) later) in
  returns
    (worker name meeting_code passcode stay_seconds work_seconds PlainDict
            log_path stagger) w
    (λ _ w',
       plain w' !! name = Some (length (heap w))
       ∧ heap w' !! length (heap w) = Some (left_entry w (Z.of_nat count))
       ∧ tested w' = tested w ++ probes (rand w) count
       ∧ ∀ k, utc w' k = utc w (5 + k)%nat).
Proof.
  intros Hticks Hreach [Hstagger [Hns Hos]] count.
  pose proof (cpu_work_for_exact work_seconds now later (rand w) Hreach) as Hcpu.
  fold count in Hcpu.
  pose proof (remaining_nonneg stay_seconds work_seconds) as Hidle.
  destruct w as [p u tk r io sr h pl m f tr te pa].
  unfold sleep_accepted in Hstagger. cbn in Hticks, Hcpu, Hstagger, Hos. subst tk.
  clearbody count.
  unfold worker, left_entry. norm.
  lazymatch goal with |- returns _ _ ?post => set (Q := post) end.
  do 3 step_whole Hcpu.
  eapply returns_bind; [apply setitem_plain |]. norm.
  lazymatch goal with
  | |- returns _ (World _ _ _ _ _ _ _ _ _ _ _ _ ?pa) _ =>
      let pa' := fresh "pa" in set (pa' := pa); clearbody pa'
  end.
  destruct (Qlt_le_dec 0 stagger) as [Hpos | _];
    [destruct (Hstagger Hpos) as [Hns' Hos'];
     pose proof (Qlt_le_weak _ _ Hpos) as Hpos' |];
    repeat step_whole Hcpu;
    (destruct (truthy log_path) as [path |];
     [repeat step_whole Hcpu; destruct io as [msg |] |]);
    (eapply returns_now;
     [unfold try_except_Exception, append_text, print, modify; norm; reflexivity |]);
    subst Q; norm;
    (split; [apply lookup_insert_eq |]);
    (split; [apply lookup_snoc |]); split; reflexivity.
Qed.

Lemma worker_plain_dict_leaves_complete_entry_witness :
  ticks sample_world = 100%Q :: [100.5; 101; 102; 103]%Q
  ∧ Exists (λ t, (100 + 2 <= t)%Q) [100.5; 101; 102; 103]%Q
  ∧ sleeps_accepted 10 2 0 sample_world
  ∧ returns
      (worker "Aarav Sharma #1" "SIM-MEET-123" "" 10 2 PlainDict
              (Some "simulator.log"%string) 0) sample_world
      (λ _ w',
         plain w' !! "Aarav Sharma #1"%string = Some 0%nat
         ∧ heap w' !! 0%nat = Some (left_entry sample_world 2)
         ∧ tested w' = probes (rand sample_world) 2
         ∧ ∀ k, utc w' k = utc sample_world (5 + k)%nat).
Proof.
  split; [reflexivity |]. split; [exact sample_clock_reaches_deadline |].
  split; [exact sample_sleeps_accepted |].
  exact (worker_plain_dict_leaves_complete_entry "Aarav Sharma #1" "SIM-MEET-123" ""
           10 2 (Some "simulator.log"%string) 0 sample_world 100%Q
           [100.5; 101; 102; 103]%Q eq_refl sample_clock_reaches_deadline
           sample_sleeps_accepted).
Defined.

(** X6. On a dict that keeps the assignments, the table shows for the
    participant, after the worker's ten assignments in turn, connecting,
    connected (twice), working (four times), idle and left (twice): the
    five states of the lifecycle in their order, none skipped and none
    revisited. *)
Theorem worker_on_dict_walks_the_lifecycle name meeting_code passcode stay_seconds
    work_seconds log_path stagger w :
  deadline_seen work_seconds (ticks w) →
  sleeps_accepted stay_seconds work_seconds stagger w →
  returns
    (worker name meeting_code passcode stay_seconds work_seconds PlainDict
            log_path stagger) w
    (λ _ w', ∃ snaps,
       past w' = past w ++ snaps
       ∧ omap (state_of PlainDict name) snaps
         = [SStr "connecting"; SStr "connected"; SStr "connected";
            SStr "working"; SStr "working"; SStr "working"; SStr "working";
            SStr "idle"; SStr "left"; SStr "left"]
       ∧ recorded_states PlainDict name snaps = lifecycle
       ∧ plain w' !! name = Some (length (heap w))).
Proof.
  intros Hreach Hsleeps.
  destruct (worker_on_plain_dict name meeting_code passcode stay_seconds
              work_seconds log_path stagger w Hreach Hsleeps)
    as (new & _ & a & w' & Hrun & snaps & Hplain & Hpast & Hshown & _).
  exists a, w'. split; [exact Hrun |]. exists snaps.
  split; [exact Hpast |]. split; [exact Hshown |].
  split; [unfold recorded_states; rewrite Hshown; reflexivity |].
  rewrite Hplain. apply lookup_insert_eq.
Qed.

Lemma worker_on_dict_walks_the_lifecycle_witness :
  deadline_seen 2 (ticks sample_world)
  ∧ sleeps_accepted 10 2 0 sample_world
  ∧ returns
      (worker "Aarav Sharma #1" "SIM-MEET-123" "" 10 2 PlainDict
              (Some "simulator.log"%string) 0) sample_world
      (λ _ w', ∃ snaps,
         past w' = past sample_world ++ snaps
         ∧ recorded_states PlainDict "Aarav Sharma #1" snaps = lifecycle).
Proof.
  split; [exact sample_clock_reaches_deadline |].
  split; [exact sample_sleeps_accepted |].
  destruct (worker_on_dict_walks_the_lifecycle "Aarav Sharma #1" "SIM-MEET-123" ""
              10 2 (Some "simulator.log"%string) 0 sample_world
              sample_clock_reaches_deadline sample_sleeps_accepted)
    as (a & w' & Hrun & snaps & Hpast & _ & Hrec & _).
  exists a, w'. split; [exact Hrun |]. exists snaps. auto.
Defined.

(** X7. Run against the manager's proxy, the worker leaves in the shared table
    the entry it stored at its start and nothing more: three fields, no
    timestamp but [started_at], no [work_done]; the entries of the other
    participants are as they were; the record it logs has a null [left_at];
    and the line the monitoring loop prints for the participant says
    "connecting" even after the worker has returned. *)
Theorem worker_proxy_entry_stays_as_stored name meeting_code passcode stay_seconds
    work_seconds log_path stagger w :
  deadline_seen work_seconds (ticks w) →
  sleeps_accepted stay_seconds work_seconds stagger w →
  ∃ jobs_done : Z,
    returns
      (worker name meeting_code passcode stay_seconds work_seconds ManagerProxy
              log_path stagger) w
      (λ _ w',
         let stored := [("state", SStr "connecting"); ("pid", SInt (pid w));
                        ("started_at", stamp (utc w 0%nat))] in
         manager w' !! name = Some stored
         ∧ (∀ other, other ≠ name → manager w' !! other = manager w !! other)
         ∧ fs w' = logged log_path (io_error w)
                     (log_line [("name", SStr name);
                                ("meeting_code", SStr meeting_code);
                                ("started_at", stamp (utc w 0%nat));
                                ("left_at", SNone);
                                ("work_done", SInt jobs_done)])
                     (fs w)
         ∧ ∀ s, interrupt s = None →
             print_sample [(name, stored)] s
             = (Ret tt,
                set_acts (acts s ++ [Print ("  " +:+ name +:+ ": connecting")]) s)).
Proof.
  intros Hreach Hsleeps.
  destruct (worker_through_proxy name meeting_code passcode stay_seconds
              work_seconds log_path stagger w Hreach Hsleeps)
    as (new & _ & a & w' & Hrun & snaps & Hman & _ & _ & _ & Hfs & _).
  exists (Z.of_nat (length new)), a, w'. split; [exact Hrun |].
  cbn zeta. rewrite Hman. split; [apply lookup_insert_eq |].
  split; [intros other Hne; apply lookup_insert_ne; congruence |].
  split; [exact Hfs |].
  intros s Hs. cbn [print_sample dict_get String.eqb Ascii.eqb Bool.eqb andb].
  erewrite bind_Ret_sup by (apply call_quiet, Hs).
  destruct s; reflexivity.
Qed.

Lemma worker_proxy_entry_stays_as_stored_witness :
  deadline_seen 2 (ticks sample_world)
  ∧ sleeps_accepted 10 2 0 sample_world
  ∧ ∃ jobs_done : Z,
      returns
        (worker "Aarav Sharma #1" "SIM-MEET-123" "" 10 2 ManagerProxy
                (Some "simulator.log"%string) 0) sample_world
        (λ _ w',
           manager w' !! "Aarav Sharma #1"%string
           = Some [("state"%string, SStr "connecting"); ("pid"%string, SInt 4242);
                   ("started_at"%string, SStr "2024-03-07T09:05:00.001234Z")]).
Proof.
  split; [exact sample_clock_reaches_deadline |].
  split; [exact sample_sleeps_accepted |].
  destruct (worker_proxy_entry_stays_as_stored "Aarav Sharma #1" "SIM-MEET-123" ""
              10 2 (Some "simulator.log"%string) 0 sample_world
              sample_clock_reaches_deadline sample_sleeps_accepted)
    as (jobs_done & a & w' & Hrun & Hentry & _).
  exists jobs_done, a, w'. split; [exact Hrun | exact Hentry].
Defined.

End WorkerMore.

Section SupervisingMore.
Import Simulator.

(** *** The scans of the monitoring loop, uninterrupted *)

Lemma any_alive_quiet alive ps : ∀ s,
  interrupt s = None →
  any_alive alive ps s
  = (Ret (existsb alive ps), set_acts (acts s ++ (IsAlive <$> polled alive ps)) s).
Proof.
  induction ps as [| i rest IH]; intros s Hs; cbn [any_alive existsb polled].
  - rewrite app_nil_r. destruct s; reflexivity.
  - unfold is_alive.
    erewrite bind_Ret_sup;
      [| erewrite bind_Ret_sup by (apply call_quiet, Hs); reflexivity].
    destruct (alive i); cbn [orb].
    + destruct s; reflexivity.
    + rewrite IH by exact Hs. destruct s; cbn. rewrite <- app_assoc. reflexivity.
Qed.

Lemma count_alive_quiet alive ps : ∀ s,
  interrupt s = None →
  count_alive alive ps s
  = (Ret (Z.of_nat (length (filter (λ i, alive i = true) ps))),
     set_acts (acts s ++ (IsAlive <$> ps)) s).
Proof.
  induction ps as [| i rest IH]; intros s Hs; cbn [count_alive].
  - rewrite app_nil_r. destruct s; reflexivity.
  - unfold is_alive.
    erewrite bind_Ret_sup;
      [| erewrite bind_Ret_sup by (apply call_quiet, Hs); reflexivity].
    erewrite bind_Ret_sup by (apply IH; exact Hs).
    rewrite filter_cons.
    assert (Hcount : (if alive i then 1 else 0)
                     + Z.of_nat (length (filter (λ i, alive i = true) rest))
                     = Z.of_nat (length (if decide (alive i = true)
                                         then i :: filter (λ i, alive i = true) rest
                                         else filter (λ i, alive i = true) rest))).
    { destruct (alive i).
      - rewrite decide_True by reflexivity. cbn [length]. lia.
      - rewrite decide_False by discriminate. reflexivity. }
    rewrite <- Hcount. destruct s; cbn [mret M_ret ret set_acts acts processes
      s_utc s_rand interrupt fmap list_fmap].
    rewrite <- app_assoc. reflexivity.
Qed.

Lemma print_sample_quiet sample : ∀ s,
  interrupt s = None →
  Forall (λ item, is_Some (dict_get item.2 "state")) sample →
  print_sample sample s
  = (Ret tt, set_acts (acts s ++ (Print <$> (sample_line <$> sample))) s).
Proof.
  induction sample as [| [k v] rest IH]; intros s Hs Hstate; cbn [print_sample].
  - rewrite app_nil_r. destruct s; reflexivity.
  - apply Forall_cons in Hstate as [[st Hst] Hrest]. cbn in Hst. rewrite Hst.
    erewrite bind_Ret_sup by (apply call_quiet, Hs).
    rewrite IH by assumption. destruct s; cbn.
    rewrite <- app_assoc. unfold sample_line, dict_get_method. cbn.
    rewrite Hst. reflexivity.
Qed.

(** X8. A turn of the monitoring loop that finds a worker alive, with no
    interrupt pending: the [any] scan asks the processes up to the first
    live one, the [sum] scan asks them all, and the loop prints the number
    the second scan found alive, reads the status table, prints a line for
    each of its first five items at most, sleeps five seconds and goes on
    to the next turn. *)
Theorem monitor_turn_with_live_worker r later s :
  interrupt s = None →
  existsb (alive_any r) (indices s) = true →
  Forall (λ item, is_Some (dict_get item.2 "state")) (take 5 (items r)) →
  monitor (r :: later) s
  = monitor later
      (set_acts (acts s ++ round_acts r (indices s) (s_utc s 0%nat))
                (set_s_utc (advance (s_utc s)) s))
  ∧ (length (take 5 (items r)) <= 5)%nat
  ∧ 0 <= Z.of_nat (length (filter (λ i, alive_sum r i = true) (indices s)))
      <= Z.of_nat (length (processes s)).
Proof.
  intros Hs Halive Hstate. split; [| split].
  - cbn [monitor]. unfold gets.
    erewrite bind_Ret_sup by reflexivity.
    erewrite bind_Ret_sup by (apply any_alive_quiet, Hs).
    rewrite Halive.
    erewrite bind_Ret_sup by (apply count_alive_quiet; destruct s; exact Hs).
    erewrite bind_Ret_sup by reflexivity.
    erewrite bind_Ret_sup by (apply call_quiet; destruct s; exact Hs).
    erewrite bind_Ret_sup by (apply call_quiet; destruct s; exact Hs).
    erewrite bind_Ret_sup
      by (apply print_sample_quiet; [destruct s; exact Hs | exact Hstate]).
    erewrite bind_Ret_sup by (apply call_quiet; destruct s; exact Hs).
    f_equal. unfold round_acts, indices. destruct s; cbn.
    rewrite <- !app_assoc. reflexivity.
  - rewrite length_take. lia.
  - split; [lia |]. apply inj_le.
    etransitivity; [apply length_filter |].
    unfold indices. rewrite length_seq. reflexivity.
Qed.

Lemma monitor_turn_with_live_worker_witness :
  let s := Supervisor (λ n, Datetime 2024 3 7 9 5 (Z.of_nat n) 0) (λ _, 0) None
             [Spawn "Arjun Sharma #1" "SIM-MEET-123" "" 10 2 None 0] [] in
  interrupt s = None
  ∧ existsb (alive_any (sample_round true)) (indices s) = true
  ∧ Forall (λ item : string * dict, is_Some (dict_get item.2 "state"))
           (take 5 (items (sample_round true)))
  ∧ monitor [sample_round true; sample_round false] s
    = monitor [sample_round false]
        (set_acts (acts s ++ round_acts (sample_round true) (indices s) (s_utc s 0%nat))
                  (set_s_utc (advance (s_utc s)) s)).
Proof.
  intros s.
  assert (Hstate : Forall (λ item : string * dict, is_Some (dict_get item.2 "state"))
                          (take 5 (items (sample_round true))))
    by (repeat constructor; eexists; reflexivity).
  split; [reflexivity |]. split; [reflexivity |]. split; [exact Hstate |].
  exact (proj1 (monitor_turn_with_live_worker (sample_round true) [sample_round false]
                  s eq_refl eq_refl Hstate)).
Defined.

Lemma polled_all alive ps : existsb alive ps = false → polled alive ps = ps.
Proof.
  induction ps as [| i rest IH]; [reflexivity |].
  cbn [existsb polled]. intros Hdead.
  apply orb_false_iff in Hdead as [-> Hrest]. rewrite (IH Hrest). reflexivity.
Qed.

(** X9. The monitoring loop ends on the first turn whose [any] scan finds no
    worker alive: it has asked every process once, and it prints nothing,
    reads no table and does not sleep, whatever turns would follow. *)
Theorem monitor_ends_when_nobody_alive r later s :
  interrupt s = None →
  existsb (alive_any r) (indices s) = false →
  monitor (r :: later) s
  = (Ret tt, set_acts (acts s ++ (IsAlive <$> indices s)) s).
Proof.
  intros Hs Hdead. cbn [monitor]. unfold gets.
  erewrite bind_Ret_sup by reflexivity.
  erewrite bind_Ret_sup by (apply any_alive_quiet, Hs).
  rewrite Hdead, (polled_all _ _ Hdead). reflexivity.
Qed.

Lemma monitor_ends_when_nobody_alive_witness :
  let s := Supervisor (λ n, Datetime 2024 3 7 9 5 (Z.of_nat n) 0) (λ _, 0) None
             [Spawn "Arjun Sharma #1" "SIM-MEET-123" "" 10 2 None 0;
              Spawn "Kabir Nair #2" "SIM-MEET-123" "" 10 2 None (1 # 2)] [] in
  interrupt s = None
  ∧ existsb (alive_any (sample_round false)) (indices s) = false
  ∧ monitor [sample_round false; sample_round true] s
    = (Ret tt, set_acts [IsAlive 0; IsAlive 1] s).
Proof.
  intros s. split; [reflexivity |]. split; [reflexivity |].
  exact (monitor_ends_when_nobody_alive (sample_round false) [sample_round true] s
           eq_refl eq_refl).
Defined.

(** *** What an uninterrupted run never does *)

Lemma calm_ret allowed {A} (a : A) : calm allowed (mret a).
Proof.
  intros s Hs. split; [exact Hs |]. split; [discriminate |].
  exists []. split; [symmetry; apply app_nil_r | constructor].
Qed.

Lemma calm_bind allowed {A B} (m : M supervisor A) (k : A → M supervisor B) :
  calm allowed m → (∀ a, calm allowed (k a)) → calm allowed (m ≫= k).
Proof.
  intros Hm Hk s Hs. destruct (Hm s Hs) as (Hi & Hr & more & Ha & Hall).
  unfold mbind, M_bind, bind. destruct (m s) as [[a | e |] s1]; cbn in *.
  - destruct (Hk a s1 Hi) as (Hi' & Hr' & more' & Ha' & Hall').
    split; [exact Hi' |]. split; [exact Hr' |].
    exists (more ++ more'). split; [rewrite Ha', Ha, app_assoc; reflexivity |].
    apply Forall_app; auto.
  - split; [exact Hi |]. split; [intros [= ->]; apply Hr; reflexivity |]. eauto.
  - split; [exact Hi |]. split; [discriminate |]. eauto.
Qed.

Lemma calm_call (allowed : action → Prop) a : allowed a → calm allowed (call a).
Proof.
  intros Hok s Hs. rewrite call_quiet by exact Hs. cbn.
  split; [exact Hs |]. split; [discriminate |].
  exists [a]. split; [reflexivity | repeat constructor; exact Hok].
Qed.

Lemma calm_silent allowed {A} (m : M supervisor A) :
  (∀ s, ∃ a s', m s = (Ret a, s') ∧ interrupt s' = interrupt s ∧ acts s' = acts s) →
  calm allowed m.
Proof.
  intros Hm s Hs. destruct (Hm s) as (a & s' & -> & Hi & Ha). cbn.
  split; [congruence |]. split; [discriminate |].
  exists []. split; [rewrite app_nil_r; exact Ha | constructor].
Qed.

Lemma calm_is_alive allowed alive i :
  (∀ j, allowed (IsAlive j)) → calm allowed (is_alive alive i).
Proof.
  intros Hok. apply calm_bind; [apply calm_call, Hok | intros; apply calm_ret].
Qed.

Lemma calm_any_alive allowed alive ps :
  (∀ j, allowed (IsAlive j)) → calm allowed (any_alive alive ps).
Proof.
  intros Hok. induction ps as [| i rest IH]; cbn [any_alive]; [apply calm_ret |].
  apply calm_bind; [apply calm_is_alive, Hok |].
  intros []; [apply calm_ret | exact IH].
Qed.

Lemma calm_count_alive allowed alive ps :
  (∀ j, allowed (IsAlive j)) → calm allowed (count_alive alive ps).
Proof.
  intros Hok. induction ps as [| i rest IH]; cbn [count_alive]; [apply calm_ret |].
  apply calm_bind; [apply calm_is_alive, Hok | intros b].
  apply calm_bind; [exact IH | intros; apply calm_ret].
Qed.

Lemma calm_print_sample allowed sample :
  (∀ line, allowed (Print line)) → calm allowed (print_sample sample).
Proof.
  intros Hok. induction sample as [| [k v] rest IH]; cbn [print_sample];
    [apply calm_ret |].
  destruct (dict_get v "state").
  - apply calm_bind; [apply calm_call, Hok | intros; exact IH].
  - intros s Hs. cbn. split; [exact Hs |]. split; [discriminate |].
    exists []. split; [symmetry; apply app_nil_r | constructor].
Qed.

Lemma calm_for_each (allowed : action → Prop) act ps :
  (∀ i, allowed (act i)) → calm allowed (for_each act ps).
Proof.
  intros Hok. induction ps as [| i rest IH]; cbn [for_each]; [apply calm_ret |].
  apply calm_bind; [apply calm_call, Hok | intros; exact IH].
Qed.

Lemma calm_monitor allowed rounds :
  (∀ a, spares_workers a → allowed a) → calm allowed (monitor rounds).
Proof.
  intros Hok. induction rounds as [| r later IH]; cbn [monitor].
  - intros s Hs. cbn. split; [exact Hs |]. split; [discriminate |].
    exists []. split; [symmetry; apply app_nil_r | constructor].
  - apply calm_bind; [apply calm_silent; intros s; eexists _, _; eauto |].
    intros ps. apply calm_bind; [apply calm_any_alive; intros; apply Hok; exact I |].
    intros []; [| apply calm_ret].
    apply calm_bind; [apply calm_count_alive; intros; apply Hok; exact I |]. intros n.
    apply calm_bind; [apply calm_silent; intros s; eexists _, _; eauto |]. intros now.
    apply calm_bind; [apply calm_call, Hok; exact I |]. intros _.
    apply calm_bind; [apply calm_call, Hok; exact I |]. intros _.
    apply calm_bind; [apply calm_print_sample; intros; apply Hok; exact I |]. intros _.
    apply calm_bind; [apply calm_call, Hok; exact I |]. intros _. exact IH.
Qed.

Lemma calm_start_all allowed names : ∀ i meeting_code passcode stay_seconds
    work_seconds stagger logfile,
  (∀ a, spares_workers a → allowed a) →
  calm allowed (start_all i names meeting_code passcode stay_seconds work_seconds
                          stagger logfile).
Proof.
  induction names as [| name rest IH]; intros i mc pc st wk sg lf Hok;
    cbn [start_all]; [apply calm_ret |].
  apply calm_bind; [| intros; apply IH, Hok].
  unfold start.
  apply calm_bind; [apply calm_silent; intros s; eexists _, _; eauto |]. intros n.
  apply calm_bind; [apply calm_call, Hok; exact I |]. intros _.
  apply calm_silent. intros s. eexists _, _. destruct s. eauto.
Qed.

Lemma calm_try allowed body handler cleanup :
  calm allowed body → calm allowed cleanup →
  calm allowed (try_except_KeyboardInterrupt_finally body handler cleanup).
Proof.
  intros Hb Hc s Hs. destruct (Hb s Hs) as (Hi & Hr & more & Ha & Hall).
  unfold try_except_KeyboardInterrupt_finally.
  assert (Hguard : match body s with
                   | (Raise KeyboardInterrupt, s') => handler s'
                   | r => r
                   end = body s).
  { destruct (body s) as [[[] | e |] s1]; try reflexivity.
    destruct e; try reflexivity. destruct Hr. reflexivity. }
  rewrite Hguard.
  destruct (body s) as [[[] | e |] s1]; cbn in *.
  - destruct (Hc s1 Hi) as (Hi' & Hr' & more' & Ha' & Hall').
    split; [exact Hi' |]. split; [exact Hr' |].
    exists (more ++ more'). split; [rewrite Ha', Ha, app_assoc; reflexivity |].
    apply Forall_app; auto.
  - destruct (Hc s1 Hi) as (Hi' & Hr' & more' & Ha' & Hall').
    assert (Hacts : ∃ more0, acts (cleanup s1).2 = acts s ++ more0
                             ∧ Forall allowed more0).
    { exists (more ++ more').
      split; [rewrite Ha', Ha, app_assoc; reflexivity | apply Forall_app; auto]. }
    destruct (cleanup s1) as [[[] | e' |] s2]; cbn in *.
    + split; [exact Hi' |]. split; [intros [= ->]; apply Hr; reflexivity |].
      exact Hacts.
    + split; [exact Hi' |]. split; [exact Hr' |]. exact Hacts.
    + split; [exact Hi' |]. split; [discriminate |]. exact Hacts.
  - split; [exact Hi |]. split; [discriminate |]. eauto.
Qed.

Lemma calm_run_simulation number_of_users meeting_code passcode stay_seconds
    work_seconds stagger logfile rounds :
  calm spares_workers
       (run_simulation number_of_users meeting_code passcode stay_seconds
                       work_seconds stagger logfile rounds).
Proof.
  unfold run_simulation.
  apply calm_bind; [apply calm_silent; intros s; eexists _, _; destruct s; eauto |].
  intros _.
  apply calm_bind; [apply calm_silent; intros s; eexists _, _; destruct s; eauto |].
  intros names.
  apply calm_bind; [apply calm_silent; intros s; eexists _, _; destruct s; eauto |].
  intros now.
  apply calm_bind; [apply calm_call; exact I |]. intros _.
  apply calm_bind; [apply calm_start_all; auto |]. intros _.
  apply calm_bind.
  - apply calm_try; [apply calm_monitor; auto |].
    apply calm_bind; [apply calm_silent; intros s; eexists _, _; eauto |].
    intros ps. apply calm_for_each. intros; exact I.
  - intros _.
    apply calm_bind; [apply calm_silent; intros s; eexists _, _; destruct s; eauto |].
    intros now'. apply calm_call. exact I.
Qed.

(** X10. A run that no interrupt reaches never terminates a worker, however it
    ends: among the calls it makes there is no [terminate], and it does not
    raise [KeyboardInterrupt]. *)
Theorem uninterrupted_run_terminates_nobody number_of_users meeting_code passcode
    stay_seconds work_seconds stagger logfile rounds s :
  interrupt s = None →
  let r := run_simulation number_of_users meeting_code passcode stay_seconds
                          work_seconds stagger logfile rounds s in
  r.1 ≠ Raise KeyboardInterrupt
  ∧ ∃ more, acts r.2 = acts s ++ more ∧ ∀ i, Terminate i ∉ more.
Proof.
  intros Hs r.
  destruct (calm_run_simulation number_of_users meeting_code passcode stay_seconds
              work_seconds stagger logfile rounds s Hs)
    as (_ & Hr & more & Ha & Hall).
  split; [exact Hr |]. exists more. split; [exact Ha |].
  intros i Hin. rewrite Forall_forall in Hall. exact (Hall _ Hin).
Qed.

Lemma uninterrupted_run_terminates_nobody_witness :
  interrupt (sample_supervisor None) = None
  ∧ let r := run_simulation 2 "SIM-MEET-123" "" 10 2 (1 # 2)
                            (Some "simulator.log"%string)
                            [sample_round true; sample_round false]
                            (sample_supervisor None) in
    r.1 ≠ Raise KeyboardInterrupt
    ∧ ∃ more, acts r.2 = acts (sample_supervisor None) ++ more
              ∧ ∀ i, Terminate i ∉ more.
Proof.
  split; [reflexivity |].
  apply (uninterrupted_run_terminates_nobody 2 "SIM-MEET-123" "" 10 2 (1 # 2)
           (Some "simulator.log"%string) [sample_round true; sample_round false]
           (sample_supervisor None)).
  reflexivity.
Defined.

(** X11. With no participants asked for (a count of zero or less) the run starts
    no process, finds nobody alive on its first scan, and prints its opening
    and its closing line and nothing else. *)
Theorem run_without_participants number_of_users meeting_code passcode stay_seconds
    work_seconds stagger logfile r later s :
  number_of_users <= 0 →
  interrupt s = None →
  run_simulation number_of_users meeting_code passcode stay_seconds work_seconds
                 stagger logfile (r :: later) s
  = (Ret tt,
     Supervisor (advance (advance (s_utc s))) (s_rand s) None []
                (acts s ++ [Print (start_line (s_utc s 0%nat) number_of_users);
                            Print (complete_line (s_utc s 1%nat) logfile)])).
Proof.
  intros HN Hs. destruct s as [u g i ps done]. cbn in Hs. subst i.
  unfold run_simulation.
  erewrite bind_Ret_sup by reflexivity.
  erewrite bind_Ret_sup
    by (unfold s_generate_names; cbn [s_rand set_processes];
        rewrite (generate_names_nonpositive_count number_of_users g HN);
        reflexivity).
  do 5 (erewrite bind_Ret_sup by reflexivity).
  rewrite call_quiet by reflexivity.
  unfold start_line, complete_line.
  cbn [set_acts acts s_utc s_rand interrupt processes set_s_utc set_processes
       set_s_rand].
  rewrite <- !app_assoc. reflexivity.
Qed.

Lemma run_without_participants_witness :
  0 <= 0
  ∧ interrupt (sample_supervisor None) = None
  ∧ run_simulation 0 "SIM-MEET-123" "" 10 2 (1 # 2) None
                   [sample_round true] (sample_supervisor None)
    = (Ret tt,
       Supervisor (advance (advance (s_utc (sample_supervisor None))))
                  (s_rand (sample_supervisor None)) None []
                  [Print "[2024-03-07T09:05:00Z] Starting simulation: 0 participants";
                   Print "[2024-03-07T09:05:01Z] Simulation complete. Logs -> stdout"]).
Proof.
  split; [lia |]. split; [reflexivity |].
  exact (run_without_participants 0 "SIM-MEET-123" "" 10 2 (1 # 2) None
           (sample_round true) [] (sample_supervisor None) ltac:(lia) eq_refl).
Defined.

End SupervisingMore.

Section ControllingMore.
Import Controller.

Lemma is_pid_running_alive (c : controller) :
  (is_pid_running (proc_pid c) c).1 = Ret true →
  ∃ p,
    proc_pid c = Some p ∧ p ≠ 0 ∧ kill_verdict c 0%nat = None
    ∧ is_pid_running (proc_pid c) c
      = (Ret true,
         Controller (proc_pid c) (sent c ++ [(p, 0)]) (launched c) (screen c)
                    (advance (kill_verdict c)) (open_error c) (next_pid c)).
Proof.
  destruct c as [[p |] snt lnc scr kv oe np]; unfold is_pid_running;
    cbn [proc_pid falsy]; [| discriminate].
  destruct (Z.eqb_spec p 0) as [-> | Hp]; [discriminate |].
  rewrite os_kill_run. cbn.
  destruct (kv 0%nat) as [msg |]; [discriminate |].
  intros _. exists p. split; [reflexivity |]. split; [exact Hp |].
  split; reflexivity.
Qed.

Lemma stop_run (c : controller) :
  (is_pid_running (proc_pid c) c).1 = Ret true →
  ∃ p c',
    proc_pid c = Some p ∧ p ≠ 0
    ∧ sent c' = sent c ++ [(p, 0); (p, SIGTERM)]
    ∧ launched c' = launched c
    ∧ match kill_verdict c 1%nat with
      | None =>
          stop_simulation c = (Ret tt, c')
          ∧ proc_pid c' = None
          ∧ screen c' = screen c ++ [Success "Stopped simulation"]
      | Some msg =>
          stop_simulation c = (Raise (OSError msg), c')
          ∧ proc_pid c' = proc_pid c
          ∧ screen c' = screen c
      end.
Proof.
  intros Halive.
  destruct (is_pid_running_alive c Halive) as (p & Hpid & Hp & Hprobe & Hrun).
  exists p. unfold stop_simulation.
  erewrite bind_Ret by reflexivity. erewrite bind_Ret by exact Hrun.
  rewrite Hpid. cbn [default from_option].
  unfold mbind, M_bind, bind. rewrite os_kill_run.
  cbn [kill_verdict advance sent launched screen proc_pid].
  exists (Controller (if kill_verdict c 1%nat is Some _ then proc_pid c else None)
            (sent c ++ [(p, 0); (p, SIGTERM)]) (launched c)
            (if kill_verdict c 1%nat is Some _ then screen c
             else screen c ++ [Success "Stopped simulation"])
            (advance (advance (kill_verdict c))) (open_error c) (next_pid c)).
  split; [reflexivity |]. split; [exact Hp |].
  split; [reflexivity |]. split; [reflexivity |].
  change (advance (kill_verdict c) 0%nat) with (kill_verdict c 1%nat).
  destruct (kill_verdict c 1%nat) as [msg |]; cbn; rewrite <- app_assoc;
    rewrite ?Hpid; auto.
Qed.

(** X12. The stop action on a simulation the probe finds alive: it sends
    [SIGTERM] to the tracked pid right after the probe and to no other
    process. When the signal is delivered it forgets the pid and reports
    the stop, without waiting for the process or probing it again; when the
    signal raises [OSError] (the process has gone since the probe) the
    error propagates, the pid stays tracked and nothing is shown. *)
Theorem stop_signals_the_tracked_pid (c : controller) :
  (is_pid_running (proc_pid c) c).1 = Ret true →
  ∃ p c',
    proc_pid c = Some p ∧ p ≠ 0
    ∧ sent c' = sent c ++ [(p, 0); (p, SIGTERM)]
    ∧ launched c' = launched c
    ∧ match kill_verdict c 1%nat with
      | None =>
          stop_simulation c = (Ret tt, c')
          ∧ proc_pid c' = None
          ∧ screen c' = screen c ++ [Success "Stopped simulation"]
      | Some msg =>
          stop_simulation c = (Raise (OSError msg), c')
          ∧ proc_pid c' = proc_pid c
          ∧ screen c' = screen c
      end.
Proof. exact (stop_run c). Qed.

Lemma stop_signals_the_tracked_pid_witness :
  let c := Controller (Some 77) [] [] [] (λ _, None) None 500 in
  (is_pid_running (proc_pid c) c).1 = Ret true
  ∧ ∃ c',
      stop_simulation c = (Ret tt, c')
      ∧ proc_pid c' = None
      ∧ sent c' = [(77, 0); (77, SIGTERM)]
      ∧ screen c' = [Success "Stopped simulation"].
Proof.
  intros c. split; [reflexivity |].
  destruct (stop_signals_the_tracked_pid c eq_refl)
    as (p & c' & Htracked & _ & Hsent & _ & Hrun & Hpid & Hscreen).
  exists c'. split; [exact Hrun |]. split; [exact Hpid |].
  split; [| exact Hscreen].
  injection Htracked as <-. exact Hsent.
Defined.

(** X13. The stop action when the probe finds no simulation (no pid tracked, or
    a tracked pid that no longer answers): it shows the warning and sends
    no [SIGTERM]; the tracked pid, stale or not, is left as it was. *)
Theorem stop_without_running_simulation (c : controller) :
  (is_pid_running (proc_pid c) c).1 = Ret false →
  ∃ c',
    stop_simulation c = (Ret tt, c')
    ∧ proc_pid c' = proc_pid c
    ∧ launched c' = launched c
    ∧ screen c' = screen c ++ [Warning "No running simulation detected"]
    ∧ ∃ probes, sent c' = sent c ++ probes ∧ ∀ q, (q, SIGTERM) ∉ probes.
Proof.
  intros Hdead. unfold stop_simulation.
  destruct (is_pid_running_run (proc_pid c) c)
    as (b & c' & Hrun & Hpid & Hlaunched & Hscreen & _ & Hrest).
  rewrite Hrun in Hdead. injection Hdead as ->.
  unfold mbind, M_bind, bind. cbn [gets]. rewrite Hrun. cbn [show modify].
  eexists. split; [reflexivity |]. cbn.
  rewrite Hpid, Hlaunched, Hscreen. repeat split.
  destruct (falsy (proc_pid c)).
  - destruct Hrest as [_ ->]. exists []. split; [symmetry; apply app_nil_r |].
    intros q Hin. inversion Hin.
  - destruct Hrest as [_ ->]. eexists. split; [reflexivity |].
    intros q Hin. apply list_elem_of_singleton in Hin. discriminate Hin.
Qed.

Lemma stop_without_running_simulation_witness :
  let c := Controller (Some 77) [] [] [] (λ _, Some "[Errno 3] No such process"%string)
                      None 500 in
  (is_pid_running (proc_pid c) c).1 = Ret false
  ∧ ∃ c',
      stop_simulation c = (Ret tt, c')
      ∧ proc_pid c' = Some 77
      ∧ launched c' = []
      ∧ screen c' = [Warning "No running simulation detected"]
      ∧ ∃ probes, sent c' = [] ++ probes ∧ ∀ q, (q, SIGTERM) ∉ probes.
Proof.
  intros c. split; [reflexivity |].
  apply (stop_without_running_simulation c). reflexivity.
Defined.

Lemma start_run (cfg : config) (c : controller) :
  (is_pid_running (proc_pid c) c).1 = Ret false →
  ∃ c',
    (∃ probes, sent c' = sent c ++ probes ∧ ∀ q, (q, SIGTERM) ∉ probes)
    ∧ match open_error c with
      | None =>
          start_simulation cfg c = (Ret tt, c')
          ∧ launched c' = launched c ++ [cfg]
          ∧ proc_pid c' = Some (next_pid c)
          ∧ screen c' = screen c
                        ++ [Success ("Started simulation (pid="
                                     +:+ Py.str_of_int (next_pid c) +:+ ")")]
      | Some msg =>
          start_simulation cfg c = (Raise (OSError msg), c')
          ∧ launched c' = launched c
          ∧ proc_pid c' = proc_pid c
          ∧ screen c' = screen c
      end.
Proof.
  intros Hdead. unfold start_simulation.
  destruct (is_pid_running_run (proc_pid c) c)
    as (b & c' & Hrun & Hpid & Hlaunched & Hscreen & Hnext & Hrest).
  rewrite Hrun in Hdead. injection Hdead as ->.
  assert (Hopen : open_error c' = open_error c).
  { unfold is_pid_running in Hrun. destruct (falsy (proc_pid c)).
    - injection Hrun as <-. reflexivity.
    - rewrite os_kill_run in Hrun.
      destruct (kill_verdict c 0%nat); cbn in Hrun;
        [injection Hrun as <-; reflexivity | discriminate]. }
  assert (Hsent : ∃ probes, sent c' = sent c ++ probes ∧ ∀ q, (q, SIGTERM) ∉ probes).
  { destruct (falsy (proc_pid c)).
    - destruct Hrest as [_ ->]. exists []. split; [symmetry; apply app_nil_r |].
      intros q Hin. inversion Hin.
    - destruct Hrest as [_ ->]. eexists. split; [reflexivity |].
      intros q Hin. apply list_elem_of_singleton in Hin. discriminate Hin. }
  unfold mbind, M_bind, bind. cbn [gets]. rewrite Hrun. unfold popen.
  rewrite Hopen. destruct (open_error c) as [msg |].
  - exists c'. split; [exact Hsent |]. split; [reflexivity |]. auto.
  - exists (Controller (Some (next_pid c')) (sent c') (launched c' ++ [cfg])
              (screen c' ++ [Success ("Started simulation (pid="
                                      +:+ Py.str_of_int (next_pid c') +:+ ")")])
              (kill_verdict c') None (next_pid c' + 1)).
    split; [exact Hsent |]. split; [reflexivity |]. cbn.
    rewrite Hlaunched, Hscreen, Hnext. auto.
Qed.

(** X14. The start action when the probe finds no simulation: if the log can be
    opened it launches exactly one simulator, with the sidebar's inputs,
    tracks the pid of that child and reports it; if preparing or opening
    the log raises [OSError] the error propagates and nothing is launched,
    tracked or shown. Either way no [SIGTERM] is sent. *)
Theorem start_launches_one_simulator (cfg : config) (c : controller) :
  (is_pid_running (proc_pid c) c).1 = Ret false →
  ∃ c',
    (∃ probes, sent c' = sent c ++ probes ∧ ∀ q, (q, SIGTERM) ∉ probes)
    ∧ match open_error c with
      | None =>
          start_simulation cfg c = (Ret tt, c')
          ∧ launched c' = launched c ++ [cfg]
          ∧ proc_pid c' = Some (next_pid c)
          ∧ screen c' = screen c
                        ++ [Success ("Started simulation (pid="
                                     +:+ Py.str_of_int (next_pid c) +:+ ")")]
      | Some msg =>
          start_simulation cfg c = (Raise (OSError msg), c')
          ∧ launched c' = launched c
          ∧ proc_pid c' = proc_pid c
          ∧ screen c' = screen c
      end.
Proof. exact (start_run cfg c). Qed.

Lemma start_launches_one_simulator_witness :
  let c := Controller None [] [] [] (λ _, None) None 500 in
  let cfg := Config 20 "SIM-MEET-123" 120 20 (1 # 2) "simulator.log" in
  (is_pid_running (proc_pid c) c).1 = Ret false
  ∧ ∃ c',
      start_simulation cfg c = (Ret tt, c')
      ∧ launched c' = [cfg]
      ∧ proc_pid c' = Some 500
      ∧ sent c' = []
      ∧ screen c' = [Success "Started simulation (pid=500)"].
Proof.
  intros c cfg. split; [reflexivity |].
  destruct (start_launches_one_simulator cfg c eq_refl)
    as (c' & _ & Hrun & Hlaunched & Hpid & Hscreen).
  exists c'. split; [exact Hrun |]. split; [exact Hlaunched |].
  split; [exact Hpid |]. split; [| exact Hscreen].
  injection Hrun as <-. reflexivity.
Defined.

(** X15. Neither button ever signals a process other than the tracked one, and
    never pid 0 (which would address the controller's whole process group):
    whatever the state, every signal the start or the stop action sends goes
    to the pid in [proc_pid], which is not 0; the start action sends nothing
    but the probe, and the stop action sends [SIGTERM] only once the probe
    has succeeded. *)
Theorem buttons_signal_only_the_tracked_pid (cfg : config) (c : controller) :
  (∃ new, sent (start_simulation cfg c).2 = sent c ++ new
          ∧ ∀ q sig, (q, sig) ∈ new → proc_pid c = Some q ∧ q ≠ 0 ∧ sig = 0)
  ∧ (∃ new, sent (stop_simulation c).2 = sent c ++ new
            ∧ ∀ q sig, (q, sig) ∈ new →
                proc_pid c = Some q ∧ q ≠ 0
                ∧ (sig = 0 ∨ sig = SIGTERM ∧ kill_verdict c 0%nat = None)).
Proof.
  destruct c as [[p |] snt lnc scr kv oe np].
  - destruct (Z.eqb_spec p 0) as [-> | Hp].
    + split.
      * exists []. split; [| intros q sig Hin; inversion Hin].
        unfold start_simulation, mbind, M_bind, bind, popen. cbn.
        destruct oe; cbn; rewrite app_nil_r; reflexivity.
      * exists []. split; [| intros q sig Hin; inversion Hin].
        cbn. rewrite app_nil_r. reflexivity.
    + assert (Hf : falsy (Some p) = false)
        by (cbn; destruct (Z.eqb_spec p 0); congruence).
      split.
      * exists [(p, 0)]. split.
        -- unfold start_simulation, is_pid_running, mbind, M_bind, bind, gets, popen.
           cbn [proc_pid]. rewrite Hf. rewrite os_kill_run. cbn.
           destruct (kv 0%nat); cbn; [destruct oe |]; reflexivity.
        -- intros q sig Hin. apply list_elem_of_singleton in Hin.
           injection Hin as -> ->. auto.
      * destruct (kv 0%nat) as [msg |] eqn:Hprobe.
        -- exists [(p, 0)]. split.
           ++ unfold stop_simulation, is_pid_running, mbind, M_bind, bind, gets.
              cbn [proc_pid]. rewrite Hf, os_kill_run. cbn. rewrite Hprobe.
              reflexivity.
           ++ intros q sig Hin. apply list_elem_of_singleton in Hin.
              injection Hin as -> ->. auto.
        -- exists [(p, 0); (p, SIGTERM)]. split.
           ++ unfold stop_simulation, is_pid_running, mbind, M_bind, bind, gets.
              cbn [proc_pid]. rewrite Hf, !os_kill_run. cbn. rewrite Hprobe. cbn.
              rewrite os_kill_run. cbn.
              destruct (advance kv 0%nat); cbn; rewrite <- ?app_assoc;
                reflexivity.
           ++ intros q sig Hin.
              apply elem_of_cons in Hin as [Hin | Hin].
              ** injection Hin as -> ->. auto.
              ** apply list_elem_of_singleton in Hin. injection Hin as -> ->. auto.
  - split.
    + exists []. split; [| intros q sig Hin; inversion Hin].
      unfold start_simulation, mbind, M_bind, bind, popen. cbn.
      destruct oe; cbn; rewrite app_nil_r; reflexivity.
    + exists []. split; [| intros q sig Hin; inversion Hin].
      cbn. rewrite app_nil_r. reflexivity.
Qed.

(** X16. Stop, then start. After a stop that reports success the controller has
    forgotten the pid, so the start action launches a new simulator at once:
    it sends no probe, and nothing has checked that the stopped process has
    exited. *)
Theorem start_after_stop_launches_unprobed (cfg : config) (c : controller) :
  (is_pid_running (proc_pid c) c).1 = Ret true →
  kill_verdict c 1%nat = None →
  open_error c = None →
  ∃ p c',
    proc_pid c = Some p
    ∧ (stop_simulation;; start_simulation cfg) c = (Ret tt, c')
    ∧ sent c' = sent c ++ [(p, 0); (p, SIGTERM)]
    ∧ launched c' = launched c ++ [cfg]
    ∧ proc_pid c' = Some (next_pid c)
    ∧ screen c' = screen c
                  ++ [Success "Stopped simulation";
                      Success ("Started simulation (pid="
                               +:+ Py.str_of_int (next_pid c) +:+ ")")].
Proof.
  intros Halive Hkill Hopen.
  destruct (is_pid_running_alive c Halive) as (p & Hpid & Hp & Hprobe & Hrun).
  assert (Hstop : stop_simulation c
                  = (Ret tt,
                     Controller None ((sent c ++ [(p, 0)]) ++ [(p, SIGTERM)])
                                (launched c)
                                (screen c ++ [Success "Stopped simulation"])
                                (advance (advance (kill_verdict c)))
                                (open_error c) (next_pid c))).
  { unfold stop_simulation.
    erewrite bind_Ret by reflexivity. erewrite bind_Ret by exact Hrun.
    rewrite Hpid. cbn [default from_option].
    unfold mbind, M_bind, bind. rewrite os_kill_run. cbn [kill_verdict].
    change (advance (kill_verdict c) 0%nat) with (kill_verdict c 1%nat).
    rewrite Hkill. reflexivity. }
  exists p,
    (Controller (Some (next_pid c)) ((sent c ++ [(p, 0)]) ++ [(p, SIGTERM)])
                (launched c ++ [cfg])
                ((screen c ++ [Success "Stopped simulation"])
                 ++ [Success ("Started simulation (pid="
                              +:+ Py.str_of_int (next_pid c) +:+ ")")])
                (advance (advance (kill_verdict c))) None (next_pid c + 1)).
  split; [exact Hpid |]. split.
  { erewrite bind_Ret by exact Hstop.
    unfold start_simulation, popen, mbind, M_bind, bind. cbn.
    rewrite Hopen. reflexivity. }
  cbn. rewrite <- !app_assoc. auto.
Qed.

Lemma start_after_stop_launches_unprobed_witness :
  let c := Controller (Some 77) [] [] [] (λ _, None) None 500 in
  let cfg := Config 20 "SIM-MEET-123" 120 20 (1 # 2) "simulator.log" in
  (is_pid_running (proc_pid c) c).1 = Ret true
  ∧ kill_verdict c 1%nat = None
  ∧ open_error c = None
  ∧ ∃ c',
      (stop_simulation;; start_simulation cfg) c = (Ret tt, c')
      ∧ sent c' = [(77, 0); (77, SIGTERM)]
      ∧ launched c' = [cfg]
      ∧ proc_pid c' = Some 500.
Proof.
  intros c cfg. split; [reflexivity |]. split; [reflexivity |].
  split; [reflexivity |].
  destruct (start_after_stop_launches_unprobed cfg c eq_refl eq_refl eq_refl)
    as (p & c' & _ & Hrun & _ & Hlaunched & Hpid & _).
  exists c'. split; [exact Hrun |].
  split; [injection Hrun as <-; reflexivity |].
  split; [exact Hlaunched | exact Hpid].
Defined.

End ControllingMore.

Section LogLines.
Import Simulator.

Lemma printable_app a b : printable (a +:+ b) = printable a && printable b.
Proof.
  induction a as [| x a IH]; [reflexivity |].
  change (printable (String x (a +:+ b)) = printable (String x a) && printable b).
  cbn [printable]. rewrite IH, andb_assoc. reflexivity.
Qed.

Lemma json_escape_char_printable c : printable (json_escape_char c) = true.
Proof. destruct c as [[] [] [] [] [] [] [] []]; reflexivity. Qed.

Lemma json_escape_printable s : printable (json_escape s) = true.
Proof.
  induction s as [| c s IH]; [reflexivity |].
  cbn [json_escape]. rewrite printable_app, json_escape_char_printable, IH.
  reflexivity.
Qed.

Lemma json_string_printable s : printable (json_string s) = true.
Proof.
  unfold json_string.
  change (String dquote (json_escape s) +:+ String dquote "")
    with (String dquote (json_escape s +:+ String dquote "")).
  cbn [printable]. rewrite printable_app, json_escape_printable. reflexivity.
Qed.

Lemma digits_printable u : printable (NilEmpty.string_of_uint u) = true.
Proof. induction u; cbn [NilEmpty.string_of_uint printable]; rewrite ?IHu; reflexivity. Qed.

Lemma str_of_int_printable z : printable (Py.str_of_int z) = true.
Proof.
  assert (Hu : ∀ u, printable (NilZero.string_of_uint u) = true)
    by (intros u; destruct u; try reflexivity; exact (digits_printable _)).
  unfold Py.str_of_int. destruct z as [| p | p]; cbn.
  - reflexivity.
  - apply Hu.
  - apply Hu.
Qed.

Lemma json_scalar_printable v : printable (json_scalar v) = true.
Proof.
  destruct v; cbn [json_scalar];
    [reflexivity | apply str_of_int_printable | apply json_string_printable].
Qed.

Lemma json_item_printable kv : printable (json_item kv) = true.
Proof.
  unfold json_item.
  rewrite !printable_app, json_string_printable, json_scalar_printable. reflexivity.
Qed.

Lemma concat_printable (items : list string) :
  Forall (λ s, printable s = true) items →
  printable (String.concat ", " items) = true.
Proof.
  induction 1 as [| s items Hs _ IH]; [reflexivity |].
  destruct items as [| s' items]; [exact Hs |].
  change (String.concat ", " (s :: s' :: items))
    with (s +:+ ", " +:+ String.concat ", " (s' :: items)).
  rewrite !printable_app, Hs, IH. reflexivity.
Qed.

Lemma json_dumps_printable d : printable (json_dumps d) = true.
Proof.
  unfold json_dumps. rewrite !printable_app, concat_printable; [reflexivity |].
  apply Forall_fmap, Forall_forall. intros kv _. apply json_item_printable.
Qed.

Lemma printable_occurs c s :
  printable s = true →
  ((32 <=? N_of_ascii c)%N && (N_of_ascii c <=? 126)%N) = false →
  occurs c s = false.
Proof.
  intros Hs Hc. induction s as [| x s IH]; [reflexivity |].
  cbn [printable] in Hs. apply andb_true_iff in Hs as [Hx Hrest].
  cbn [occurs]. rewrite (IH Hrest), orb_false_r.
  destruct (Ascii.eqb_spec c x) as [-> | _]; [congruence | reflexivity].
Qed.

(** X17. What a worker appends to its log is plain text on one line: after what
    the file held before, characters that are all printable ASCII, whatever
    the participant's name and the meeting code hold (quotes, control
    characters and characters beyond ASCII are escaped), and then the line
    feed. No other file is touched. *)
Theorem worker_log_line_is_printable_ascii t name meeting_code passcode
    stay_seconds work_seconds path stagger w :
  deadline_seen work_seconds (ticks w) →
  sleeps_accepted stay_seconds work_seconds stagger w →
  path ≠ EmptyString →
  io_error w = None →
  returns
    (worker name meeting_code passcode stay_seconds work_seconds t (Some path)
            stagger) w
    (λ _ w', ∃ line,
       printable line = true
       ∧ fs w' !! path
         = Some (default "" (fs w !! path) +:+ line +:+ String newline "")
       ∧ ∀ other, other ≠ path → fs w' !! other = fs w !! other).
Proof.
  intros Hreach Hsleeps Hpath Hio.
  destruct (worker_run t name meeting_code passcode stay_seconds work_seconds
              (Some path) stagger w Hreach Hsleeps)
    as (new & _ & a & w' & Hrun & snaps & _ & _ & _ & Hfs & _).
  exists a, w'. split; [exact Hrun |].
  eexists. split; [apply json_dumps_printable |].
  rewrite Hfs, Hio. unfold logged, truthy.
  destruct path as [| c path]; [congruence |].
  split; [apply lookup_insert_eq |].
  intros other Hne. apply lookup_insert_ne. congruence.
Qed.

Lemma worker_log_line_is_printable_ascii_witness :
  deadline_seen 2 (ticks sample_world)
  ∧ sleeps_accepted 10 2 0 sample_world
  ∧ "simulator.log"%string ≠ EmptyString
  ∧ io_error sample_world = None
  ∧ returns
      (worker "Aarav Sharma #1" "SIM-MEET-123" "" 10 2 ManagerProxy
              (Some "simulator.log"%string) 0) sample_world
      (λ _ w', ∃ line,
         printable line = true
         ∧ fs w' !! "simulator.log"%string
           = Some (default "" (fs sample_world !! "simulator.log"%string)
                   +:+ line +:+ String newline "")
         ∧ ∀ other, other ≠ "simulator.log"%string →
                    fs w' !! other = fs sample_world !! other).
Proof.
  assert (Hpath : "simulator.log"%string ≠ EmptyString) by discriminate.
  split; [exact sample_clock_reaches_deadline |].
  split; [exact sample_sleeps_accepted |]. split; [exact Hpath |].
  split; [reflexivity |].
  exact (worker_log_line_is_printable_ascii ManagerProxy "Aarav Sharma #1"
           "SIM-MEET-123" "" 10 2 "simulator.log" 0 sample_world
           sample_clock_reaches_deadline sample_sleeps_accepted Hpath eq_refl).
Defined.

End LogLines.

Section LogTail.
Import Simulator Controller Page.

Lemma append_nil_r' (s : string) : s +:+ "" = s.
Proof.
  induction s as [| c s IH]; [reflexivity |].
  change (String c (s +:+ "") = String c s). rewrite IH. reflexivity.
Qed.

Lemma join_cons x (l : list string) :
  String.concat "" (x :: l) = x +:+ String.concat "" l.
Proof.
  destruct l as [| y l]; [symmetry; apply append_nil_r' | reflexivity].
Qed.

Lemma join_app (a b : list string) :
  String.concat "" (a ++ b) = String.concat "" a +:+ String.concat "" b.
Proof.
  induction a as [| x a IH]; [reflexivity |].
  rewrite <- app_comm_cons, !join_cons, IH, append_assoc. reflexivity.
Qed.

(** [readlines] cuts a text into whole lines and, if the text does not end
    with a line feed, a last piece that holds none. *)
Lemma readlines_spec s :
  ∃ ls tail,
    readlines s = ls ++ (if tail is EmptyString then [] else [tail])
    ∧ Forall whole_line ls
    ∧ occurs newline tail = false
    ∧ s = String.concat "" ls +:+ tail.
Proof.
  induction s as [| c s (ls & tail & Hread & Hwhole & Htail & Hs)].
  - exists [], ""%string. repeat split; constructor.
  - cbn [readlines]. destruct (Ascii.eqb_spec c newline) as [-> | Hc].
    + exists (String newline "" :: ls), tail. rewrite Hread.
      split; [reflexivity |]. split; [| split; [exact Htail |]].
      * constructor; [| exact Hwhole]. exists ""%string. split; reflexivity.
      * rewrite join_cons, append_assoc, <- Hs. reflexivity.
    + assert (Hc' : Ascii.eqb newline c = false)
        by (destruct (Ascii.eqb_spec newline c); congruence).
      destruct ls as [| l ls].
      * exists [], (String c tail). cbn in Hs. subst s. rewrite Hread.
        split; [destruct tail; reflexivity |]. split; [constructor |].
        split; [| reflexivity]. cbn [occurs]. rewrite Hc', Htail. reflexivity.
      * exists (String c l :: ls), tail. rewrite Hread.
        apply Forall_cons in Hwhole as [(body & -> & Hbody) Hwhole].
        split; [reflexivity |]. split; [| split; [exact Htail |]].
        -- constructor; [| exact Hwhole]. exists (String c body).
           split; [reflexivity |]. cbn [occurs]. rewrite Hc', Hbody. reflexivity.
        -- rewrite Hs, !join_cons. reflexivity.
Qed.

Lemma join_readlines s : String.concat "" (readlines s) = s.
Proof.
  destruct (readlines_spec s) as (ls & tail & -> & _ & _ & Hs).
  rewrite join_app, Hs. f_equal. destruct tail; reflexivity.
Qed.

Lemma readlines_line body rest :
  occurs newline body = false →
  readlines (body +:+ String newline rest)
  = (body +:+ String newline "") :: readlines rest.
Proof.
  induction body as [| c body IH]; intros Hbody.
  - reflexivity.
  - cbn [occurs] in Hbody. apply orb_false_iff in Hbody as [Hc Hrest].
    change (readlines (String c (body +:+ String newline rest))
            = String c (body +:+ String newline "") :: readlines rest).
    cbn [readlines]. rewrite (IH Hrest).
    destruct (Ascii.eqb_spec c newline) as [-> | _]; [| reflexivity].
    rewrite Ascii.eqb_refl in Hc. discriminate.
Qed.

Lemma readlines_whole ls :
  Forall whole_line ls → readlines (String.concat "" ls) = ls.
Proof.
  induction 1 as [| l ls (body & -> & Hbody) _ IH]; [reflexivity |].
  rewrite join_cons, append_assoc.
  change (String newline "" +:+ String.concat "" ls)
    with (String newline (String.concat "" ls)).
  rewrite (readlines_line _ _ Hbody), IH. reflexivity.
Qed.

Lemma universal_newlines_id s : occurs cr s = false → universal_newlines s = s.
Proof.
  induction s as [| c s IH]; [reflexivity |].
  cbn [occurs]. intros Hs. apply orb_false_iff in Hs as [Hc Hrest].
  cbn [universal_newlines].
  destruct (Ascii.eqb_spec c cr) as [-> | _].
  - rewrite Ascii.eqb_refl in Hc. discriminate.
  - rewrite (IH Hrest). reflexivity.
Qed.

Lemma lift_run {A} (m : M controller A) p o c' :
  m (ctl p) = (o, c') →
  lift m p = (o, Page c' (files p) (read_error p) (stat_error p) (panel p)).
Proof. intros H. unfold lift. rewrite H. reflexivity. Qed.

(** When the existence test answers, the log tail returns. *)
Lemma log_tail_run path (p : page) :
  is_Some (files p !! path) ∨ stat_error p = None →
  ∃ x,
    log_tail path p
    = (Ret tt, Page (ctl p) (files p) (read_error p) (stat_error p) (panel p ++ [x]))
    ∧ match files p !! path, read_error p with
      | None, _ =>
          x = Info "Log file not found yet. Start a simulation to create it."
      | Some _, Some msg => x = Error ("Could not read log: " +:+ msg)
      | Some content, None =>
          x = TextArea "Last log lines"
                (String.concat ""
                   (last_items 400 (readlines (universal_newlines content))))
                400
      end.
Proof.
  destruct p as [c fs re se pn].
  unfold log_tail, mbind, M_bind, bind, path_exists, try_except_Exception,
    read_lines, render, modify.
  cbn [files read_error stat_error ctl panel].
  destruct (fs !! path) as [content |] eqn:Hfile; intros Hseen.
  - destruct re as [msg |]; cbn; rewrite ?Hfile; eexists; split; reflexivity.
  - destruct Hseen as [[? Hsome] | ->]; [discriminate |].
    eexists. split; reflexivity.
Qed.

(** When it does not, its error leaves the script there. *)
Lemma log_tail_refused path (p : page) msg :
  files p !! path = None →
  stat_error p = Some msg →
  log_tail path p = (Raise (OSError msg), p).
Proof.
  intros Hfile Hstat.
  unfold log_tail, mbind, M_bind, bind, path_exists. rewrite Hfile, Hstat.
  reflexivity.
Qed.

(** Both cases at once, as the script's last step. *)
Lemma log_tail_total path (p : page) :
  ∃ o tail,
    log_tail path p
    = (o, Page (ctl p) (files p) (read_error p) (stat_error p) (panel p ++ tail))
    ∧ match files p !! path, stat_error p with
      | None, Some msg => o = Raise (OSError msg) ∧ tail = []
      | _, _ => o = Ret tt ∧ length tail = 1%nat
      end.
Proof.
  destruct (files p !! path) as [content |] eqn:Hfile.
  - destruct (log_tail_run path p) as (x & Hrun & _);
      [left; rewrite Hfile; eauto |].
    exists (Ret tt), [x]. split; [exact Hrun | split; reflexivity].
  - destruct (stat_error p) as [msg |] eqn:Hstat.
    + exists (Raise (OSError msg)), []. split; [| split; reflexivity].
      rewrite (log_tail_refused path p msg Hfile Hstat), app_nil_r.
      destruct p; cbn in *. rewrite Hstat. reflexivity.
    + destruct (log_tail_run path p) as (x & Hrun & _); [right; exact Hstat |].
      exists (Ret tt), [x]. rewrite Hstat in Hrun.
      split; [exact Hrun | split; reflexivity].
Qed.

(** X18. The log tail raises only from its existence test, which is outside the
    [try]: when the path cannot be examined for another reason than its
    absence, that [OSError] propagates and nothing is rendered. Otherwise it
    returns, having rendered one widget: a notice when the log does not
    exist, the error when it cannot be read, the text area otherwise; it
    changes neither the controller's state nor a file. *)
Theorem log_tail_raises_only_from_exists path (p : page) :
  (∀ msg, files p !! path = None → stat_error p = Some msg →
          log_tail path p = (Raise (OSError msg), p))
  ∧ (is_Some (files p !! path) ∨ stat_error p = None →
     ∃ x,
       log_tail path p
       = (Ret tt,
          Page (ctl p) (files p) (read_error p) (stat_error p) (panel p ++ [x]))
       ∧ match files p !! path, read_error p with
         | None, _ =>
             x = Info "Log file not found yet. Start a simulation to create it."
         | Some _, Some msg => x = Error ("Could not read log: " +:+ msg)
         | Some content, None =>
             x = TextArea "Last log lines"
                   (String.concat ""
                      (last_items 400 (readlines (universal_newlines content))))
                   400
         end).
Proof.
  split; [intros msg; apply log_tail_refused | apply log_tail_run].
Qed.

Lemma log_tail_raises_only_from_exists_witness :
  let p := Page (Controller None [] [] [] (λ _, None) None 500) ∅ None
                (Some "[Errno 13] Permission denied: 'logs/simulator.log'"%string)
                [] in
  files p !! "logs/simulator.log"%string = None
  ∧ stat_error p = Some "[Errno 13] Permission denied: 'logs/simulator.log'"%string
  ∧ log_tail "logs/simulator.log" p
    = (Raise (OSError "[Errno 13] Permission denied: 'logs/simulator.log'"), p).
Proof.
  intros p. split; [reflexivity |]. split; [reflexivity |].
  exact (proj1 (log_tail_raises_only_from_exists "logs/simulator.log" p) _
           eq_refl eq_refl).
Defined.

(** X19. What the text area holds: the last 400 lines of the log as read, and
    all of it when it has no more lines than that. What is left out is a
    run of whole lines, so the text shown starts at the start of a line. *)
Theorem log_tail_shows_last_lines path content (p : page) :
  files p !! path = Some content →
  read_error p = None →
  let text := universal_newlines content in
  let shown := String.concat "" (last_items 400 (readlines text)) in
  log_tail path p
  = (Ret tt,
     Page (ctl p) (files p) (read_error p) (stat_error p)
          (panel p ++ [TextArea "Last log lines" shown 400]))
  ∧ (length (last_items 400 (readlines text)) <= 400)%nat
  ∧ (∃ hidden, Forall whole_line hidden
               ∧ text = String.concat "" hidden +:+ shown)
  ∧ ((length (readlines text) <= 400)%nat → shown = text).
Proof.
  intros Hfile Hread text shown.
  split; [| split; [| split]].
  - destruct (log_tail_run path p) as (x & Hrun & Hx);
      [left; rewrite Hfile; eauto |].
    rewrite Hfile, Hread in Hx. rewrite Hrun, Hx. reflexivity.
  - unfold last_items. rewrite length_drop. lia.
  - exists (take (length (readlines text) - 400) (readlines text)). split.
    + destruct (readlines_spec text) as (ls & tail & Hlines & Hwhole & _ & _).
      rewrite Hlines.
      assert (Hlen : (length (ls ++ (if tail is EmptyString then [] else [tail]))
                      - 400 <= length ls)%nat)
        by (rewrite length_app; destruct tail; cbn; lia).
      rewrite take_app_le by exact Hlen. apply Forall_take, Hwhole.
    + unfold shown, last_items. rewrite <- join_app, take_drop.
      symmetry. apply join_readlines.
  - intros Hshort. unfold shown, last_items.
    replace (length (readlines text) - 400)%nat with 0%nat by lia.
    apply join_readlines.
Qed.

Lemma log_tail_shows_last_lines_witness :
  let p := Page (Controller None [] [] [] (λ _, None) None 500)
                {["simulator.log"%string
                  := ("first" +:+ String cr (String newline "second"))%string]}
                None None [] in
  files p !! "simulator.log"%string
  = Some ("first" +:+ String cr (String newline "second"))%string
  ∧ read_error p = None
  ∧ log_tail "simulator.log" p
    = (Ret tt,
       Page (ctl p) (files p) (read_error p) (stat_error p)
            [TextArea "Last log lines" ("first" +:+ String newline "second") 400]).
Proof.
  intros p. split; [reflexivity |]. split; [reflexivity |].
  exact (proj1 (log_tail_shows_last_lines "simulator.log"
                  ("first" +:+ String cr (String newline "second"))%string p
                  eq_refl eq_refl)).
Defined.

Lemma log_line_whole record : whole_line (log_line record).
Proof.
  exists (json_dumps record). split; [reflexivity |].
  apply printable_occurs; [apply json_dumps_printable | reflexivity].
Qed.

Lemma log_lines_no_cr records :
  occurs cr (String.concat "" (log_line <$> records)) = false.
Proof.
  induction records as [| r records IH]; [reflexivity |].
  rewrite fmap_cons, join_cons, occurs_app, IH. unfold log_line.
  rewrite occurs_app, (printable_occurs cr _ (json_dumps_printable r)) by reflexivity.
  reflexivity.
Qed.

(** X20. Worker log and log tail together. When the log holds the lines of a
    sequence of records, each as [worker] appends it, the text area shows
    the lines of the last 400 records, whole and unchanged, and of all the
    records when there are no more than that. *)
Theorem log_tail_shows_whole_records path (records : list dict) (p : page) :
  files p !! path = Some (String.concat "" (log_line <$> records)) →
  read_error p = None →
  log_tail path p
  = (Ret tt,
     Page (ctl p) (files p) (read_error p) (stat_error p)
          (panel p ++ [TextArea "Last log lines"
                         (String.concat "" (log_line <$> last_items 400 records))
                         400])).
Proof.
  intros Hfile Hread.
  destruct (log_tail_run path p) as (x & Hrun & Hx);
    [left; rewrite Hfile; eauto |].
  rewrite Hfile, Hread in Hx. rewrite Hrun, Hx.
  rewrite universal_newlines_id by apply log_lines_no_cr.
  rewrite readlines_whole
    by (apply Forall_fmap, Forall_forall; intros r _; apply log_line_whole).
  unfold last_items. rewrite length_fmap, fmap_drop. reflexivity.
Qed.

Lemma log_tail_shows_whole_records_witness :
  let records := [log_record "Aarav Sharma #1" "SIM-MEET-123"
                             (SStr "2024-03-07T09:05:00Z") SNone 2;
                  log_record "Kabir Nair #2" "SIM-MEET-123"
                             (SStr "2024-03-07T09:05:01Z") SNone 3] in
  let p := Page (Controller None [] [] [] (λ _, None) None 500)
                {["simulator.log"%string := String.concat "" (log_line <$> records)]}
                None None [] in
  files p !! "simulator.log"%string = Some (String.concat "" (log_line <$> records))
  ∧ read_error p = None
  ∧ log_tail "simulator.log" p
    = (Ret tt,
       Page (ctl p) (files p) (read_error p) (stat_error p)
            [TextArea "Last log lines"
               (String.concat "" (log_line <$> last_items 400 records)) 400]).
Proof.
  intros records p. split; [reflexivity |]. split; [reflexivity |].
  exact (log_tail_shows_whole_records "simulator.log" records p eq_refl eq_refl).
Defined.

End LogTail.

Section PageRuns.
Import Simulator Controller Page.

Lemma status_run (p : page) :
  ∃ b c',
    is_pid_running (proc_pid (ctl p)) (ctl p) = (Ret b, c')
    ∧ status p
      = (Ret tt,
         Page c' (files p) (read_error p) (stat_error p)
              (panel p
               ++ [Info (if (b : bool)
                         then "Simulation running (pid="
                              +:+ pid_str (proc_pid (ctl p)) +:+ ")"
                         else "No simulation running")])).
Proof.
  destruct (is_pid_running_run (proc_pid (ctl p)) (ctl p))
    as (b & c' & Hrun & Hpid & _).
  exists b, c'. split; [exact Hrun |].
  unfold status.
  erewrite bind_Ret by (apply lift_run; reflexivity).
  erewrite bind_Ret by (apply lift_run; exact Hrun).
  destruct b.
  - erewrite bind_Ret by (apply lift_run; reflexivity).
    cbn. rewrite Hpid. reflexivity.
  - reflexivity.
Qed.

(** X21. A run of the script with no button clicked only looks: it launches
    nothing, shows no warning or success, leaves the tracked pid and the
    files as they were, sends at most the one probe of the status line and
    never [SIGTERM], and renders the rule, the status line and the heading.
    It raises only when the existence test of the log does, after the
    heading and with nothing rendered below it; otherwise it returns, the
    log tail having rendered one widget. *)
Theorem script_without_click_only_looks (cfg : config) (p : page) :
  ∃ o p',
    script cfg false false p = (o, p')
    ∧ proc_pid (ctl p') = proc_pid (ctl p)
    ∧ launched (ctl p') = launched (ctl p)
    ∧ screen (ctl p') = screen (ctl p)
    ∧ files p' = files p
    ∧ (∃ probes, sent (ctl p') = sent (ctl p) ++ probes
                 ∧ (length probes <= 1)%nat
                 ∧ ∀ q sig, (q, sig) ∈ probes → sig = 0)
    ∧ ∃ line tail,
        panel p'
        = panel p ++ [Markdown "---"; Info line; Subheader "Log tail"] ++ tail
        ∧ match files p !! log_path cfg, stat_error p with
          | None, Some msg => o = Raise (OSError msg) ∧ tail = []
          | _, _ => o = Ret tt ∧ length tail = 1%nat
          end.
Proof.
  destruct p as [c fs re se pn].
  set (p1 := Page c fs re se (pn ++ [Markdown "---"])).
  destruct (status_run p1) as (b & c' & Hprobe & Hstatus).
  match type of Hstatus with _ = (_, ?q) => set (p2 := q) in Hstatus end.
  set (p3 := Page c' fs re se (panel p2 ++ [Subheader "Log tail"])).
  destruct (log_tail_total (log_path cfg) p3) as (o & tail & Htail & Hcase).
  exists o. eexists. split.
  { unfold script.
    erewrite bind_Ret by reflexivity. erewrite bind_Ret by reflexivity.
    erewrite bind_Ret by reflexivity.
    erewrite bind_Ret by exact Hstatus.
    erewrite bind_Ret by reflexivity.
    exact Htail. }
  destruct (is_pid_running_run (proc_pid c) c)
    as (b0 & c0 & Hrun & Hpid & Hlaunched & Hscreen & _ & Hrest).
  cbn in Hprobe. rewrite Hrun in Hprobe. injection Hprobe as -> ->.
  cbn [ctl files panel stat_error read_error p3 p2 p1] in *.
  split; [exact Hpid |]. split; [exact Hlaunched |]. split; [exact Hscreen |].
  split; [reflexivity |]. split.
  - destruct (falsy (proc_pid c)).
    + destruct Hrest as [_ ->]. exists []. rewrite app_nil_r.
      split; [reflexivity |]. split; [cbn; lia |]. intros q sig Hin. inversion Hin.
    + destruct Hrest as [_ ->]. eexists. split; [reflexivity |].
      split; [cbn; lia |].
      intros q sig Hin. apply list_elem_of_singleton in Hin. congruence.
  - eexists _, tail. split; [| exact Hcase].
    rewrite <- !app_assoc. reflexivity.
Qed.

Lemma script_without_click_only_looks_witness :
  let p := Page (Controller None [] [] [] (λ _, None) None 500) ∅ None
                (Some "[Errno 13] Permission denied: 'simulator.log'"%string)
                [] in
  let cfg := Config 20 "SIM-MEET-123" 120 20 (1 # 2) "simulator.log" in
  ∃ p',
    script cfg false false p
    = (Raise (OSError "[Errno 13] Permission denied: 'simulator.log'"), p')
    ∧ sent (ctl p') = []
    ∧ panel p' = [Markdown "---"; Info "No simulation running";
                  Subheader "Log tail"].
Proof.
  intros p cfg.
  destruct (script_without_click_only_looks cfg p)
    as (o & p' & Hrun & _ & _ & _ & _ & _ & _).
  exists p'. vm_compute in Hrun. injection Hrun as <- <-.
  repeat split.
Defined.

(** X22. A click on Stop that finds the simulation alive and delivers its
    signal: the same run of the script then reports "No simulation running",
    and it sends nothing after the [SIGTERM]; the status line comes from the
    forgotten pid, not from a look at the process. The run returns, with the
    log tail's one widget below the heading, unless the existence test of
    the log raises, which ends it after the heading. *)
Theorem stop_click_reports_not_running (cfg : config) (p : page) :
  (is_pid_running (proc_pid (ctl p)) (ctl p)).1 = Ret true →
  kill_verdict (ctl p) 1%nat = None →
  ∃ q o p',
    proc_pid (ctl p) = Some q
    ∧ script cfg false true p = (o, p')
    ∧ proc_pid (ctl p') = None
    ∧ sent (ctl p') = sent (ctl p) ++ [(q, 0); (q, SIGTERM)]
    ∧ screen (ctl p') = screen (ctl p) ++ [Success "Stopped simulation"]
    ∧ ∃ tail,
        panel p' = panel p ++ [Markdown "---"; Info "No simulation running";
                               Subheader "Log tail"] ++ tail
        ∧ match files p !! log_path cfg, stat_error p with
          | None, Some msg => o = Raise (OSError msg) ∧ tail = []
          | _, _ => o = Ret tt ∧ length tail = 1%nat
          end.
Proof.
  intros Halive Hkill. destruct p as [c fs re se pn]. cbn [ctl] in *.
  destruct (stop_run c Halive)
    as (q & c' & Hq & _ & Hsent & _ & Hstop).
  rewrite Hkill in Hstop. destruct Hstop as (Hstop & Hpid & Hscreen).
  exists q.
  set (p3 := Page c' fs re se (((pn ++ [Markdown "---"])
                                ++ [Info "No simulation running"])
                               ++ [Subheader "Log tail"])).
  destruct (log_tail_total (log_path cfg) p3) as (o & tail & Htail & Hcase).
  exists o. eexists. split; [exact Hq |]. split.
  { unfold script.
    erewrite bind_Ret by reflexivity.
    erewrite bind_Ret by (apply lift_run; exact Hstop).
    erewrite bind_Ret by reflexivity.
    erewrite bind_Ret.
    2:{ unfold status.
        erewrite bind_Ret by (apply lift_run; reflexivity).
        cbn [ctl]. rewrite Hpid.
        erewrite bind_Ret by (apply lift_run; reflexivity).
        reflexivity. }
    erewrite bind_Ret by reflexivity.
    exact Htail. }
  cbn [ctl files panel stat_error read_error p3] in *.
  split; [exact Hpid |]. split; [exact Hsent |]. split; [exact Hscreen |].
  exists tail. split; [| exact Hcase]. rewrite <- !app_assoc. reflexivity.
Qed.

Lemma stop_click_reports_not_running_witness :
  let p := Page (Controller (Some 77) [] [] [] (λ _, None) None 500) ∅ None None [] in
  let cfg := Config 20 "SIM-MEET-123" 120 20 (1 # 2) "simulator.log" in
  (is_pid_running (proc_pid (ctl p)) (ctl p)).1 = Ret true
  ∧ kill_verdict (ctl p) 1%nat = None
  ∧ ∃ p',
      script cfg false true p = (Ret tt, p')
      ∧ proc_pid (ctl p') = None
      ∧ screen (ctl p') = [Success "Stopped simulation"].
Proof.
  intros p cfg. split; [reflexivity |]. split; [reflexivity |].
  destruct (stop_click_reports_not_running cfg p eq_refl eq_refl)
    as (q & o & p' & _ & Hrun & Hpid & _ & Hscreen & tail & _ & Ho & _).
  exists p'. rewrite Ho in Hrun.
  split; [exact Hrun |]. split; [exact Hpid | exact Hscreen].
Defined.

(** X23. A click on Start that launches a simulator: the same run of the script
    then probes the new child, once, and its status line says the
    simulation is running, with the pid just reported, when the probe
    succeeds, and that none is running when it fails. The run returns, with
    the log tail's one widget below the heading, unless the existence test
    of the log raises, which ends it after the heading. *)
Theorem start_click_reports_new_pid (cfg : config) (p : page) :
  (is_pid_running (proc_pid (ctl p)) (ctl p)).1 = Ret false →
  open_error (ctl p) = None →
  next_pid (ctl p) ≠ 0 →
  ∃ c1 o p',
    start_simulation cfg (ctl p) = (Ret tt, c1)
    ∧ script cfg true false p = (o, p')
    ∧ proc_pid (ctl p') = Some (next_pid (ctl p))
    ∧ launched (ctl p') = launched (ctl p) ++ [cfg]
    ∧ sent (ctl p') = sent c1 ++ [(next_pid (ctl p), 0)]
    ∧ screen (ctl p')
      = screen (ctl p)
        ++ [Success ("Started simulation (pid="
                     +:+ Py.str_of_int (next_pid (ctl p)) +:+ ")")]
    ∧ ∃ tail,
        panel p'
        = panel p
          ++ [Markdown "---";
              Info (if kill_verdict c1 0%nat is Some _
                    then "No simulation running"
                    else "Simulation running (pid="
                         +:+ Py.str_of_int (next_pid (ctl p)) +:+ ")");
              Subheader "Log tail"] ++ tail
        ∧ match files p !! log_path cfg, stat_error p with
          | None, Some msg => o = Raise (OSError msg) ∧ tail = []
          | _, _ => o = Ret tt ∧ length tail = 1%nat
          end.
Proof.
  intros Hdead Hopen Hnext. destruct p as [c fs re se pn]. cbn [ctl] in *.
  destruct (start_run cfg c Hdead) as (c1 & _ & Hstart).
  rewrite Hopen in Hstart. destruct Hstart as (Hstart & Hlaunched & Hpid & Hscreen).
  set (p1 := Page c1 fs re se (pn ++ [Markdown "---"])).
  destruct (status_run p1) as (b & c' & Hprobe & Hstatus).
  match type of Hstatus with _ = (_, ?q) => set (p2 := q) in Hstatus end.
  set (p3 := Page c' fs re se (panel p2 ++ [Subheader "Log tail"])).
  destruct (log_tail_total (log_path cfg) p3) as (o & tail & Htail & Hcase).
  exists c1, o. eexists. split; [exact Hstart |]. split.
  { unfold script.
    erewrite bind_Ret by (apply lift_run; exact Hstart).
    erewrite bind_Ret by reflexivity.
    erewrite bind_Ret by reflexivity.
    erewrite bind_Ret by exact Hstatus.
    erewrite bind_Ret by reflexivity.
    exact Htail. }
  destruct (is_pid_running_run (proc_pid c1) c1)
    as (b0 & c0 & Hrun & Hpid' & Hlaunched' & Hscreen' & _ & Hrest).
  cbn in Hprobe. rewrite Hrun in Hprobe. injection Hprobe as -> ->.
  assert (Hf : falsy (proc_pid c1) = false).
  { rewrite Hpid. cbn. destruct (Z.eqb_spec (next_pid c) 0); congruence. }
  rewrite Hf in Hrest. destruct Hrest as [Hb Hsent].
  rewrite Hpid in Hsent. cbn [default from_option] in Hsent.
  cbn [ctl files panel stat_error read_error p3 p2 p1] in *.
  split; [congruence |]. split; [congruence |]. split; [exact Hsent |].
  split; [congruence |].
  exists tail. split; [| exact Hcase].
  rewrite <- !app_assoc. cbn. rewrite Hb, Hpid.
  destruct (kill_verdict c1 0%nat); reflexivity.
Qed.

Lemma start_click_reports_new_pid_witness :
  let p := Page (Controller None [] [] [] (λ _, None) None 500) ∅ None None [] in
  let cfg := Config 20 "SIM-MEET-123" 120 20 (1 # 2) "simulator.log" in
  (is_pid_running (proc_pid (ctl p)) (ctl p)).1 = Ret false
  ∧ open_error (ctl p) = None
  ∧ next_pid (ctl p) ≠ 0
  ∧ ∃ p',
      script cfg true false p = (Ret tt, p')
      ∧ proc_pid (ctl p') = Some 500
      ∧ sent (ctl p') = [(500, 0)]
      ∧ screen (ctl p') = [Success "Started simulation (pid=500)"]
      ∧ ∃ tail,
          panel p' = [Markdown "---"; Info "Simulation running (pid=500)";
                      Subheader "Log tail"] ++ tail
          ∧ length tail = 1%nat.
Proof.
  intros p cfg.
  assert (Hnext : next_pid (ctl p) ≠ 0) by discriminate.
  split; [reflexivity |]. split; [reflexivity |]. split; [exact Hnext |].
  destruct (start_click_reports_new_pid cfg p eq_refl eq_refl Hnext)
    as (c1 & o & p' & Hstart & Hrun & Hpid & _ & Hsent & Hscreen & tail
        & Hpanel & Ho & Hone).
  injection Hstart as <-. rewrite Ho in Hrun.
  exists p'. split; [exact Hrun |]. split; [exact Hpid |].
  split; [exact Hsent |]. split; [exact Hscreen |]. exists tail.
  split; [exact Hpanel | exact Hone].
Defined.

End PageRuns.

Section Launching.
Import Simulator Launcher.

Lemma upto_last_slash_none p : has_slash p = false → upto_last_slash p = EmptyString.
Proof. destruct p as [| c p]; [reflexivity |]. cbn [upto_last_slash]. intros ->. reflexivity. Qed.

Lemma upto_last_slash_some p : upto_last_slash p ≠ EmptyString → has_slash p = true.
Proof.
  destruct (has_slash p) eqn:H; [reflexivity |].
  rewrite upto_last_slash_none by exact H. congruence.
Qed.

Lemma rstrip_slashes_prefix s : ∃ tail, s = rstrip_slashes s +:+ tail ∧ all_slashes tail = true.
Proof.
  induction s as [| c s (tail & Hs & Htail)].
  - exists ""%string. split; reflexivity.
  - cbn [rstrip_slashes]. destruct (rstrip_slashes s) as [| k kept] eqn:Hk.
    + destruct (Ascii.eqb_spec c slash) as [-> | Hc].
      * exists (String slash s). split; [reflexivity |].
        change (s = tail) in Hs. subst s. cbn [all_slashes]. rewrite Htail.
        reflexivity.
      * exists tail. change (s = tail) in Hs. subst s.
        split; [reflexivity | exact Htail].
    + exists tail. split; [| exact Htail].
      change (String c s = String c (String k kept +:+ tail)). rewrite <- Hs.
      reflexivity.
Qed.

Lemma upto_last_slash_prefix p :
  ∃ base, p = upto_last_slash p +:+ base ∧ has_slash base = false.
Proof.
  induction p as [| c p (base & Hp & Hbase)].
  - exists ""%string. split; reflexivity.
  - cbn [upto_last_slash]. destruct (has_slash (String c p)) eqn:Hs.
    + exists base. split; [| exact Hbase].
      change (String c p = String c (upto_last_slash p +:+ base)). rewrite <- Hp.
      reflexivity.
    + exists (String c p). split; [reflexivity | exact Hs].
Qed.

(** [os.path.dirname] as the script uses it: the directory part is a prefix
    of the path, what follows it being slashes and then a name without a
    slash; a path without a slash has no directory part. *)
Lemma dirname_prefix p :
  ∃ slashes base,
    p = dirname p +:+ slashes +:+ base
    ∧ all_slashes slashes = true ∧ has_slash base = false.
Proof.
  destruct (upto_last_slash_prefix p) as (base & Hp & Hbase).
  unfold dirname.
  destruct (nonempty (upto_last_slash p) && negb (all_slashes (upto_last_slash p))).
  - destruct (rstrip_slashes_prefix (upto_last_slash p)) as (tail & Hh & Htail).
    exists tail, base. split; [| auto].
    rewrite <- append_assoc, <- Hh. exact Hp.
  - exists ""%string, base. split; [exact Hp | auto].
Qed.

Lemma dirname_without_slash p : has_slash p = false → dirname p = EmptyString.
Proof.
  intros H. unfold dirname. rewrite upto_last_slash_none by exact H. reflexivity.
Qed.

Lemma supervise_made {A} (m : M supervisor A) h :
  made (supervise m h).2 = made h ∧ mkdir_error (supervise m h).2 = mkdir_error h.
Proof. split; reflexivity. Qed.

Lemma ensure_log_dir_made log (h : host) :
  ∃ new,
    made (ensure_log_dir log h).2 = made h ++ new
    ∧ (length new <= 1)%nat
    ∧ (∀ d, d ∈ new →
         d = dirname log ∧ d ≠ EmptyString ∧ has_slash log = true
         ∧ path_exists h d = false
         ∧ ∃ rest, log = d +:+ rest)
    ∧ (has_slash log = false → new = []).
Proof.
  assert (Hnone : ∃ new,
             made h = made h ++ new
             ∧ (length new <= 1)%nat
             ∧ (∀ d, d ∈ new →
                  d = dirname log ∧ d ≠ EmptyString ∧ has_slash log = true
                  ∧ path_exists h d = false
                  ∧ ∃ rest, log = d +:+ rest)
             ∧ (has_slash log = false → new = [])).
  { exists []. split; [symmetry; apply app_nil_r |].
    split; [cbn; lia |]. split; [intros d Hin; inversion Hin | reflexivity]. }
  unfold ensure_log_dir.
  destruct (nonempty log); [| exact Hnone].
  destruct (nonempty (dirname log)) eqn:Hd; [| exact Hnone].
  unfold mbind, M_bind, bind, gets.
  destruct (path_exists h (dirname log)) eqn:Hfound; [exact Hnone |].
  exists [dirname log]. split.
  { unfold makedirs. destruct (mkdir_error h); reflexivity. }
  split; [cbn; lia |].
  assert (Hne : dirname log ≠ EmptyString)
    by (intros Heq; rewrite Heq in Hd; discriminate).
  assert (Hslash : has_slash log = true).
  { destruct (has_slash log) eqn:Hs; [reflexivity |].
    destruct Hne. apply dirname_without_slash, Hs. }
  split.
  - intros d Hin. apply list_elem_of_singleton in Hin. subst d.
    split; [reflexivity |]. split; [exact Hne |]. split; [exact Hslash |].
    split; [exact Hfound |].
    destruct (dirname_prefix log) as (slashes & base & Hp & _).
    exists (slashes +:+ base). exact Hp.
  - intros Hs. rewrite Hs in Hslash. discriminate.
Qed.

(** X24. Run as a script, the simulator creates at most one directory: the
    directory part of the log path, which is a prefix of that path, and only
    when the log path is not empty, holds a slash, and that directory does
    not exist yet. A bare file name, like the default, never creates
    anything. *)
Theorem main_creates_only_the_missing_log_directory (a : args) rounds (h : host) :
  ∃ new,
    made (main a rounds h).2 = made h ++ new
    ∧ (length new <= 1)%nat
    ∧ (∀ d, d ∈ new →
         d = dirname (log a) ∧ d ≠ EmptyString ∧ has_slash (log a) = true
         ∧ path_exists h d = false
         ∧ ∃ rest, log a = d +:+ rest)
    ∧ (has_slash (log a) = false → new = []).
Proof.
  destruct (ensure_log_dir_made (log a) h) as (new & Hmade & Hrest).
  exists new. split; [| exact Hrest]. rewrite <- Hmade.
  unfold main, mbind, M_bind, bind.
  destruct (ensure_log_dir (log a) h) as [[[] | e |] h1]; reflexivity.
Qed.

(** X25. When creating the log directory fails, the error ends the script before
    the simulation: no name is drawn, nothing is printed and no worker is
    started. *)
Theorem main_stops_when_log_directory_fails (a : args) rounds (h : host) msg :
  log a ≠ EmptyString →
  dirname (log a) ≠ EmptyString →
  path_exists h (dirname (log a)) = false →
  mkdir_error h = Some msg →
  main a rounds h
  = (Raise (OSError msg),
     Host (path_exists h) (mkdir_error h) (made h ++ [dirname (log a)]) (sup h)).
Proof.
  intros Hlog Hdir Hmissing Herr.
  assert (Hn1 : nonempty (log a) = true)
    by (destruct (log a) eqn:E; [congruence | reflexivity]).
  assert (Hn2 : nonempty (dirname (log a)) = true)
    by (destruct (dirname (log a)) eqn:E; [congruence | reflexivity]).
  unfold main, ensure_log_dir. rewrite Hn1. cbv zeta. rewrite Hn2.
  unfold mbind, M_bind, bind, gets, makedirs. rewrite Hmissing, Herr.
  reflexivity.
Qed.

Lemma main_stops_when_log_directory_fails_witness :
  let a := Args 10 "SIM-MEET-123" "" 120 20 (1 # 2) "logs/run1/simulator.log" in
  let h := Host (λ _, false) (Some "[Errno 13] Permission denied"%string) []
                (sample_supervisor None) in
  log a ≠ EmptyString
  ∧ dirname (log a) ≠ EmptyString
  ∧ path_exists h (dirname (log a)) = false
  ∧ mkdir_error h = Some "[Errno 13] Permission denied"%string
  ∧ main a [sample_round false] h
    = (Raise (OSError "[Errno 13] Permission denied"),
       Host (path_exists h) (mkdir_error h) ["logs/run1"%string] (sup h)).
Proof.
  intros a h.
  assert (H1 : log a ≠ EmptyString) by discriminate.
  assert (H2 : dirname (log a) ≠ EmptyString) by discriminate.
  split; [exact H1 |]. split; [exact H2 |]. split; [reflexivity |].
  split; [reflexivity |].
  exact (main_stops_when_log_directory_fails a [sample_round false] h _ H1 H2
           eq_refl eq_refl).
Defined.

End Launching.
